(** * Event-management backend: controllers and payment flow

    A shallow embedding of the Express controllers of the event-ticketing
    backend (booking, admin and payment controllers) together with the
    fragment of the JavaScript runtime they rely on: JSON values,
    numbers as IEEE 754 doubles with their conversions from and to
    strings, truthiness, [JSON.stringify] and HMAC-SHA256.

    Handlers are written in a small free monad [prog] whose operations
    are the calls that leave the controller (Mongoose models, the
    Razorpay client, the clock, the random source, the console).  A
    handler is run against an environment [handler]; [mem] is the
    in-memory reading of the document store. *)

From Stdlib Require Import Floats.
From Stdlib Require Import ZArith QArith String Ascii Bool Lia List.
From Stdlib Require Import DecimalString.
Import ListNotations.

Set Warnings "-register-all".
Set Warnings "-inexact-float".

Local Open Scope string_scope.
Local Open Scope list_scope.
Local Open Scope Z_scope.

(** String concatenation, JavaScript's [+] on two strings. *)
Infix "+++" := String.append (right associativity, at level 60).

(* ===================================================================== *)
(** ** Strings and bytes *)
(* ===================================================================== *)

Module Bytes.

(** The UTF-8 bytes of a string; a [string] is kept as its byte sequence. *)
Definition of_string (s : string) : list Z :=
  map (fun c => Z.of_N (N_of_ascii c)) (list_ascii_of_string s).

Definition hex_digit (n : Z) : ascii :=
  if n <? 10 then ascii_of_N (Z.to_N (48 + n))
  else ascii_of_N (Z.to_N (87 + n)).

(** Two lowercase hex digits of a byte. *)
Definition hex_byte (b : Z) : string :=
  String (hex_digit (Z.shiftr b 4)) (String (hex_digit (Z.land b 15)) "").

Definition to_hex (bs : list Z) : string :=
  fold_right (fun b acc => hex_byte b +++ acc) "" bs.

(** Big-endian bytes of a word of [n] bytes. *)
Fixpoint be_bytes (n : nat) (x : Z) : list Z :=
  match n with
  | O => []
  | S k => Z.land (Z.shiftr x (8 * Z.of_nat k)) 255 :: be_bytes k x
  end.

Definition be_word (bs : list Z) : Z :=
  fold_left (fun acc b => Z.lor (Z.shiftl acc 8) b) bs 0.

End Bytes.

(* ===================================================================== *)
(** ** SHA-256 and HMAC ([crypto.createHmac('sha256', key)]) *)
(* ===================================================================== *)

Module SHA256.

Definition w32 (x : Z) : Z := Z.land x 0xffffffff.
Definition add32 (x y : Z) : Z := w32 (x + y).
Definition rotr (n x : Z) : Z :=
  w32 (Z.lor (Z.shiftr x n) (Z.shiftl x (32 - n))).
Definition shr (n x : Z) : Z := Z.shiftr x n.
Definition not32 (x : Z) : Z := Z.lxor x 0xffffffff.

Definition Ch (x y z : Z) := Z.lxor (Z.land x y) (Z.land (not32 x) z).
Definition Maj (x y z : Z) :=
  Z.lxor (Z.lxor (Z.land x y) (Z.land x z)) (Z.land y z).
Definition Sigma0 x := Z.lxor (Z.lxor (rotr 2 x) (rotr 13 x)) (rotr 22 x).
Definition Sigma1 x := Z.lxor (Z.lxor (rotr 6 x) (rotr 11 x)) (rotr 25 x).
Definition sigma0 x := Z.lxor (Z.lxor (rotr 7 x) (rotr 18 x)) (shr 3 x).
Definition sigma1 x := Z.lxor (Z.lxor (rotr 17 x) (rotr 19 x)) (shr 10 x).

(** The round constants and the initial state are the first 32 bits of
    the fractional parts of the cube roots, respectively square roots,
    of the first primes. *)
Definition is_prime (n : Z) : bool :=
  forallb (fun d => negb (n mod Z.of_nat d =? 0))
          (seq 2 (Z.to_nat n - 2)).

Definition primes (k : nat) : list Z :=
  firstn k (filter is_prime (map Z.of_nat (seq 2 320))).

Fixpoint cbrt_bits (n : nat) (x acc : Z) : Z :=
  match n with
  | O => acc
  | S k =>
      let c := Z.lor acc (Z.shiftl 1 (Z.of_nat k)) in
      cbrt_bits k x (if c * c * c <=? x then c else acc)
  end.

Definition frac_cbrt (p : Z) : Z := w32 (cbrt_bits 40 (Z.shiftl p 96) 0).
Definition frac_sqrt (p : Z) : Z := w32 (Z.sqrt (Z.shiftl p 64)).

Definition K : list Z := Eval vm_compute in map frac_cbrt (primes 64).

Definition H0 : list Z := Eval vm_compute in map frac_sqrt (primes 8).

(** Message padding: a 1 bit, zeros up to 56 mod 64, the bit length on
    8 bytes. *)
Definition pad (msg : list Z) : list Z :=
  let len := Z.of_nat (length msg) in
  let zeros := Z.to_nat ((55 - len) mod 64) in
  msg ++ [128] ++ repeat 0 zeros ++ Bytes.be_bytes 8 (8 * len).

Fixpoint chunks (fuel : nat) (n : nat) (bs : list Z) : list (list Z) :=
  match fuel, bs with
  | O, _ | _, [] => []
  | S f, _ => firstn n bs :: chunks f n (skipn n bs)
  end.

Definition words (block : list Z) : list Z :=
  map Bytes.be_word (chunks 16 4 block).

(** The message schedule, most recent word first. *)
Fixpoint schedule (n : nat) (rev_w : list Z) : list Z :=
  match n with
  | O => rev_w
  | S k =>
      let w := add32 (add32 (sigma1 (nth 1 rev_w 0)) (nth 6 rev_w 0))
                     (add32 (sigma0 (nth 14 rev_w 0)) (nth 15 rev_w 0)) in
      schedule k (w :: rev_w)
  end.

Definition st := (Z * Z * Z * Z * Z * Z * Z * Z)%type.

Definition round (s : st) (kw : Z * Z) : st :=
  let '(a, b, c, d, e, f, g, h) := s in
  let t1 := add32 (add32 (add32 h (Sigma1 e)) (add32 (Ch e f g) (fst kw)))
                  (snd kw) in
  let t2 := add32 (Sigma0 a) (Maj a b c) in
  (add32 t1 t2, a, b, c, add32 d t1, e, f, g).

Definition compress (s : st) (block : list Z) : st :=
  let w := rev (schedule 48 (rev (words block))) in
  let '(a, b, c, d, e, f, g, h) := fold_left round (combine K w) s in
  let '(a0, b0, c0, d0, e0, f0, g0, h0) := s in
  (add32 a0 a, add32 b0 b, add32 c0 c, add32 d0 d,
   add32 e0 e, add32 f0 f, add32 g0 g, add32 h0 h).

Definition init : st :=
  match H0 with
  | [a; b; c; d; e; f; g; h] => (a, b, c, d, e, f, g, h)
  | _ => (0, 0, 0, 0, 0, 0, 0, 0)
  end.

Definition digest (msg : list Z) : list Z :=
  let p := pad msg in
  let '(a, b, c, d, e, f, g, h) :=
    fold_left compress (chunks (length p) 64 p) init in
  flat_map (Bytes.be_bytes 4) [a; b; c; d; e; f; g; h].

(** HMAC (RFC 2104) with a 64-byte block. *)
Definition hmac (key msg : list Z) : list Z :=
  let k0 := if (64 <? Z.of_nat (length key)) then digest key else key in
  let k := k0 ++ repeat 0 (64 - length k0)%nat in
  let ipad := map (fun b => Z.lxor b 0x36) k in
  let opad := map (fun b => Z.lxor b 0x5c) k in
  digest (opad ++ digest (ipad ++ msg)).

End SHA256.

(** [crypto.createHmac('sha256', key).update(msg).digest('hex')] *)
Definition hmac_sha256_hex (key msg : string) : string :=
  Bytes.to_hex (SHA256.hmac (Bytes.of_string key) (Bytes.of_string msg)).

(* ===================================================================== *)
(** ** Numbers *)
(* ===================================================================== *)

(** A JavaScript number is an IEEE 754 double, here a primitive [float]:
    [*] and [/] are the operations of the hardware.  What the language
    adds to them is defined below in exact integer arithmetic on the
    significand and exponent of a double: rounding a rational to the
    nearest double, [Math.round], Number::toString and StringToNumber. *)
Module Double.

(** The double nearest to the positive rational [n / d], ties to the
    even significand; an infinity from 2^1024 on. *)
Definition nearest (negative : bool) (n d : Z) : float :=
  if (n <=? 0) || (d <=? 0) then (if negative then (-0)%float else 0%float)
  else
    let l := Z.log2 n - Z.log2 d in
    let scaled (e : Z) : Z * Z :=
      if e <? 0 then (n * 2 ^ (- e), d) else (n, d * 2 ^ e) in
    let e0 := Z.max (l - 53) (-1074) in
    let e := if (2 ^ 53 <=? fst (scaled e0) / snd (scaled e0))
             then e0 + 1 else e0 in
    let '(N, D) := scaled e in
    let q := N / D in
    let r := N mod D in
    let q := if (D <? 2 * r) || ((D =? 2 * r) && Z.odd q) then q + 1 else q in
    let '(q, e) := if q =? 2 ^ 53 then (2 ^ 52, e + 1) else (q, e) in
    if 971 <? e then (if negative then neg_infinity else infinity)
    else if q =? 0 then (if negative then (-0)%float else 0%float)
    else SF2Prim (S754_finite negative (Z.to_pos q) e).

Definition of_Z (z : Z) : float := nearest (z <? 0) (Z.abs z) 1.

(** [Math.round]: the integer nearest to [x], ties towards +Infinity;
    a result of zero keeps the sign of [x]. *)
Definition round (x : float) : float :=
  match Prim2SF x with
  | S754_finite s m e =>
      if 0 <=? e then x
      else
        let M := if s then - Zpos m else Zpos m in
        let k := - e in
        let n := (2 * M + 2 ^ k) / 2 ^ (k + 1) in
        if n =? 0 then (if s then (-0)%float else 0%float) else of_Z n
  | _ => x
  end.

(** The decimal digits of a natural number. *)
Definition digits_of (n : Z) : string :=
  NilZero.string_of_uint (N.to_uint (Z.to_N n)).

(** The interval of the rationals that round to the positive double
    [m * 2^e], over the common denominator [den]: its ends, whether
    they belong to it, and the double itself. *)
Definition neighbourhood (m e : Z) : Z * Z * Z * Z * bool :=
  let narrow := (m =? 2 ^ 52) && (-1074 <? e) in
  (* everything in units of 2^(e-2) *)
  let unit_exp := e - 2 in
  let v := 4 * m in
  let low := v - (if narrow then 1 else 2) in
  let high := v + 2 in
  let '(num_scale, den) :=
    if unit_exp <? 0 then (1, 2 ^ (- unit_exp)) else (2 ^ unit_exp, 1) in
  (low * num_scale, v * num_scale, high * num_scale, den, Z.even m).

(** The shortest decimal [s * 10^p] that rounds to [m * 2^e], the
    nearest one among the shortest: tried with 1, 2, ... digits. *)
Fixpoint shortest (fuel : nat) (k : Z) (magnitude : Z)
         (low v high den : Z) (closed : bool) : Z * Z :=
  let p := magnitude - k in
  (* s * 10^p compared with x / den : s * 10^p * den ? x *)
  let '(a, b) := if p <? 0 then (v * 10 ^ (- p), den)
                 else (v, den * 10 ^ p) in
  let s_low := a / b in
  let inside (s : Z) : bool :=
    let '(lhs, lo, hi) :=
      if p <? 0 then (s * den, low * 10 ^ (- p), high * 10 ^ (- p))
      else (s * 10 ^ p * den, low, high) in
    if closed then (lo <=? lhs) && (lhs <=? hi)
    else (lo <? lhs) && (lhs <? hi) in
  let r := a mod b in
  let first_choice :=
    (* the nearer of s_low and s_low + 1, the even one on a tie *)
    if (2 * r <? b) || ((2 * r =? b) && Z.even s_low)
    then (s_low, s_low + 1) else (s_low + 1, s_low) in
  let pick :=
    if (0 <? fst first_choice) && inside (fst first_choice)
    then Some (fst first_choice)
    else if (0 <? snd first_choice) && inside (snd first_choice)
    then Some (snd first_choice)
    else None in
  match pick, fuel with
  | Some s, _ => (s, p)
  | None, S fuel' => shortest fuel' (k + 1) magnitude low v high den closed
  | None, O => (s_low, p)
  end.

(** The number of decimal digits of the integer part of [v / den], or
    minus the number of zeros after the point: the [n] with
    [10^(n-1) <= v / den < 10^n]. *)
Fixpoint magnitude_up (fuel : nat) (n : Z) (v den : Z) : Z :=
  match fuel with
  | O => n
  | S f => if den * 10 ^ n <=? v then magnitude_up f (n + 1) v den else n
  end.

Fixpoint magnitude_down (fuel : nat) (n : Z) (v den : Z) : Z :=
  match fuel with
  | O => n
  | S f =>
      (* v / den < 10^(n-1) with n <= 0 *)
      if v * 10 ^ (1 - n) <? den then magnitude_down f (n - 1) v den else n
  end.

Definition magnitude (v den : Z) : Z :=
  if den <=? v then magnitude_up 400 1 v den
  else magnitude_down 400 0 v den.

Fixpoint strip_zeros (fuel : nat) (s p : Z) : Z * Z :=
  match fuel with
  | O => (s, p)
  | S f => if (s mod 10 =? 0) && negb (s =? 0)
           then strip_zeros f (s / 10) (p + 1) else (s, p)
  end.

Definition zeros (n : Z) : string :=
  string_of_list_ascii (repeat "0"%char (Z.to_nat n)).

(** Number::toString in radix 10, for a positive finite double. *)
Definition positive_to_string (m e : Z) : string :=
  let '(low, v, high, den, closed) := neighbourhood m e in
  let '(s, p) := shortest 20 1 (magnitude v den) low v high den closed in
  let '(s, p) := strip_zeros 20 s p in
  let ds := digits_of s in
  let k := Z.of_nat (String.length ds) in
  let n := p + k in
  if (k <=? n) && (n <=? 21) then ds +++ zeros (n - k)
  else if (0 <? n) && (n <=? 21)
  then substring 0 (Z.to_nat n) ds +++ "." +++
       substring (Z.to_nat n) (Z.to_nat (k - n)) ds
  else if (-6 <? n) && (n <=? 0)
  then "0." +++ zeros (- n) +++ ds
  else
    let ex := n - 1 in
    let exponent := (if ex <? 0 then "-" else "+") +++ digits_of (Z.abs ex) in
    if k =? 1 then ds +++ "e" +++ exponent
    else substring 0 1 ds +++ "." +++ substring 1 (Z.to_nat (k - 1)) ds
         +++ "e" +++ exponent.

Definition to_string (x : float) : string :=
  match Prim2SF x with
  | S754_nan => "NaN"
  | S754_zero _ => "0"
  | S754_infinity s => if s then "-Infinity" else "Infinity"
  | S754_finite s m e =>
      (if s then "-" else "") +++ positive_to_string (Zpos m) e
  end.


(** ** StringToNumber *)

Definition is_digit (c : ascii) : bool :=
  let n := N_of_ascii c in ((48 <=? n) && (n <=? 57))%N.

(** The value of a digit in a radix up to sixteen, if it is one. *)
Definition digit_in (radix : Z) (c : ascii) : option Z :=
  let n := Z.of_N (N_of_ascii c) in
  let d := if (48 <=? n) && (n <=? 57) then n - 48
           else if (97 <=? n) && (n <=? 102) then n - 87
           else if (65 <=? n) && (n <=? 70) then n - 55
           else 16 in
  if d <? radix then Some d else None.

(** The natural number written by [s] in [radix]; [None] if [s] is
    empty or holds another character. *)
Fixpoint numeral (radix : Z) (acc : Z) (s : string) : option Z :=
  match s with
  | EmptyString => Some acc
  | String c rest =>
      match digit_in radix c with
      | Some d => numeral radix (radix * acc + d) rest
      | None => None
      end
  end.

Definition natural (radix : Z) (s : string) : option Z :=
  match s with
  | EmptyString => None
  | _ => numeral radix 0 s
  end.

(** The longest prefix of digits of [s], and what follows it. *)
Fixpoint span_digits (s : string) : string * string :=
  match s with
  | String c rest =>
      if is_digit c
      then let '(ds, tl) := span_digits rest in (String c ds, tl)
      else (EmptyString, s)
  | EmptyString => (EmptyString, EmptyString)
  end.

(** White space and line terminators, in UTF-8: the bytes of one such
    character at the head of [s] are dropped. *)
Definition white_space : list (list Z) :=
  [[9]; [10]; [11]; [12]; [13]; [32]; [194; 160]; [225; 154; 128];
   [226; 128; 128]; [226; 128; 129]; [226; 128; 130]; [226; 128; 131];
   [226; 128; 132]; [226; 128; 133]; [226; 128; 134]; [226; 128; 135];
   [226; 128; 136]; [226; 128; 137]; [226; 128; 138]; [226; 128; 168];
   [226; 128; 169]; [226; 128; 175]; [226; 129; 159]; [227; 128; 128];
   [239; 187; 191]].

Fixpoint drop_bytes (bs : list Z) (s : string) : option string :=
  match bs, s with
  | [], _ => Some s
  | b :: bs', String c rest =>
      if Z.of_N (N_of_ascii c) =? b then drop_bytes bs' rest else None
  | _ :: _, EmptyString => None
  end.

Fixpoint drop_first (alternatives : list (list Z)) (s : string)
  : option string :=
  match alternatives with
  | [] => None
  | bs :: others =>
      match drop_bytes bs s with
      | Some rest => Some rest
      | None => drop_first others s
      end
  end.

Fixpoint trim_left (fuel : nat) (s : string) : string :=
  match fuel with
  | O => s
  | S f =>
      match drop_first white_space s with
      | Some rest => trim_left f rest
      | None => s
      end
  end.

Definition blank (s : string) : bool :=
  String.eqb (trim_left (String.length s) s) EmptyString.

Fixpoint trim_right (s : string) : string :=
  match s with
  | EmptyString => EmptyString
  | String c rest => if blank s then EmptyString else String c (trim_right rest)
  end.

Definition trim (s : string) : string :=
  trim_right (trim_left (String.length s) s).

(** [mantissa * 10^exponent], rounded; the exponent may be huge. *)
Definition scaled (negative : bool) (mantissa exponent : Z) : float :=
  if mantissa =? 0 then (if negative then (-0)%float else 0%float)
  else
    let size := Z.of_nat (String.length (digits_of mantissa)) + exponent in
    if 400 <? size then (if negative then neg_infinity else infinity)
    else if size <? -400 then (if negative then (-0)%float else 0%float)
    else if exponent <? 0 then nearest negative mantissa (10 ^ (- exponent))
    else nearest negative (mantissa * 10 ^ exponent) 1.

(** An unsigned StrDecimalLiteral other than [Infinity]. *)
Definition decimal (negative : bool) (s : string) : float :=
  let '(int_part, after_int) := span_digits s in
  let '(frac_part, after_frac) :=
    match after_int with
    | String "." rest => span_digits rest
    | _ => (EmptyString, after_int)
    end in
  let exponent : option Z :=
    match after_frac with
    | EmptyString => Some 0
    | String c rest =>
        if (Ascii.eqb c "e" || Ascii.eqb c "E")%bool
        then match rest with
             | String "-" ds => option_map Z.opp (natural 10 ds)
             | String "+" ds => natural 10 ds
             | ds => natural 10 ds
             end
        else None
    end in
  match exponent, int_part +++ frac_part with
  | None, _ => nan
  | _, EmptyString => nan
  | Some ex, ds =>
      match numeral 10 0 ds with
      | Some mantissa =>
          scaled negative mantissa (ex - Z.of_nat (String.length frac_part))
      | None => nan
      end
  end.

Definition signed_decimal (negative : bool) (s : string) : float :=
  if String.eqb s "Infinity"
  then (if negative then neg_infinity else infinity)
  else decimal negative s.

Definition radix_literal (radix : Z) (s : string) : float :=
  match natural radix s with
  | Some n => of_Z n
  | None => nan
  end.

(** StringToNumber: the value of a StringNumericLiteral, NaN for any
    other string. *)
Definition of_string (s : string) : float :=
  match trim s with
  | EmptyString => 0%float
  | String "0" (String "x" ds) | String "0" (String "X" ds) =>
      radix_literal 16 ds
  | String "0" (String "o" ds) | String "0" (String "O" ds) =>
      radix_literal 8 ds
  | String "0" (String "b" ds) | String "0" (String "B" ds) =>
      radix_literal 2 ds
  | String "+" rest => signed_decimal false rest
  | String "-" rest => signed_decimal true rest
  | t => signed_decimal false t
  end.

End Double.

(* ===================================================================== *)
(** ** JavaScript values as they arrive in a parsed JSON body *)
(* ===================================================================== *)

(** A number is a double; [JUndefined] is what reading an absent
    property yields.  An object is the list of its own properties in
    enumeration order. *)
Inductive jsval : Type :=
| JUndefined
| JNull
| JBool (b : bool)
| JNum (x : float)
| JStr (s : string)
| JArr (items : list jsval)
| JObj (fields : list (string * jsval)).

(** A thrown value; handlers only ever read its [message]. *)
Record error : Type := Err { message : jsval }.

Definition TypeError (msg : string) : error := Err (JStr msg).

Module JS.

(** ToBoolean: what [!v] and [if (v)] test. *)
Definition truthy (v : jsval) : bool :=
  match v with
  | JUndefined | JNull => false
  | JBool b => b
  | JNum x => negb (PrimFloat.eqb x 0 || PrimFloat.is_nan x)
  | JStr s => negb (String.eqb s "")
  | JArr _ | JObj _ => true
  end.

(** [a || b] *)
Definition or (a b : jsval) : jsval := if truthy a then a else b.

Fixpoint own {A} (k : string) (fs : list (string * A)) : option A :=
  match fs with
  | [] => None
  | (k', v) :: rest => if String.eqb k k' then Some v else own k rest
  end.

(** [fs] with own property [k] set to [v] (in place when present). *)
Fixpoint set {A} (k : string) (v : A) (fs : list (string * A))
  : list (string * A) :=
  match fs with
  | [] => [(k, v)]
  | (k', v') :: rest =>
      if String.eqb k k' then (k, v) :: rest else (k', v') :: set k v rest
  end.

(** Property read [o.k] for the keys the handlers read, none of which
    is inherited from a prototype: a TypeError on [undefined] and
    [null], the own property of an object, [undefined] otherwise. *)
Definition get (o : jsval) (k : string) : error + jsval :=
  match o with
  | JUndefined =>
      inl (TypeError ("Cannot read properties of undefined (reading '"
                      +++ k +++ "')"))
  | JNull =>
      inl (TypeError ("Cannot read properties of null (reading '"
                      +++ k +++ "')"))
  | JObj fs => inr (match own k fs with Some v => v | None => JUndefined end)
  | _ => inr JUndefined
  end.

(** [s === v] against a string *)
Definition str_eq (s : string) (v : jsval) : bool :=
  match v with
  | JStr t => String.eqb s t
  | _ => false
  end.

(** [xs.includes(v)] on an array of strings *)
Definition includes (xs : list string) (v : jsval) : bool :=
  existsb (fun s => str_eq s v) xs.

(** [String(n)] and [`${n}`] for the number that an integer [z]
    denotes, the double nearest to it. *)
Definition Number_toString (z : Z) : string :=
  Double.to_string (Double.of_Z z).

Fixpoint join (sep : string) (xs : list string) : string :=
  match xs with
  | [] => ""
  | [x] => x
  | x :: rest => x +++ sep +++ join sep rest
  end.

Fixpoint sequence {A} (xs : list (option A)) : option (list A) :=
  match xs with
  | [] => Some []
  | None :: _ => None
  | Some x :: rest =>
      match sequence rest with
      | Some r => Some (x :: r)
      | None => None
      end
  end.

(** ToString, as applied by [+] with a string, by a template literal
    and by [v.toString()] on a value read from JSON.  An array joins
    its elements with commas, [null] and [undefined] elements printing
    as empty; an object prints as [[object Object]] unless an own
    [toString] property (never callable in JSON) shadows the inherited
    method, which is a TypeError ([None]). *)
Fixpoint ToString (v : jsval) : option string :=
  match v with
  | JUndefined => Some "undefined"
  | JNull => Some "null"
  | JBool true => Some "true"
  | JBool false => Some "false"
  | JNum x => Some (Double.to_string x)
  | JStr s => Some s
  | JArr items =>
      let elem x :=
        match x with
        | JUndefined | JNull => Some ""
        | _ => ToString x
        end in
      match sequence (map elem items) with
      | Some parts => Some (join "," parts)
      | None => None
      end
  | JObj fs =>
      match own "toString" fs with
      | Some _ => None
      | None => Some "[object Object]"
      end
  end.

Definition toString (v : jsval) : error + string :=
  match ToString v with
  | Some s => inr s
  | None => inl (TypeError "Cannot convert object to primitive value")
  end.

(** StringToNumber *)
Definition StringToNumber (s : string) : float := Double.of_string s.

(** ToNumber; [None] is the TypeError of converting an object that
    has an own [toString] property. *)
Definition ToNumber (v : jsval) : option float :=
  match v with
  | JUndefined => Some nan
  | JNull => Some 0%float
  | JBool b => Some (if b then 1%float else 0%float)
  | JNum x => Some x
  | JStr s => Some (StringToNumber s)
  | JArr _ | JObj _ =>
      match ToString v with
      | Some s => Some (StringToNumber s)
      | None => None
      end
  end.

(** [v * n], the product of two doubles *)
Definition times (v : jsval) (n : float) : error + float :=
  match ToNumber v with
  | Some x => inr (x * n)%float
  | None => inl (TypeError "Cannot convert object to primitive value")
  end.

(** [Math.round] *)
Definition Math_round (x : float) : float := Double.round x.

(** ** [JSON.stringify] *)

Definition hex4 (n : Z) : string :=
  Bytes.to_hex (Bytes.be_bytes 2 n).

Definition dq : string := String (ascii_of_N 34) "".

Definition quote_char (c : ascii) : string :=
  let n := Z.of_N (N_of_ascii c) in
  if n =? 34 then "\" +++ dq else
  if n =? 92 then "\\" else
  if n =? 8 then "\b" else
  if n =? 9 then "\t" else
  if n =? 10 then "\n" else
  if n =? 12 then "\f" else
  if n =? 13 then "\r" else
  if n <? 32 then "\u" +++ hex4 n else
  String c "".

Fixpoint quote_body (s : string) : string :=
  match s with
  | EmptyString => ""
  | String c rest => quote_char c +++ quote_body rest
  end.

(** QuoteJSONString *)
Definition quote (s : string) : string := dq +++ quote_body s +++ dq.

(** SerializeJSONProperty: [None] is [undefined]. *)
Fixpoint stringify (v : jsval) : option string :=
  match v with
  | JUndefined => None
  | JNull => Some "null"
  | JBool true => Some "true"
  | JBool false => Some "false"
  | JNum x =>
      Some (if PrimFloat.is_finite x then Double.to_string x else "null")
  | JStr s => Some (quote s)
  | JArr items =>
      let elem x :=
        match stringify x with Some s => s | None => "null" end in
      Some ("[" +++ join "," (map elem items) +++ "]")
  | JObj fs =>
      let member (kv : string * jsval) :=
        match stringify (snd kv) with
        | Some s => [quote (fst kv) +++ ":" +++ s]
        | None => []
        end in
      Some ("{" +++ join "," (flat_map member fs) +++ "}")
  end.

End JS.

(* ===================================================================== *)
(** ** Requests, responses and the calls that leave a controller *)
(* ===================================================================== *)

(** A Mongoose document: its fields, [_id] among them. *)
Definition doc : Type := list (string * jsval).

(** What [res.json] is given: request values, documents, and the
    quotients [x / 100] computed from gateway amounts. *)
Inductive out : Type :=
| OVal (v : jsval)
| ONum (x : float)
| OObj (fields : list (string * out)).

Coercion OVal : jsval >-> out.

Record response : Type := Res { status : Z; body : list (string * out) }.

(** [req.body], [req.params.id] (or [req.params.orderId]), [req.user] as
    the [protect] middleware left it, and [req.headers]. *)
Record request : Type := Req {
  req_body : jsval;
  req_param : jsval;
  req_user : jsval;
  req_headers : list (string * jsval)
}.

Inductive model : Type := Event | User | Booking.

(** [.populate(path, select)]; [ref] is the model the path refers to. *)
Record populate : Type := Populate {
  path : string;
  ref : model;
  select : option (list string)
}.

(** The options object handed to [razorpay.orders.create]. *)
Record OrderOptions : Type := {
  opt_amount : float;
  opt_currency : jsval;
  opt_receipt : string;
  opt_notes : list (string * string)
}.

(** The order entity the gateway answers with. *)
Record Order : Type := {
  order_id : string;
  order_amount : float;
  order_currency : string;
  order_receipt : string
}.

(** The options object handed to [razorpay.payments.refund]. *)
Record RefundOptions : Type := {
  refund_speed : string;
  refund_notes : list (string * jsval);
  refund_opt_amount : option float
}.

Record Refund : Type := {
  refund_id : string;
  refund_amount : float;
  refund_status : string
}.

Inductive op : Type -> Type :=
| FindById (m : model) (id : jsval) : op (option doc)
| FindByIdPopulate (m : model) (id : jsval) (paths : list populate)
  : op (option doc)
| FindOne (m : model) (filter : doc) : op (option doc)
| Find (m : model) (filter : doc) (paths : list populate) : op (list doc)
| Create (m : model) (fields : doc) : op doc
| Save (m : model) (d : doc) : op unit
| DeleteOne (m : model) (d : doc) : op unit
| Orders_create (o : OrderOptions) : op Order
| Orders_fetchPayments (orderId : jsval) : op jsval
| Payments_refund (paymentId : jsval) (o : RefundOptions) : op Refund
| Date_now : op Z
| Math_random_toString36 : op string
| Console_log (label : string) (v : jsval) : op unit
| Console_error (label : string) (e : error) : op unit.

(** Handler bodies: return, throw, or perform a call and continue with
    its answer, which is a value or a thrown error. *)
Inductive prog (A : Type) : Type :=
| Ret (a : A)
| Throw (e : error)
| Vis (X : Type) (o : op X) (k : error + X -> prog A).

Arguments Ret {A} a.
Arguments Throw {A} e.
Arguments Vis {A X} o k.

Fixpoint bind {A B} (p : prog A) (f : A -> prog B) : prog B :=
  match p with
  | Ret a => f a
  | Throw e => Throw e
  | Vis o k => Vis o (fun x => bind (k x) f)
  end.

(** [try { p } catch (error) { h error }] *)
Fixpoint try_catch {A} (p : prog A) (h : error -> prog A) : prog A :=
  match p with
  | Ret a => Ret a
  | Throw e => h e
  | Vis o k => Vis o (fun x => try_catch (k x) h)
  end.

Definition lift {A} (r : error + A) : prog A :=
  match r with
  | inl e => Throw e
  | inr a => Ret a
  end.

Definition call {X} (o : op X) : prog X := Vis o lift.

Declare Scope prog_scope.
Delimit Scope prog_scope with prog.
Notation "x <- p ;; q" := (bind p (fun x => q))
  (at level 61, p at next level, right associativity) : prog_scope.
Notation "p ;; q" := (bind p (fun _ => q))
  (at level 61, right associativity) : prog_scope.
Notation "'await' o" := (call o) (at level 10, o at level 9) : prog_scope.
Local Open Scope prog_scope.

(** One performed call. *)
Inductive event : Type := Call (X : Type) (o : op X).
Arguments Call {X} o.

(** An environment answers every call, or makes it throw. *)
Definition handler (W : Type) : Type :=
  forall X, op X -> W -> (error + X) * W.

Record outcome (W A : Type) : Type := Outcome {
  result : error + A;
  final : W;
  calls : list event
}.
Arguments Outcome {W A}.
Arguments result {W A}.
Arguments final {W A}.
Arguments calls {W A}.

Fixpoint run {W A} (h : handler W) (p : prog A) (w : W) : outcome W A :=
  match p with
  | Ret a => Outcome (inr a) w []
  | Throw e => Outcome (inl e) w []
  | Vis o k =>
      let '(x, w') := h _ o w in
      let r := run h (k x) w' in
      Outcome (result r) (final r) (Call o :: calls r)
  end.

Definition json (code : Z) (fields : list (string * out)) : prog response :=
  Ret (Res code fields).

(** [v.toString()]: a method call, so a TypeError on [undefined] and
    [null] as well. *)
Definition method_toString (v : jsval) : error + string :=
  match v with
  | JUndefined =>
      inl (TypeError "Cannot read properties of undefined (reading 'toString')")
  | JNull =>
      inl (TypeError "Cannot read properties of null (reading 'toString')")
  | _ => JS.toString v
  end.

(** A document handed to [res.json]; [null] when the query found none. *)
Definition doc_or_null (d : option doc) : jsval :=
  match d with
  | Some fs => JObj fs
  | None => JNull
  end.

(** The field [d.k] of a document. *)
Definition field (d : doc) (k : string) : jsval :=
  match JS.own k d with
  | Some v => v
  | None => JUndefined
  end.

(* ===================================================================== *)
(** ** controllers/bookingController.js *)
(* ===================================================================== *)

Module bookingController.

(** Book an event *)
Definition bookEvent (req : request) : prog response :=
  try_catch
    (eventId <- lift (JS.get (req_body req) "eventId") ;;
     (* Check event exists *)
     event <- await (FindById Event eventId) ;;
     match event with
     | None =>
         json 404 [("success", OVal (JBool false));
                   ("message", OVal (JStr "Event not found"))]
     | Some _ =>
         (* Prevent duplicate booking *)
         user <- lift (JS.get (req_user req) "id") ;;
         existingBooking <-
           await (FindOne Booking [("user", user); ("event", eventId)]) ;;
         match existingBooking with
         | Some _ =>
             json 400 [("success", OVal (JBool false));
                       ("message",
                        OVal (JStr "You already booked this event"))]
         | None =>
             (* Create booking *)
             user' <- lift (JS.get (req_user req) "id") ;;
             booking <-
               await (Create Booking [("user", user'); ("event", eventId)]) ;;
             json 201 [("success", OVal (JBool true));
                       ("data", OVal (JObj booking))]
         end
     end)
    (fun error =>
       json 500 [("success", OVal (JBool false));
                 ("message", OVal (message error))]).

(** Get my bookings *)
Definition getMyBookings (req : request) : prog response :=
  try_catch
    (user <- lift (JS.get (req_user req) "id") ;;
     bookings <-
       await (Find Booking [("user", user)] [Populate "event" Event None]) ;;
     json 200 [("success", OVal (JBool true));
               ("data", OVal (JArr (map JObj bookings)))])
    (fun error =>
       json 500 [("success", OVal (JBool false));
                 ("message", OVal (message error))]).

Definition validStatuses : list string :=
  ["booked"; "cancelled"; "confirmed"; "attended"].

(** Admin: Update booking status *)
Definition adminUpdateBooking (req : request) : prog response :=
  try_catch
    (let id := req_param req in
     status <- lift (JS.get (req_body req) "status") ;;
     (* Validate status *)
     if JS.truthy status && negb (JS.includes validStatuses status)
     then
       json 400 [("success", OVal (JBool false));
                 ("message",
                  OVal (JStr ("Invalid status. Valid statuses are: "
                              +++ JS.join ", " validStatuses)))]
     else
       (* Find booking *)
       booking <- await (FindById Booking id) ;;
       match booking with
       | None =>
           json 404 [("success", OVal (JBool false));
                     ("message", OVal (JStr "Booking not found"))]
       | Some booking =>
           (* Update booking *)
           let booking :=
             if JS.truthy status then JS.set "status" status booking
             else booking in
           await (Save Booking booking) ;;
           (* Populate and return updated booking *)
           updatedBooking <-
             await (FindByIdPopulate Booking id
                      [Populate "user" User (Some ["name"; "email"]);
                       Populate "event" Event
                         (Some ["title"; "date"; "location"])]) ;;
           json 200 [("success", OVal (JBool true));
                     ("message", OVal (JStr "Booking updated successfully"));
                     ("data", OVal (doc_or_null updatedBooking))]
       end)
    (fun error =>
       await (Console_error "Error updating booking:" error) ;;
       json 500 [("success", OVal (JBool false));
                 ("message",
                  OVal (JS.or (message error) (JStr "Server Error")))]).

(** Admin: Delete booking *)
Definition adminDeleteBooking (req : request) : prog response :=
  try_catch
    (let id := req_param req in
     booking <- await (FindById Booking id) ;;
     match booking with
     | None =>
         json 404 [("success", OVal (JBool false));
                   ("message", OVal (JStr "Booking not found"))]
     | Some booking =>
         await (DeleteOne Booking booking) ;;
         json 200 [("success", OVal (JBool true));
                   ("message", OVal (JStr "Booking deleted successfully"))]
     end)
    (fun error =>
       await (Console_error "Error deleting booking:" error) ;;
       json 500 [("success", OVal (JBool false));
                 ("message",
                  OVal (JS.or (message error) (JStr "Server Error")))]).

End bookingController.

(* ===================================================================== *)
(** ** controllers/eventController.js *)
(* ===================================================================== *)

Module eventController.

(** Create Event *)
Definition createEvent (req : request) : prog response :=
  try_catch
    (title <- lift (JS.get (req_body req) "title") ;;
     description <- lift (JS.get (req_body req) "description") ;;
     date <- lift (JS.get (req_body req) "date") ;;
     location <- lift (JS.get (req_body req) "location") ;;
     createdBy <- lift (JS.get (req_user req) "id") ;;
     event <-
       await (Create Event [("title", title); ("description", description);
                            ("date", date); ("location", location);
                            ("createdBy", createdBy)]) ;;
     json 201 [("success", OVal (JBool true));
               ("data", OVal (JObj event))])
    (fun error =>
       json 500 [("success", OVal (JBool false));
                 ("message", OVal (message error))]).

End eventController.

(* ===================================================================== *)
(** ** controllers/adminController.js *)
(* ===================================================================== *)

Module adminController.

(** Delete event by ID (Admin) *)
Definition deleteEvent (req : request) : prog response :=
  try_catch
    (event <- await (FindById Event (req_param req)) ;;
     match event with
     | None =>
         json 404 [("success", OVal (JBool false));
                   ("message", OVal (JStr "Event not found"))]
     | Some event =>
         await (DeleteOne Event event) ;;
         json 200 [("success", OVal (JBool true));
                   ("message", OVal (JStr "Event deleted successfully"))]
     end)
    (fun error =>
       await (Console_error "Error deleting event:" error) ;;
       json 500 [("success", OVal (JBool false));
                 ("message",
                  OVal (JS.or (message error) (JStr "Server Error")))]).

(** Delete user by ID (Admin) *)
Definition deleteUser (req : request) : prog response :=
  try_catch
    (user <- await (FindById User (req_param req)) ;;
     match user with
     | None =>
         json 404 [("success", OVal (JBool false));
                   ("message", OVal (JStr "User not found"))]
     | Some user =>
         (* Prevent deleting yourself *)
         user_id <- lift (method_toString (field user "_id")) ;;
         me <- lift (JS.get (req_user req) "id") ;;
         if JS.str_eq user_id me
         then
           json 400 [("success", OVal (JBool false));
                     ("message",
                      OVal (JStr "You cannot delete your own account"))]
         else
           await (DeleteOne User user) ;;
           json 200 [("success", OVal (JBool true));
                     ("message", OVal (JStr "User deleted successfully"))]
     end)
    (fun error =>
       await (Console_error "Error deleting user:" error) ;;
       json 500 [("success", OVal (JBool false));
                 ("message",
                  OVal (JS.or (message error) (JStr "Server Error")))]).

(** Update user role (Admin) *)
Definition updateUserRole (req : request) : prog response :=
  try_catch
    (role <- lift (JS.get (req_body req) "role") ;;
     if negb (JS.truthy role)
        || negb (JS.includes ["user"; "organizer"; "admin"] role)
     then
       json 400 [("success", OVal (JBool false));
                 ("message",
                  OVal (JStr
                    "Please provide a valid role (user, organizer, admin)"))]
     else
       user <- await (FindById User (req_param req)) ;;
       match user with
       | None =>
           json 404 [("success", OVal (JBool false));
                     ("message", OVal (JStr "User not found"))]
       | Some user =>
           let user := JS.set "role" role user in
           await (Save User user) ;;
           role_s <- lift (JS.toString role) ;;
           json 200 [("success", OVal (JBool true));
                     ("message",
                      OVal (JStr ("User role updated to " +++ role_s)));
                     ("data",
                      OObj [("id", OVal (field user "_id"));
                            ("name", OVal (field user "name"));
                            ("email", OVal (field user "email"));
                            ("role", OVal (field user "role"))])]
       end)
    (fun error =>
       await (Console_error "Error updating user role:" error) ;;
       json 500 [("success", OVal (JBool false));
                 ("message",
                  OVal (JS.or (message error) (JStr "Server Error")))]).

End adminController.

(* ===================================================================== *)
(** ** controllers/paymentController.js *)
(* ===================================================================== *)

(** The two variables read from [process.env]. *)
Record process_env : Type := {
  RAZORPAY_KEY_SECRET : option string;
  RAZORPAY_WEBHOOK_SECRET : option string
}.

(** [process.env.X || dflt] *)
Definition env_or (x : option string) (dflt : string) : string :=
  match x with
  | Some s => if String.eqb s "" then dflt else s
  | None => dflt
  end.

Module paymentController.
Section WithEnv.

Variable env : process_env.

(** Create a new payment order: POST /api/payments/create-order *)
Definition createOrder (req : request) : prog response :=
  try_catch
    (eventId <- lift (JS.get (req_body req) "eventId") ;;
     ticketCount <- lift (JS.get (req_body req) "ticketCount") ;;
     amount <- lift (JS.get (req_body req) "amount") ;;
     currency <- lift (JS.get (req_body req) "currency") ;;
     let currency :=
       match currency with JUndefined => JStr "INR" | _ => currency end in
     (* Validate input *)
     if negb (JS.truthy eventId) || negb (JS.truthy ticketCount)
        || negb (JS.truthy amount)
     then
       json 400 [("success", OVal (JBool false));
                 ("message",
                  OVal (JStr
                    "Missing required fields: eventId, ticketCount, amount"))]
     else
       (* Create order options *)
       paise <- lift (JS.times amount 100) ;;
       eventId_s <- lift (JS.toString eventId) ;;
       now <- await Date_now ;;
       notes_eventId <- lift (method_toString eventId) ;;
       notes_ticketCount <- lift (method_toString ticketCount) ;;
       let options :=
         {| opt_amount := JS.Math_round paise; (* Amount in paise *)
            opt_currency := currency;
            opt_receipt :=
              "booking_" +++ eventId_s +++ "_" +++ JS.Number_toString now;
            opt_notes := [("eventId", notes_eventId);
                          ("ticketCount", notes_ticketCount)] |} in
       (* Create Razorpay order *)
       order <- await (Orders_create options) ;;
       now' <- await Date_now ;;
       random <- await Math_random_toString36 ;;
       let bookingId :=
         "booking_" +++ JS.Number_toString now' +++ "_"
         +++ substring 2 9 random in
       (* TODO: Save booking to database with status 'pending' *)
       json 200 [("success", OVal (JBool true));
                 ("order",
                  OObj [("id", OVal (JStr (order_id order)));
                        ("amount", ONum (order_amount order / 100));
                        ("currency", OVal (JStr (order_currency order)));
                        ("receipt", OVal (JStr (order_receipt order)))]);
                 ("bookingId", OVal (JStr bookingId))])
    (fun error =>
       await (Console_error "Error creating payment order:" error) ;;
       json 500 [("success", OVal (JBool false));
                 ("message", OVal (JStr "Failed to create payment order"));
                 ("error", OVal (message error))]).

(** The signature [verifyPayment] expects for an order and a payment. *)
Definition expectedSignature (order_s payment_s : string) : string :=
  hmac_sha256_hex (env_or (RAZORPAY_KEY_SECRET env) "YOUR_KEY_SECRET")
                  (order_s +++ "|" +++ payment_s).

(** Verify payment after successful transaction:
    POST /api/payments/verify *)
Definition verifyPayment (req : request) : prog response :=
  try_catch
    (razorpay_order_id <- lift (JS.get (req_body req) "razorpay_order_id") ;;
     razorpay_payment_id <-
       lift (JS.get (req_body req) "razorpay_payment_id") ;;
     razorpay_signature <-
       lift (JS.get (req_body req) "razorpay_signature") ;;
     bookingId <- lift (JS.get (req_body req) "bookingId") ;;
     (* Validate input *)
     if negb (JS.truthy razorpay_order_id)
        || negb (JS.truthy razorpay_payment_id)
        || negb (JS.truthy razorpay_signature)
     then
       json 400 [("success", OVal (JBool false));
                 ("message", OVal (JStr "Missing payment verification data"))]
     else
       (* Verify signature *)
       order_s <- lift (JS.toString razorpay_order_id) ;;
       payment_s <- lift (JS.toString razorpay_payment_id) ;;
       let isAuthentic :=
         JS.str_eq (expectedSignature order_s payment_s)
                   razorpay_signature in
       if negb isAuthentic
       then
         json 400 [("success", OVal (JBool false));
                   ("message",
                    OVal (JStr
                      "Payment verification failed - Invalid signature"))]
       else
         (* TODO: Update booking status in database *)
         json 200 [("success", OVal (JBool true));
                   ("message", OVal (JStr "Payment verified successfully"));
                   ("bookingId", OVal bookingId);
                   ("paymentId", OVal razorpay_payment_id)])
    (fun error =>
       await (Console_error "Error verifying payment:" error) ;;
       json 500 [("success", OVal (JBool false));
                 ("message", OVal (JStr "Payment verification failed"));
                 ("error", OVal (message error))]).

(** Get payment details by order ID: GET /api/payments/order/:orderId *)
Definition getPaymentByOrderId (req : request) : prog response :=
  try_catch
    (let orderId := req_param req in
     payments <- await (Orders_fetchPayments orderId) ;;
     items <- lift (JS.get payments "items") ;;
     json 200 [("success", OVal (JBool true));
               ("payments", OVal items)])
    (fun error =>
       await (Console_error "Error fetching payment:" error) ;;
       json 500 [("success", OVal (JBool false));
                 ("message", OVal (JStr "Failed to fetch payment details"));
                 ("error", OVal (message error))]).

(** [crypto.createHmac('sha256', secret).update(body).digest('hex')];
    [update] throws on [undefined]. *)
Definition webhookSignature (body : option string) : error + string :=
  match body with
  | Some b =>
      inr (hmac_sha256_hex
             (env_or (RAZORPAY_WEBHOOK_SECRET env) "webhook_secret") b)
  | None =>
      inl (TypeError
        "The data argument must be of type string or an instance of Buffer, TypedArray, or DataView. Received undefined")
  end.

(** Handle Razorpay webhook events: POST /api/payments/webhook *)
Definition handleWebhook (req : request) : prog response :=
  try_catch
    ((* Verify webhook signature *)
     let signature := field (req_headers req) "x-razorpay-signature" in
     let body := JS.stringify (req_body req) in
     expectedSignature <- lift (webhookSignature body) ;;
     if negb (JS.str_eq expectedSignature signature)
     then
       json 400 [("success", OVal (JBool false));
                 ("message", OVal (JStr "Invalid signature"))]
     else
       event <- lift (JS.get (req_body req) "event") ;;
       payload <- lift (JS.get (req_body req) "payload") ;;
       (if JS.str_eq "payment.captured" event then
          (* Payment was successful *)
          payment <- lift (JS.get payload "payment") ;;
          entity <- lift (JS.get payment "entity") ;;
          id <- lift (JS.get entity "id") ;;
          await (Console_log "Payment captured:" id)
          (* TODO: Update booking status *)
        else if JS.str_eq "payment.failed" event then
          (* Payment failed *)
          payment <- lift (JS.get payload "payment") ;;
          entity <- lift (JS.get payment "entity") ;;
          id <- lift (JS.get entity "id") ;;
          await (Console_log "Payment failed:" id)
          (* TODO: Update booking status or notify user *)
        else if JS.str_eq "refund.created" event then
          (* Refund was initiated *)
          refund <- lift (JS.get payload "refund") ;;
          entity <- lift (JS.get refund "entity") ;;
          id <- lift (JS.get entity "id") ;;
          await (Console_log "Refund created:" id)
          (* TODO: Update booking status *)
        else
          await (Console_log "Unhandled webhook event:" event)) ;;
       json 200 [("success", OVal (JBool true));
                 ("received", OVal (JBool true))])
    (fun error =>
       await (Console_error "Webhook error:" error) ;;
       json 500 [("success", OVal (JBool false));
                 ("message", OVal (JStr "Webhook processing failed"))]).

(** Initiate refund: POST /api/payments/refund *)
Definition initiateRefund (req : request) : prog response :=
  try_catch
    (paymentId <- lift (JS.get (req_body req) "paymentId") ;;
     amount <- lift (JS.get (req_body req) "amount") ;;
     reason <- lift (JS.get (req_body req) "reason") ;;
     if negb (JS.truthy paymentId)
     then
       json 400 [("success", OVal (JBool false));
                 ("message", OVal (JStr "Payment ID is required"))]
     else
       let notes :=
         [("reason", JS.or reason (JStr "Customer requested refund"))] in
       (* If partial refund, add amount *)
       partial <-
         (if JS.truthy amount
          then paise <- lift (JS.times amount 100) ;;
               Ret (Some (JS.Math_round paise))
          else Ret None) ;;
       let refundOptions :=
         {| refund_speed := "normal";
            refund_notes := notes;
            refund_opt_amount := partial |} in
       refund <- await (Payments_refund paymentId refundOptions) ;;
       (* TODO: Update booking status in database *)
       json 200 [("success", OVal (JBool true));
                 ("refund",
                  OObj [("id", OVal (JStr (refund_id refund)));
                        ("amount", ONum (refund_amount refund / 100));
                        ("status", OVal (JStr (refund_status refund)))])])
    (fun error =>
       await (Console_error "Error initiating refund:" error) ;;
       json 500 [("success", OVal (JBool false));
                 ("message", OVal (JStr "Failed to initiate refund"));
                 ("error", OVal (message error))]).

End WithEnv.
End paymentController.

(** The four values [verifyPayment] destructures from the body. *)
Definition presents (req : request) (order payment signature bookingId : jsval)
  : Prop :=
  JS.get (req_body req) "razorpay_order_id" = inr order
  /\ JS.get (req_body req) "razorpay_payment_id" = inr payment
  /\ JS.get (req_body req) "razorpay_signature" = inr signature
  /\ JS.get (req_body req) "bookingId" = inr bookingId.

(** The key [verifyPayment] signs with. *)
Definition key_secret (penv : process_env) : string :=
  env_or (RAZORPAY_KEY_SECRET penv) "YOUR_KEY_SECRET".

(** A valid signature for the order and the payment: the hex
    HMAC-SHA256, under the key secret, of the order id as a string, a
    vertical bar and the payment id as a string. *)
Definition valid_signature (penv : process_env)
           (order payment signature : jsval) : Prop :=
  exists order_s payment_s,
    JS.toString order = inr order_s
    /\ JS.toString payment = inr payment_s
    /\ signature
       = JStr (hmac_sha256_hex (key_secret penv)
                               (order_s +++ "|" +++ payment_s)).

(** What the [switch] of [handleWebhook] prints for an event: a label
    and a value, or the TypeError of reading the entity's id. *)
Definition webhook_line (event payload : jsval) : error + (string * jsval) :=
  let entity_id (kind : string) : error + jsval :=
    match JS.get payload kind with
    | inl err => inl err
    | inr x =>
        match JS.get x "entity" with
        | inl err => inl err
        | inr ent => JS.get ent "id"
        end
    end in
  let labelled (label : string) (r : error + jsval) :=
    match r with
    | inl err => inl err
    | inr v => inr (label, v)
    end in
  if JS.str_eq "payment.captured" event
  then labelled "Payment captured:" (entity_id "payment")
  else if JS.str_eq "payment.failed" event
  then labelled "Payment failed:" (entity_id "payment")
  else if JS.str_eq "refund.created" event
  then labelled "Refund created:" (entity_id "refund")
  else inr ("Unhandled webhook event:", event).

(** The acknowledgement of a webhook delivery. *)
Definition acknowledgement : response :=
  Res 200 [("success", OVal (JBool true)); ("received", OVal (JBool true))].

(** The answers of [verifyPayment]. *)
Definition missing_data_response : response :=
  Res 400 [("success", OVal (JBool false));
           ("message", OVal (JStr "Missing payment verification data"))].

Definition verification_error_response (err : error) : response :=
  Res 500 [("success", OVal (JBool false));
           ("message", OVal (JStr "Payment verification failed"));
           ("error", OVal (message err))].

Definition invalid_signature_response : response :=
  Res 400 [("success", OVal (JBool false));
           ("message",
            OVal (JStr "Payment verification failed - Invalid signature"))].

Definition verified_response (bookingId payment : jsval) : response :=
  Res 200 [("success", OVal (JBool true));
           ("message", OVal (JStr "Payment verified successfully"));
           ("bookingId", OVal bookingId);
           ("paymentId", OVal payment)].

(* ===================================================================== *)
(** ** The in-memory environment *)
(* ===================================================================== *)

(** The three collections as lists of documents in insertion order, the
    gateway's ledger, the console, and counters for the clock, the
    random source and minted ids.  What the repository does not fix is
    left to [Env]: the Mongoose schemas (defaults and validation), the
    gateway's answers, the clock and the random source. *)
Module Store.

Inductive logline : Type :=
| Log (label : string) (v : jsval)
| LogError (label : string) (e : error).

Record World : Type := {
  events : list doc;
  users : list doc;
  bookings : list doc;
  orders : list (OrderOptions * Order);
  refunds : list (jsval * RefundOptions * Refund);
  console : list logline;
  ticks : nat;
  draws : nat;
  minted : nat
}.

Record Env : Type := {
  clock : nat -> Z;
  rng : nat -> string;
  new_id : nat -> string;
  defaults : model -> doc;
  validate : model -> list doc -> doc -> option error;
  gateway_order : list (OrderOptions * Order) -> OrderOptions
                  -> error + Order;
  gateway_payments : list (OrderOptions * Order) -> jsval -> error + jsval;
  gateway_refund : list (jsval * RefundOptions * Refund) -> jsval
                   -> RefundOptions -> error + Refund
}.

Definition coll (m : model) (w : World) : list doc :=
  match m with
  | Event => events w
  | User => users w
  | Booking => bookings w
  end.

Definition set_coll (m : model) (l : list doc) (w : World) : World :=
  {| events := match m with Event => l | _ => events w end;
     users := match m with User => l | _ => users w end;
     bookings := match m with Booking => l | _ => bookings w end;
     orders := orders w; refunds := refunds w; console := console w;
     ticks := ticks w; draws := draws w; minted := minted w |}.

Definition set_minted (n : nat) (w : World) : World :=
  {| events := events w; users := users w; bookings := bookings w;
     orders := orders w; refunds := refunds w; console := console w;
     ticks := ticks w; draws := draws w; minted := n |}.

Definition set_orders (l : list (OrderOptions * Order)) (w : World)
  : World :=
  {| events := events w; users := users w; bookings := bookings w;
     orders := l; refunds := refunds w; console := console w;
     ticks := ticks w; draws := draws w; minted := minted w |}.

Definition set_refunds (l : list (jsval * RefundOptions * Refund))
           (w : World) : World :=
  {| events := events w; users := users w; bookings := bookings w;
     orders := orders w; refunds := l; console := console w;
     ticks := ticks w; draws := draws w; minted := minted w |}.

Definition print (l : logline) (w : World) : World :=
  {| events := events w; users := users w; bookings := bookings w;
     orders := orders w; refunds := refunds w; console := console w ++ [l];
     ticks := ticks w; draws := draws w; minted := minted w |}.

(** [w] after the lines [ls] were printed. *)
Definition printed (ls : list logline) (w : World) : World :=
  {| events := events w; users := users w; bookings := bookings w;
     orders := orders w; refunds := refunds w; console := console w ++ ls;
     ticks := ticks w; draws := draws w; minted := minted w |}.

Definition tick (w : World) : World :=
  {| events := events w; users := users w; bookings := bookings w;
     orders := orders w; refunds := refunds w; console := console w;
     ticks := S (ticks w); draws := draws w; minted := minted w |}.

Definition draw (w : World) : World :=
  {| events := events w; users := users w; bookings := bookings w;
     orders := orders w; refunds := refunds w; console := console w;
     ticks := ticks w; draws := S (draws w); minted := minted w |}.

(** Ids and references are stored and queried as strings. *)
Definition id_eqb (a b : jsval) : bool :=
  match a, b with
  | JStr s, JStr t => String.eqb s t
  | _, _ => false
  end.

Definition has_id (id : jsval) (d : doc) : bool :=
  id_eqb (field d "_id") id.

Definition matches (filter : doc) (d : doc) : bool :=
  forallb (fun kv => id_eqb (field d (fst kv)) (snd kv)) filter.

Definition project (sel : option (list string)) (d : doc) : doc :=
  match sel with
  | None => d
  | Some ks =>
      filter (fun kv => String.eqb (fst kv) "_id"
                        || existsb (String.eqb (fst kv)) ks) d
  end.

Definition populate1 (w : World) (d : doc) (p : populate) : doc :=
  match field d (path p) with
  | JUndefined | JNull => d
  | v =>
      match find (has_id v) (coll (ref p) w) with
      | Some t => JS.set (path p) (JObj (project (select p) t)) d
      | None => JS.set (path p) JNull d
      end
  end.

Definition populated (w : World) (paths : list populate) (d : doc) : doc :=
  fold_left (populate1 w) paths d.

Fixpoint replace_first (id : jsval) (d : doc) (l : list doc)
  : option (list doc) :=
  match l with
  | [] => None
  | x :: rest =>
      if has_id id x then Some (d :: rest)
      else match replace_first id d rest with
           | Some rest' => Some (x :: rest')
           | None => None
           end
  end.

Fixpoint remove_first (id : jsval) (l : list doc) : list doc :=
  match l with
  | [] => []
  | x :: rest => if has_id id x then rest else x :: remove_first id rest
  end.

(** The document [Model.create(fields)] stores: a fresh [_id], the
    given fields that are not [undefined], then the schema defaults of
    the fields not given. *)
Definition new_doc (e : Env) (m : model) (n : nat) (fields : doc) : doc :=
  let given :=
    filter (fun kv => match snd kv with JUndefined => false | _ => true end)
           fields in
  let missing :=
    filter (fun kv => match JS.own (fst kv) given with
                      | Some _ => false
                      | None => true
                      end)
           (defaults e m) in
  ("_id", JStr (new_id e n)) :: given ++ missing.

Definition mem (e : Env) : handler World :=
  fun X o w =>
    match o in op X return (error + X) * World with
    | FindById m id => (inr (find (has_id id) (coll m w)), w)
    | FindByIdPopulate m id paths =>
        (inr (option_map (populated w paths) (find (has_id id) (coll m w))),
         w)
    | FindOne m flt => (inr (find (matches flt) (coll m w)), w)
    | Find m flt paths =>
        (inr (map (populated w paths) (filter (matches flt) (coll m w))), w)
    | Create m fields =>
        let d := new_doc e m (minted w) fields in
        match validate e m (coll m w) d with
        | Some err => (inl err, w)
        | None =>
            (inr d, set_minted (S (minted w)) (set_coll m (coll m w ++ [d]) w))
        end
    | Save m d =>
        match replace_first (field d "_id") d (coll m w) with
        | Some l => (inr tt, set_coll m l w)
        | None =>
            (inl (Err (JStr "No document found for query")), w)
        end
    | DeleteOne m d =>
        (inr tt, set_coll m (remove_first (field d "_id") (coll m w)) w)
    | Orders_create opts =>
        match gateway_order e (orders w) opts with
        | inr ord => (inr ord, set_orders (orders w ++ [(opts, ord)]) w)
        | inl err => (inl err, w)
        end
    | Orders_fetchPayments orderId =>
        (gateway_payments e (orders w) orderId, w)
    | Payments_refund paymentId opts =>
        match gateway_refund e (refunds w) paymentId opts with
        | inr r =>
            (inr r, set_refunds (refunds w ++ [(paymentId, opts, r)]) w)
        | inl err => (inl err, w)
        end
    | Date_now => (inr (clock e (ticks w)), tick w)
    | Math_random_toString36 => (inr (rng e (draws w)), draw w)
    | Console_log label v => (inr tt, print (Log label v) w)
    | Console_error label err => (inr tt, print (LogError label err) w)
    end.


(** Every document of [l] has a document of the same id in [l']. *)
Definition same_ids (l l' : list doc) : Prop :=
  forall b, In b l ->
    exists b', In b' l' /\ field b' "_id" = field b "_id".

End Store.

(* ===================================================================== *)
(** ** The routes *)
(* ===================================================================== *)

(** The routes whose handlers write to the store, reach the gateway or
    decide a payment, with [getMyBookings]. *)
Inductive endpoint : Type :=
| POST_bookings
| GET_bookings_my
| PUT_bookings_admin
| DELETE_bookings_admin
| POST_events
| DELETE_admin_events
| DELETE_admin_users
| PUT_admin_users_role
| POST_payments_create_order
| POST_payments_verify
| GET_payments_order
| POST_payments_webhook
| POST_payments_refund.

Definition route (env : process_env) (ep : endpoint)
  : request -> prog response :=
  match ep with
  | POST_bookings => bookingController.bookEvent
  | GET_bookings_my => bookingController.getMyBookings
  | PUT_bookings_admin => bookingController.adminUpdateBooking
  | DELETE_bookings_admin => bookingController.adminDeleteBooking
  | POST_events => eventController.createEvent
  | DELETE_admin_events => adminController.deleteEvent
  | DELETE_admin_users => adminController.deleteUser
  | PUT_admin_users_role => adminController.updateUserRole
  | POST_payments_create_order => paymentController.createOrder
  | POST_payments_verify => paymentController.verifyPayment env
  | GET_payments_order => paymentController.getPaymentByOrderId
  | POST_payments_webhook => paymentController.handleWebhook env
  | POST_payments_refund => paymentController.initiateRefund
  end.

(** Serving requests one after the other. *)
Fixpoint serve {W} (h : handler W) (ps : list (prog response)) (w : W)
  : list (error + response) * W :=
  match ps with
  | [] => ([], w)
  | p :: rest =>
      let r := run h p w in
      let '(rs, w') := serve h rest (final r) in
      (result r :: rs, w')
  end.

(** The same request delivered [n] times. *)
Definition deliver {W} (h : handler W) (n : nat) (p : prog response) (w : W)
  : list (error + response) * W :=
  serve h (repeat p n) w.

(** ** Requests in flight

    A handler gives up control at every [await]: while its call is
    pending, the calls of the other requests in flight reach the store.
    Between two calls a handler runs without interruption. *)

(** The answer of a handler that has finished. *)
Definition answered {A} (p : prog A) : option (error + A) :=
  match p with
  | Ret a => Some (inr a)
  | Throw err => Some (inl err)
  | Vis _ _ => None
  end.




Definition status_of (r : error + response) : option Z :=
  match r with
  | inr res => Some (status res)
  | inl _ => None
  end.

(** The booking id [createOrder] fabricates from a clock reading and a
    draw of the random source. *)
Definition fabricated_bookingId (now : Z) (random : string) : string :=
  "booking_" +++ JS.Number_toString now +++ "_" +++ substring 2 9 random.

Definition ok (r : error + response) (code : Z) : bool :=
  match r with
  | inr res => status res =? code
  | inl _ => false
  end.

(* ===================================================================== *)
(** ** Calls a handler can and cannot make *)
(* ===================================================================== *)

(** [avoids bad p]: in no environment does [p] perform a call in [bad]. *)
Inductive avoids {A} (bad : event -> Prop) : prog A -> Prop :=
| avoids_Ret : forall a, avoids bad (Ret a)
| avoids_Throw : forall e, avoids bad (Throw e)
| avoids_Vis : forall X (o : op X) k,
    ~ bad (Call o) ->
    (forall x, avoids bad (k x)) ->
    avoids bad (Vis o k).

Definition writes_booking (ev : event) : Prop :=
  match ev with
  | Call (Save Booking _) => True
  | _ => False
  end.

Definition creates_booking (ev : event) : Prop :=
  match ev with
  | Call (Create Booking _) => True
  | _ => False
  end.

Definition deletes_booking (ev : event) : Prop :=
  match ev with
  | Call (DeleteOne Booking _) => True
  | _ => False
  end.

Definition touches_store (ev : event) : Prop :=
  match ev with
  | Call (FindById _ _) | Call (FindByIdPopulate _ _ _)
  | Call (FindOne _ _) | Call (Find _ _ _)
  | Call (Create _ _) | Call (Save _ _) | Call (DeleteOne _ _) => True
  | _ => False
  end.

Definition reads_clock (ev : event) : Prop :=
  match ev with
  | Call Date_now => True
  | _ => False
  end.

(* ===================================================================== *)
(** ** A concrete environment *)
(* ===================================================================== *)

(** No secret configured, a gateway that accepts every order, schemas
    without validation, bookings starting as [booked]. *)
Module Demo.

Definition penv : process_env :=
  {| RAZORPAY_KEY_SECRET := None; RAZORPAY_WEBHOOK_SECRET := None |}.

Definition gateway (ledger : list (OrderOptions * Order))
           (o : OrderOptions) : error + Order :=
  inr {| order_id :=
           "order_" +++ JS.Number_toString (Z.of_nat (length ledger + 1));
         order_amount := opt_amount o;
         order_currency :=
           match opt_currency o with JStr c => c | _ => "INR" end;
         order_receipt := opt_receipt o |}.

Definition env (t0 : Z) : Store.Env :=
  {| Store.clock := fun n => t0 + Z.of_nat n;
     Store.rng := fun _ => "0.4fzyo82mvyr";
     Store.new_id := fun n => "b" +++ JS.Number_toString (Z.of_nat n);
     Store.defaults :=
       fun m => match m with
                | Booking => [("status", JStr "booked")]
                | _ => []
                end;
     Store.validate := fun _ _ _ => None;
     Store.gateway_order := gateway;
     Store.gateway_payments := fun _ _ => inr (JObj [("items", JArr [])]);
     Store.gateway_refund :=
       fun _ _ o => inr {| refund_id := "rfnd_1";
                           refund_amount :=
                             match refund_opt_amount o with
                             | Some a => a
                             | None => 0
                             end;
                           refund_status := "processed" |} |}.

Definition world (evs us bs : list doc) : Store.World :=
  {| Store.events := evs; Store.users := us; Store.bookings := bs;
     Store.orders := []; Store.refunds := []; Store.console := [];
     Store.ticks := 0; Store.draws := 0; Store.minted := 0 |}.

Definition admin : jsval := JObj [("id", JStr "a1"); ("role", JStr "admin")].
Definition alice : jsval := JObj [("id", JStr "u1"); ("role", JStr "user")].

(** Alice creates an event and books it: the first minted id, [b0], is
    the event's. *)
Definition create_b0 : request :=
  Req (JObj [("title", JStr "Launch"); ("date", JStr "2026-01-01")])
      JUndefined alice [].
Definition book_b0 : request :=
  Req (JObj [("eventId", JStr "b0")]) JUndefined alice [].

(** The gateway's [payment.captured] event for payment [pay_P1], signed
    under the default webhook secret. *)
Definition payload_P1 : jsval :=
  JObj [("payment",
         JObj [("entity",
                JObj [("id", JStr "pay_P1"); ("order_id", JStr "order_O1")])])].

Definition captured_P1 : request :=
  Req (JObj [("event", JStr "payment.captured"); ("payload", payload_P1)])
      JUndefined JUndefined
      [("x-razorpay-signature",
        JStr "c67d8d93c2048a1ac34999905d37cd922d3897a0965ae961518db713cf4f4df2")].

(** A delivery of [body] signed under the default webhook secret. *)
Definition signed (body : jsval) : request :=
  Req body JUndefined JUndefined
      [("x-razorpay-signature",
        match JS.stringify body with
        | Some s => JStr (hmac_sha256_hex "webhook_secret" s)
        | None => JUndefined
        end)].

(** A [payment.captured] event that carries no payload. *)
Definition captured_nothing : request :=
  signed (JObj [("event", JStr "payment.captured")]).

(** Scenario 1: a hold on event E1 for two tickets at amount 200 under
    the idempotency key K1. *)
Definition hold_K1 : request :=
  Req (JObj [("eventId", JStr "E1"); ("userId", JStr "U1");
             ("ticketCount", JNum 2); ("amount", JNum 200);
             ("idempotencyKey", JStr "K1")])
      JUndefined alice [].

(** A hold on an event that is not stored, for minus one ticket. *)
Definition hold_minus_one : request :=
  Req (JObj [("eventId", JStr "E404"); ("ticketCount", JNum (-1));
             ("amount", JNum 200)])
      JUndefined alice [].

(** One cancelled booking of Alice, and the admin requests on it. *)
Definition cancelled_b1 : doc :=
  [("_id", JStr "b1"); ("user", JStr "u1"); ("event", JStr "b0");
   ("status", JStr "cancelled")].
Definition delete_b1 : request := Req (JObj []) (JStr "b1") admin [].
Definition confirm_b1 : request :=
  Req (JObj [("status", JStr "confirmed")]) (JStr "b1") admin [].

(** A pending hold of Alice on order [order_O1], expired at time 1000,
    and the verification of payment [pay_P1], signed under the default
    key secret. *)
Definition pending_B1 : doc :=
  [("_id", JStr "B1"); ("user", JStr "u1"); ("event", JStr "b0");
   ("status", JStr "pending"); ("gatewayOrderId", JStr "order_O1");
   ("holdExpiresAt", JNum 1000)].

Definition verify_B1 : request :=
  Req (JObj [("razorpay_order_id", JStr "order_O1");
             ("razorpay_payment_id", JStr "pay_P1");
             ("razorpay_signature",
              JStr "4ef4dbe755775fa9bec6258c5c78c57af15a5174dff474de313d9138c839834d");
             ("bookingId", JStr "B1")])
      JUndefined alice [].

Definition confirm_B1 : request :=
  Req (JObj [("status", JStr "confirmed")]) (JStr "B1") admin [].

(** The same verification with a signature that is no HMAC at all. *)
Definition forged_B1 : request :=
  Req (JObj [("razorpay_order_id", JStr "order_O1");
             ("razorpay_payment_id", JStr "pay_P1");
             ("razorpay_signature", JStr "sig_demo_1700000000000");
             ("bookingId", JStr "B1")])
      JUndefined alice [].

(** The same verification with an empty signature, and with an order
    id that is an object with a property called [toString]. *)
Definition unsigned_B1 : request :=
  Req (JObj [("razorpay_order_id", JStr "order_O1");
             ("razorpay_payment_id", JStr "pay_P1");
             ("razorpay_signature", JStr "");
             ("bookingId", JStr "B1")])
      JUndefined alice [].

Definition odd_B1 : request :=
  Req (JObj [("razorpay_order_id", JObj [("toString", JNum 1)]);
             ("razorpay_payment_id", JStr "pay_P1");
             ("razorpay_signature", JStr "sig_demo_1700000000000");
             ("bookingId", JStr "B1")])
      JUndefined alice [].

(** A verification whose order id is the number 1e21, signed over the
    text [1e+21|pay_P1] that the concatenation gives. *)
Definition verify_1e21 : request :=
  Req (JObj [("razorpay_order_id", JNum 1e21);
             ("razorpay_payment_id", JStr "pay_P1");
             ("razorpay_signature",
              JStr "a801e6a127e2fd5d019beddd5ad6b4c46c77d18e2abfa76e6e388c161aff188e");
             ("bookingId", JStr "B1")])
      JUndefined alice [].

(** A [payment.captured] event whose entity carries the numbers 1e21
    and 19.99, signed over its serialisation, in which they read
    [1e+21] and [19.99]. *)
Definition captured_1e21 : request :=
  Req (JObj [("event", JStr "payment.captured");
             ("payload",
              JObj [("payment",
                     JObj [("entity",
                            JObj [("id", JStr "pay_P1");
                                  ("amount", JNum 1e21);
                                  ("fee", JNum 19.99)])])])])
      JUndefined JUndefined
      [("x-razorpay-signature",
        JStr "4bbf5e48c4b870ef6e6ea12e355a747fcde230fb283a90d9bc8584b61ee4206b")].

(** A hold for two tickets at 19.99, and a refund of 19.99. *)
Definition hold_1999 : request :=
  Req (JObj [("eventId", JStr "E1"); ("ticketCount", JNum 2);
             ("amount", JNum 19.99)])
      JUndefined alice [].

Definition refund_1999 : request :=
  Req (JObj [("paymentId", JStr "pay_P1"); ("amount", JStr "19.99")])
      JUndefined admin [].

End Demo.

(* ===================================================================== *)
(** ** The properties as the specification words them, to be compared
       with what the handlers do *)
(* ===================================================================== *)

Module Stated.

Import Store.


(** Some booking has changed state between the two stores. *)
Definition some_transition (l l' : list doc) : Prop :=
  exists b b',
    In b l /\ In b' l' /\ field b' "_id" = field b "_id"
    /\ field b' "status" <> field b "status".

(** Idempotent webhook delivery: the same event delivered [n] times is
    acknowledged [n] times and produces exactly one state transition
    (so, at least, one). *)
Definition delivered_once (penv : process_env) (e : Env) (w : World)
           (n : nat) (req : request) : Prop :=
  let served := deliver (mem e) n (paymentController.handleWebhook penv req)
                        w in
  length (fst served) = n
  /\ Forall (fun r => ok r 200 = true) (fst served)
  /\ some_transition (bookings w) (bookings (snd served)).

(** Idempotent hold creation: two calls with one idempotency key create
    exactly one booking, observe the same [bookingId], and create one
    gateway order, not two. *)
Definition idempotent_hold (e : Env) (w : World) (req : request) : Prop :=
  let '(rs, w') := deliver (mem e) 2 (paymentController.createOrder req) w in
  length (bookings w') = S (length (bookings w))
  /\ (exists id, Forall (fun r => match r with
                                  | inr res =>
                                      JS.own "bookingId" (body res)
                                      = Some (OVal id)
                                  | inl _ => False
                                  end) rs)
  /\ length (orders w') = S (length (orders w)).

(** createHold fails NotFound on an unknown event, InvalidArgument on a
    ticket count or an amount that is not positive, and creates a gateway
    order only when these checks pass. *)
Definition hold_guards (e : Env) (w : World) (req : request) : Prop :=
  forall eventId ticketCount amount,
    JS.get (req_body req) "eventId" = inr eventId ->
    JS.get (req_body req) "ticketCount" = inr ticketCount ->
    JS.get (req_body req) "amount" = inr amount ->
    let r := run (mem e) (paymentController.createOrder req) w in
    (find (has_id eventId) (events w) = None -> ok (result r) 404 = true)
    /\ ((exists n, ticketCount = JNum n /\ PrimFloat.leb n 0 = true)
        \/ (exists a, amount = JNum a /\ PrimFloat.leb a 0 = true) ->
        ok (result r) 400 = true)
    /\ (ok (result r) 200 = false -> orders (final r) = orders w).

(** Expired hold: a booking whose [holdExpiresAt] is past and that is not
    confirmed is not confirmed by [verifyPayment], and the call is
    rejected, even with a valid signature. *)
Definition expired_hold_rejected (penv : process_env) (e : Env) (w : World)
           (req : request) : Prop :=
  forall order payment signature bookingId b t,
    presents req order payment signature bookingId ->
    valid_signature penv order payment signature ->
    In b (bookings w) -> field b "_id" = bookingId ->
    field b "holdExpiresAt" = JNum (Double.of_Z t) -> t < clock e (ticks w) ->
    field b "status" <> JStr "confirmed" ->
    let r := run (mem e) (paymentController.verifyPayment penv req) w in
    ok (result r) 200 = false
    /\ forall b', In b' (bookings (final r)) -> field b' "_id" = bookingId ->
         field b' "status" <> JStr "confirmed".

(** The request carries a valid signature for the ids it presents. *)
Definition signed (penv : process_env) (req : request) : Prop :=
  exists order payment signature bookingId,
    presents req order payment signature bookingId
    /\ valid_signature penv order payment signature.

(** Scenario 3 and the verifier's contract: a verification without a
    valid signature is rejected with HTTP 400 and leaves the bookings
    as they were, and the rejection is the same whether the signature
    was tampered with or the input was malformed. *)
Definition rejected_alike (penv : process_env) (e : Env) (w : World)
  : Prop :=
  exists rejection,
    status rejection = 400
    /\ forall req,
         ~ signed penv req ->
         let r := run (mem e) (paymentController.verifyPayment penv req) w in
         result r = inr rejection /\ bookings (final r) = bookings w.

(** Scenario 2: a valid signature on a pending booking with the matching
    order moves it to [confirmed] and records the payment id. *)
Definition verify_confirms (penv : process_env) (e : Env) (w : World)
           (req : request) : Prop :=
  forall order payment signature bookingId b,
    presents req order payment signature bookingId ->
    valid_signature penv order payment signature ->
    In b (bookings w) -> field b "_id" = bookingId ->
    field b "status" = JStr "pending" ->
    field b "gatewayOrderId" = order ->
    let r := run (mem e) (paymentController.verifyPayment penv req) w in
    exists b',
      In b' (bookings (final r))
      /\ field b' "_id" = bookingId
      /\ field b' "status" = JStr "confirmed"
      /\ field b' "gatewayPaymentId" = payment.

(** [gatewayPaymentId] is set exactly on confirmed and refunded
    bookings. *)
Definition payment_id_iff_paid (l : list doc) : Prop :=
  forall b, In b l ->
    (field b "gatewayPaymentId" <> JUndefined
     <-> field b "status" = JStr "confirmed"
         \/ field b "status" = JStr "refunded").

(** The states of §4.3 that no transition leaves. *)
Definition terminal (st : jsval) : Prop :=
  exists s, st = JStr s
            /\ In s ["confirmed"; "cancelled"; "expired"; "failed"; "refunded"].

(** Bookings are never hard-deleted: after the operation every booking
    in a terminal state is still stored. *)
Definition never_deleted (penv : process_env) (e : Env) (w : World)
           (ep : endpoint) (req : request) : Prop :=
  forall b, In b (bookings w) -> terminal (field b "status") ->
    exists b',
      In b' (bookings (final (run (mem e) (route penv ep req) w)))
      /\ field b' "_id" = field b "_id".

(** The transitions of the state machine of §4.3. *)
Definition graph : list (string * string) :=
  [("pending", "confirmed"); ("pending", "failed"); ("pending", "expired");
   ("pending", "cancelled"); ("confirmed", "refunded")].

Definition edge (a b : jsval) : Prop :=
  exists s t, a = JStr s /\ b = JStr t /\ In (s, t) graph.

(** Every change of a booking's state made by the operation is a
    transition of the graph. *)
Definition follows_graph (penv : process_env) (e : Env) (w : World)
           (ep : endpoint) (req : request) : Prop :=
  forall b b',
    In b (bookings w) ->
    In b' (bookings (final (run (mem e) (route penv ep req) w))) ->
    field b' "_id" = field b "_id" ->
    field b' "status" = field b "status"
    \/ edge (field b "status") (field b' "status").

End Stated.

(* ===================================================================== *)
(** ** controllers/eventController.js: the listings *)
(* ===================================================================== *)

Module eventListings.

(** Get All Events (PUBLIC) *)
Definition getEvents (req : request) : prog response :=
  try_catch
    (events <-
       await (Find Event []
                [Populate "createdBy" User (Some ["name"; "email"])]) ;;
     json 200 [("success", OVal (JBool true));
               ("data", OVal (JArr (map JObj events)))])
    (fun error =>
       json 500 [("success", OVal (JBool false));
                 ("message", OVal (message error))]).

(** Get My Events (LOGGED-IN USER) *)
Definition getMyEvents (req : request) : prog response :=
  try_catch
    (createdBy <- lift (JS.get (req_user req) "id") ;;
     events <- await (Find Event [("createdBy", createdBy)] []) ;;
     json 200 [("success", OVal (JBool true));
               ("data", OVal (JArr (map JObj events)))])
    (fun error =>
       json 500 [("success", OVal (JBool false));
                 ("message", OVal (message error))]).

End eventListings.

(** Every modelled handler. *)
Definition handlers (penv : process_env) : list (request -> prog response) :=
  map (route penv)
      [POST_bookings; GET_bookings_my; PUT_bookings_admin;
       DELETE_bookings_admin; POST_events; DELETE_admin_events;
       DELETE_admin_users; PUT_admin_users_role; POST_payments_create_order;
       POST_payments_verify; GET_payments_order; POST_payments_webhook;
       POST_payments_refund]
  ++ [eventListings.getEvents; eventListings.getMyEvents].

(** The shape every answer has: one of five status codes, and a
    [success] flag that is true exactly below 400. *)
Definition well_formed (res : response) : bool :=
  existsb (Z.eqb (status res)) [200; 201; 400; 404; 500]
  && match JS.own "success" (body res) with
     | Some (OVal (JBool b)) => Bool.eqb b (status res <? 400)
     | _ => false
     end.

(** [p] returns a value satisfying [Q], or throws. *)
Definition may_answer (e : Store.Env) {A} (Q : A -> Prop) (p : prog A)
  : Prop :=
  forall w, match result (run (Store.mem e) p w) with
            | inr a => Q a
            | inl _ => True
            end.

(** [p] returns a response satisfying [P]: nothing thrown escapes. *)
Definition answers (e : Store.Env) (P : response -> Prop)
           (p : prog response) : Prop :=
  forall w, exists res, result (run (Store.mem e) p w) = inr res /\ P res.

(* ===================================================================== *)
(** ** The shape of a hex digest *)
(* ===================================================================== *)

Definition is_lower_hex (c : ascii) : bool :=
  let n := N_of_ascii c in
  (((48 <=? n) && (n <=? 57)) || ((97 <=? n) && (n <=? 102)))%N.

Fixpoint all_lower_hex (s : string) : bool :=
  match s with
  | EmptyString => true
  | String c rest => is_lower_hex c && all_lower_hex rest
  end.

(** Sixty-four characters, each a digit or a letter from a to f. *)
Definition digest_shaped (s : string) : bool :=
  all_lower_hex s && Nat.eqb (String.length s) 64.

(* ===================================================================== *)
(** ** services/paymentService.js *)
(* ===================================================================== *)

Module paymentService.

(** What the demo branch of [initiatePayment] hands to [onSuccess]:
    the order id it was given, and a payment id and a signature made
    from two readings [now] and [now'] of [Date.now()]. *)
Definition demo_success (orderId : jsval) (now now' : Z) : jsval :=
  JObj [("razorpay_payment_id",
         JStr ("pay_demo_" +++ JS.Number_toString now));
        ("razorpay_order_id", orderId);
        ("razorpay_signature",
         JStr ("sig_demo_" +++ JS.Number_toString now'))].

(** The body [verifyPayment] posts to /payments/verify. *)
Definition verifyPayment_body (paymentData : jsval) : error + jsval :=
  match JS.get paymentData "razorpay_order_id" with
  | inl err => inl err
  | inr order =>
      match JS.get paymentData "razorpay_payment_id" with
      | inl err => inl err
      | inr payment =>
          match JS.get paymentData "razorpay_signature" with
          | inl err => inl err
          | inr signature =>
              match JS.get paymentData "bookingId" with
              | inl err => inl err
              | inr bookingId =>
                  inr (JObj [("razorpay_order_id", order);
                             ("razorpay_payment_id", payment);
                             ("razorpay_signature", signature);
                             ("bookingId", bookingId)])
              end
          end
      end
  end.

End paymentService.

(* ===================================================================== *)
(** ** components/payment/PaymentModal.js: the card form *)
(* ===================================================================== *)

(** What is typed into the form is read as a sequence of UTF-16 code
    units below 256, one [ascii] each, so that [length] and [substring]
    count as the browser does. *)
Module PaymentModal.

(** [[0-9]], which is also [\d] *)
Definition is_digit (c : ascii) : bool :=
  let n := N_of_ascii c in ((48 <=? n) && (n <=? 57))%N.

Definition not_digit (c : ascii) : bool := negb (is_digit c).

(** [\s] below 256: tab, line feed, vertical tab, form feed, carriage
    return, space and no-break space *)
Definition is_space (c : ascii) : bool :=
  let n := N_of_ascii c in
  (((9 <=? n) && (n <=? 13)) || (n =? 32) || (n =? 160))%N.

(** [s.replace(/c/g, '')] for a character class [c] *)
Fixpoint remove (c : ascii -> bool) (s : string) : string :=
  match s with
  | EmptyString => EmptyString
  | String a rest => if c a then remove c rest else String a (remove c rest)
  end.

Fixpoint all_digits (s : string) : bool :=
  match s with
  | EmptyString => true
  | String a rest => is_digit a && all_digits rest
  end.

(** [value.replace(/\s+/g, '').replace(/[^0-9]/gi, '')] *)
Definition digits (value : string) : string :=
  remove not_digit (remove is_space value).

(** At most [n] digits at the head of [s]. *)
Fixpoint digit_prefix (n : nat) (s : string) : string :=
  match n, s with
  | S k, String a rest =>
      if is_digit a then String a (digit_prefix k rest) else EmptyString
  | _, _ => EmptyString
  end.

(** [s.match(/\d{4,16}/g)]'s first element: the leftmost run of four
    digits or more, cut after sixteen; [None] when [match] gives [null]. *)
Fixpoint first_run (s : string) : option string :=
  match s with
  | EmptyString => None
  | String _ rest =>
      let m := digit_prefix 16 s in
      if (4 <=? String.length m)%nat then Some m else first_run rest
  end.

(** [for (let i = 0, len = match.length; i < len; i += 4)
       parts.push(match.substring(i, i + 4))], from index [i] on. *)
Fixpoint parts_from (fuel i : nat) (m : string) : list string :=
  match fuel with
  | O => []
  | S fuel' =>
      if (i <? String.length m)%nat
      then substring i 4 m :: parts_from fuel' (i + 4) m
      else []
  end.

(** Format card number with spaces *)
Definition formatCardNumber (value : string) : string :=
  let v := digits value in
  let matched := match first_run v with Some m => m | None => EmptyString end in
  let parts := parts_from (String.length matched) 0 matched in
  match parts with
  | [] => v
  | _ => JS.join " " parts
  end.

(** Format expiry date *)
Definition formatExpiry (value : string) : string :=
  let v := digits value in
  if (2 <=? String.length v)%nat
  then substring 0 2 v +++ "/" +++ substring 2 2 v
  else v.

(** [value.replace('/', '')]: the first slash only *)
Fixpoint replace_slash (value : string) : string :=
  match value with
  | EmptyString => EmptyString
  | String a rest =>
      if Ascii.eqb a "/" then rest else String a (replace_slash rest)
  end.

(** The state [cardData]: an object with string properties. *)
Definition cardData : Type := list (string * string).

Definition initial : cardData :=
  [("cardNumber", EmptyString); ("cardName", EmptyString);
   ("expiry", EmptyString); ("cvv", EmptyString)].

(** Handle card input changes: the next [cardData] for a change of the
    input called [name] to [value].  The handler also blanks the error
    shown for that input, which [validateCard] rebuilds from scratch. *)
Definition handleCardChange (name value : string) (prev : cardData)
  : cardData :=
  let formattedValue :=
    if String.eqb name "cardNumber" then formatCardNumber value
    else if String.eqb name "expiry" then formatExpiry (replace_slash value)
    else if String.eqb name "cvv"
         then substring 0 4 (remove not_digit value)
         else value in
  JS.set name formattedValue prev.

(** [!v || f(v).length < n] for a property that may be absent *)
Definition too_short (v : option string) (f : string -> string) (n : nat)
  : bool :=
  match v with
  | None => true
  | Some s => String.eqb s EmptyString || (String.length (f s) <? n)%nat
  end.

(** Validate card: the errors, and whether there is none. *)
Definition validateCard (data : cardData) : list (string * string) * bool :=
  let errors := [] in
  let errors :=
    if too_short (JS.own "cardNumber" data) (remove is_space) 16
    then JS.set "cardNumber" "Valid card number is required" errors
    else errors in
  let errors :=
    if too_short (JS.own "cardName" data) (fun s => s) 3
    then JS.set "cardName" "Cardholder name is required" errors
    else errors in
  let errors :=
    if too_short (JS.own "expiry" data) (fun s => s) 5
    then JS.set "expiry" "Valid expiry date is required" errors
    else errors in
  let errors :=
    if too_short (JS.own "cvv" data) (fun s => s) 3
    then JS.set "cvv" "Valid CVV is required" errors
    else errors in
  (errors, Nat.eqb (length errors) 0).

End PaymentModal.

(** [s] in groups of four characters separated by single spaces. *)
Fixpoint grouped (s : string) : string :=
  match s with
  | String a (String b (String c (String d ((String _ _) as rest)))) =>
      String a (String b (String c (String d (String " " (grouped rest)))))
  | _ => s
  end.

(* ===================================================================== *)
(** ** Reference vectors for the hash *)
(* ===================================================================== *)

Example sha256_abc :
  Bytes.to_hex (SHA256.digest (Bytes.of_string "abc"))
  = "ba7816bf8f01cfea414140de5dae2223b00361a396177a9cb410ff61f20015ad".
Proof. vm_compute. reflexivity. Qed.

Example hmac_sha256_fox :
  hmac_sha256_hex "key" "The quick brown fox jumps over the lazy dog"
  = "f7bc83f430538424b13298e6aa6fb143ef4d59a14946175997479dbc2d1a3cd8".
Proof. vm_compute. reflexivity. Qed.

(* ===================================================================== *)
(** ** The runtime on examples *)
(* ===================================================================== *)

Example truthy_values :
  map JS.truthy [JUndefined; JNull; JBool false; JNum 0; JStr ""; JNum (-1);
                 JStr "0"; JArr []; JObj []; JNum (-0); JNum nan;
                 JNum 0.5; JNum infinity]
  = [false; false; false; false; false; true; true; true; true; false; false;
     true; true].
Proof. vm_compute. reflexivity. Qed.

Example ToString_values :
  map JS.ToString [JNum (-12); JArr [JNum 1; JNull; JStr "a"; JArr []];
                   JObj [("id", JNum 1)]; JObj [("toString", JNum 1)]]
  = [Some "-12"; Some "1,,a,"; Some "[object Object]"; None].
Proof. vm_compute. reflexivity. Qed.

(** Number::toString: all the digits up to 2^53, the shortest digits
    that read back as the same double beyond, the exponent form from
    [1e21] on and below [1e-6]. *)
Example Number_toString_values :
  map Double.to_string
      [0; -0; 200; 19.99; 1998.9999999999998; 0.1 + 0.2; 9007199254740991;
       9007199254740991 * 100; 123456789012345680000; 1e21; 1.5e300;
       0.000001; 0.0000001; 5e-324; -2.5; infinity; nan]%float
  = ["0"; "0"; "200"; "19.99"; "1998.9999999999998"; "0.30000000000000004";
     "9007199254740991"; "900719925474099100"; "123456789012345680000";
     "1e+21"; "1.5e+300"; "0.000001"; "1e-7"; "5e-324"; "-2.5"; "Infinity";
     "NaN"].
Proof. vm_compute. reflexivity. Qed.

Example Number_toString_integers :
  map JS.Number_toString
      [0; -7; 1700000000000; 2 ^ 53 + 1; 10 ^ 21; 900719925474099072]
  = ["0"; "-7"; "1700000000000"; "9007199254740992"; "1e+21";
     "900719925474099100"].
Proof. vm_compute. reflexivity. Qed.

(** Reading back what was printed gives the same double. *)
Example Number_round_trip :
  forallb (fun x => PrimFloat.Leibniz.eqb
                      (Double.of_string (Double.to_string x)) x)
          [0.1; 0.2; 0.1 + 0.2; 19.99; 19.99 * 100; 4.35; 1e21; 1e22; 1e23;
           9007199254740991; 9007199254740992; 9007199254740994;
           123456.789; 1e-7; 1.5e-7; -2.5e-10; 5e-324;
           2.2250738585072014e-308; 1.7976931348623157e308; 0.000001;
           1234567890123456789012; -0.000123456789; 1 / 3; 2 / 3;
           100 / 3; infinity; neg_infinity]%float
  = true.
Proof. vm_compute. reflexivity. Qed.

(** StringToNumber: white space is trimmed, the empty string is 0, a
    decimal literal may have a fraction and an exponent, a literal in
    another radix has no sign, everything else is NaN. *)
Example StringToNumber_values :
  map JS.StringToNumber
      [""; " 12 "; "19.99"; "-.5e1"; "5."; "0x1F"; "-0x1F"; "1e400";
       "Infinity"; "12px"; "1_000"; "."; "9007199254740993"]
  = [0; 12; 19.99; -5; 5; 31; nan; infinity; infinity; nan; nan; nan;
     9007199254740992]%float.
Proof. vm_compute. reflexivity. Qed.

(** [Math.round(v * 100)], the conversion of an amount to paise. *)
Example times_values :
  map (fun v => match JS.times v 100 with
                | inr x => inr (x, JS.Math_round x)
                | inl err => inl err
                end)
      [JNum (-5); JStr "12"; JNum 19.99; JStr "19.99"; JNum 1.005;
       JNum 9007199254740991; JNum 0.125; JNum (-0.125); JArr []; JNull;
       JStr "abc"; JUndefined; JObj []; JObj [("toString", JNull)]]
  = [inr (-500, -500); inr (1200, 1200);
     inr (1998.9999999999998, 1999); inr (1998.9999999999998, 1999);
     inr (100.49999999999999, 100);
     inr (900719925474099072, 900719925474099072);
     inr (12.5, 13); inr (-12.5, -12); inr (0, 0); inr (0, 0);
     inr (nan, nan); inr (nan, nan); inr (nan, nan);
     inl (TypeError "Cannot convert object to primitive value")]%float.
Proof. vm_compute. reflexivity. Qed.

Example stringify_object :
  JS.stringify (JObj [("event", JStr "x"); ("n", JNum 2); ("u", JUndefined);
                      ("a", JArr [JNull; JUndefined; JBool true]);
                      ("big", JNum 1e21); ("p", JNum 19.99);
                      ("inf", JNum infinity)])
  = Some ("{" +++ JS.quote "event" +++ ":" +++ JS.quote "x" +++ ","
          +++ JS.quote "n" +++ ":2," +++ JS.quote "a"
          +++ ":[null,null,true]," +++ JS.quote "big" +++ ":1e+21,"
          +++ JS.quote "p" +++ ":19.99," +++ JS.quote "inf" +++ ":null}").
Proof. vm_compute. reflexivity. Qed.

(** Signatures are over the text [JSON.stringify] gives: a delivery
    whose entity carries the numbers 1e21 and 19.99, signed over the
    text in which they read [1e+21] and [19.99], is acknowledged, and a
    verification whose order id is the number 1e21 is accepted with the
    HMAC of [1e+21|pay_P1]. *)
Example signed_numbers :
  status_of (result (run (Store.mem (Demo.env 0))
                         (paymentController.handleWebhook Demo.penv
                                                          Demo.captured_1e21)
                         (Demo.world [] [] [])))
  = Some 200
  /\ status_of (result (run (Store.mem (Demo.env 0))
                            (paymentController.verifyPayment Demo.penv
                                                             Demo.verify_1e21)
                            (Demo.world [] [] [])))
     = Some 200.
Proof. split; vm_compute; reflexivity. Qed.

Example get_values :
  (JS.get (JObj [("id", JNum 7)]) "id", JS.get (JStr "abc") "id",
   JS.get (JArr []) "id")
  = (inr (JNum 7), inr JUndefined, inr JUndefined).
Proof. reflexivity. Qed.

(* ===================================================================== *)
(** ** Reasoning about calls *)
(* ===================================================================== *)

(** The runtime primitives are rewritten by their equations, not
    unfolded, while a handler is stepped through. *)
Arguments JS.get : simpl never.
Arguments JS.toString : simpl never.
Arguments method_toString : simpl never.
Arguments JS.times : simpl never.
Arguments JS.stringify : simpl never.
Arguments JS.truthy : simpl never.
Arguments JS.str_eq : simpl never.
Arguments JS.includes : simpl never.
Arguments hmac_sha256_hex : simpl never.
Arguments Store.new_doc : simpl never.

Lemma avoids_bind {A B} bad (p : prog A) (f : A -> prog B) :
  avoids bad p -> (forall a, avoids bad (f a)) -> avoids bad (bind p f).
Proof.
  intros Hp Hf. induction Hp; simpl; auto using avoids_Throw, avoids_Vis.
Qed.

Lemma avoids_try_catch {A} bad (p : prog A) (h : error -> prog A) :
  avoids bad p -> (forall e, avoids bad (h e)) -> avoids bad (try_catch p h).
Proof.
  intros Hp Hh. induction Hp; simpl; auto using avoids_Ret, avoids_Vis.
Qed.

Lemma avoids_lift {A} bad (r : error + A) : avoids bad (lift r).
Proof. destruct r; constructor. Qed.

Lemma avoids_call {X} bad (o : op X) : ~ bad (Call o) -> avoids bad (call o).
Proof. intros H. constructor; auto using avoids_lift. Qed.

Lemma avoids_json bad code fields : avoids bad (json code fields).
Proof. constructor. Qed.

Create HintDb avoids.
#[export] Hint Resolve avoids_lift avoids_json avoids_call : avoids.
#[export] Hint Constructors avoids : avoids.

(** Decomposes a handler body into its calls. *)
Ltac avoids_step :=
  match goal with
  | |- avoids _ (try_catch _ _) => apply avoids_try_catch; [| intros ?]
  | |- avoids _ (bind _ _) => apply avoids_bind; [| intros ?]
  | |- avoids _ (call _) => apply avoids_call; simpl; tauto
  | |- avoids _ (let _ := _ in _) => cbv zeta
  | |- avoids _ (match ?x with _ => _ end) => destruct x
  | |- avoids _ (if ?b then _ else _) => destruct b
  | |- avoids _ _ => solve [auto with avoids]
  end.

Ltac avoids_all := repeat avoids_step.

(** What a run leaves of the calls of a program that avoids [bad]. *)
Lemma run_avoids {W A} (h : handler W) bad (p : prog A) :
  avoids bad p -> forall w, Forall (fun ev => ~ bad ev) (calls (run h p w)).
Proof.
  induction 1 as [a | e | X o k Hbad Hk IH]; intros w; simpl.
  - constructor.
  - constructor.
  - destruct (h X o w) as [x w']. simpl. constructor; auto.
Qed.

(* ===================================================================== *)
(** ** Facts about the in-memory store *)
(* ===================================================================== *)

Section StoreFacts.

Import Store.
Variable e : Env.

Lemma id_eqb_eq a b : id_eqb a b = true -> a = b.
Proof.
  destruct a, b; simpl; try discriminate.
  intros H. apply String.eqb_eq in H. now subst.
Qed.

Lemma find_has_id id l d :
  find (has_id id) l = Some d -> In d l /\ field d "_id" = id.
Proof.
  intros H. apply find_some in H. destruct H as [Hin Hid].
  split; [assumption | now apply id_eqb_eq].
Qed.

Lemma same_ids_refl l : same_ids l l.
Proof. intros b Hb. now exists b. Qed.

Lemma same_ids_trans l1 l2 l3 :
  same_ids l1 l2 -> same_ids l2 l3 -> same_ids l1 l3.
Proof.
  intros H12 H23 b Hb.
  destruct (H12 b Hb) as [b2 [Hb2 E2]].
  destruct (H23 b2 Hb2) as [b3 [Hb3 E3]].
  exists b3. split; [assumption | congruence].
Qed.

Lemma incl_same_ids l l' : incl l l' -> same_ids l l'.
Proof. intros H b Hb. exists b. auto. Qed.

Lemma replace_first_same_ids d l l' :
  replace_first (field d "_id") d l = Some l' -> same_ids l l'.
Proof.
  revert l'. induction l as [| x rest IH]; intros l' H; simpl in H.
  - discriminate.
  - destruct (has_id (field d "_id") x) eqn:Hx.
    + inversion H; subst. intros b [Hb | Hb].
      * subst b. exists d. split; [now left |].
        symmetry. now apply id_eqb_eq.
      * exists b. split; [now right | reflexivity].
    + destruct (replace_first (field d "_id") d rest) as [rest' |] eqn:Hr;
        [| discriminate].
      inversion H; subst. intros b [Hb | Hb].
      * subst b. exists x. split; [now left | reflexivity].
      * destruct (IH rest' eq_refl b Hb) as [b' [Hb' E]].
        exists b'. split; [now right | assumption].
Qed.

(** A call other than a deletion of a booking loses no booking. *)
Lemma mem_same_ids X (o : op X) w :
  ~ deletes_booking (Call o) ->
  same_ids (bookings w) (bookings (snd (mem e X o w))).
Proof.
  intros Hbad. destruct o; simpl; try apply same_ids_refl.
  - destruct (validate e m (coll m w) _); simpl; [apply same_ids_refl |].
    destruct m; simpl; try apply same_ids_refl.
    apply incl_same_ids. intros b Hb. apply in_or_app. now left.
  - destruct (replace_first _ d (coll m w)) as [l |] eqn:Hr; simpl;
      [| apply same_ids_refl].
    destruct m; simpl in *; try apply same_ids_refl.
    eapply replace_first_same_ids; eassumption.
  - destruct m; simpl in *; try apply same_ids_refl. tauto.
  - destruct (gateway_order e (orders w) o); simpl; apply same_ids_refl.
  - destruct (gateway_refund e (refunds w) paymentId o); simpl;
      apply same_ids_refl.
Qed.

Lemma run_same_ids {A} (p : prog A) :
  avoids deletes_booking p ->
  forall w, same_ids (bookings w) (bookings (final (run (mem e) p w))).
Proof.
  induction 1 as [a | err | X o k Hbad Hk IH]; intros w; simpl;
    try apply same_ids_refl.
  pose proof (mem_same_ids X o w Hbad) as Hstep.
  destruct (mem e X o w) as [x w']. simpl in *.
  eapply same_ids_trans; [exact Hstep | apply IH].
Qed.

End StoreFacts.

(* ===================================================================== *)
(** ** deleteUser *)
(* ===================================================================== *)

(** Whatever the environment, once the lookup answers a user whose id is
    the requester's, the handler answers 400 and makes no further call. *)
Lemma deleteUser_self_any_env {W} (h : handler W) w w' req user id :
  h _ (FindById User (req_param req)) w = (inr (Some user), w') ->
  method_toString (field user "_id") = inr id ->
  JS.get (req_user req) "id" = inr (JStr id) ->
  run h (adminController.deleteUser req) w
  = Outcome (inr (Res 400 [("success", OVal (JBool false));
                           ("message",
                            OVal (JStr "You cannot delete your own account"))]))
            w' [Call (FindById User (req_param req))].
Proof.
  intros Hfind Hid Hme. unfold adminController.deleteUser. cbn.
  rewrite Hfind. cbn. rewrite Hid. cbn. rewrite Hme. cbn.
  unfold JS.str_eq. rewrite String.eqb_refl. reflexivity.
Qed.

(** C10. deleteUser refuses self-deletion: when the user found under the
    target id is the requesting admin, the answer is HTTP 400 with
    success=false, the store is left as it was, and the only call made
    is the lookup (no user record is deleted). *)
Theorem deleteUser_refuses_self_deletion
        (e : Store.Env) (w : Store.World) (req : request)
        (user : doc) (id : string) :
  find (Store.has_id (req_param req)) (Store.users w) = Some user ->
  method_toString (field user "_id") = inr id ->
  JS.get (req_user req) "id" = inr (JStr id) ->
  let r := run (Store.mem e) (adminController.deleteUser req) w in
  result r
  = inr (Res 400 [("success", OVal (JBool false));
                  ("message",
                   OVal (JStr "You cannot delete your own account"))])
  /\ final r = w
  /\ Store.users (final r) = Store.users w
  /\ calls r = [Call (FindById User (req_param req))].
Proof.
  intros Hfind Hid Hme r. subst r.
  rewrite (deleteUser_self_any_env (Store.mem e) w w req user id);
    [repeat split | simpl; now rewrite Hfind | assumption | assumption].
Qed.

Lemma deleteUser_refuses_self_deletion_witness :
  let w := Demo.world [] [[("_id", JStr "a1"); ("role", JStr "admin")];
                          [("_id", JStr "u1"); ("role", JStr "user")]] [] in
  let req := Req JUndefined (JStr "a1") Demo.admin [] in
  let r := run (Store.mem (Demo.env 0)) (adminController.deleteUser req) w in
  status_of (result r) = Some 400 /\ Store.users (final r) = Store.users w.
Proof.
  intros w req r.
  destruct (deleteUser_refuses_self_deletion (Demo.env 0) w req
              [("_id", JStr "a1"); ("role", JStr "admin")] "a1")
    as [Hres [_ [Husers _]]]; try reflexivity.
  fold r in Hres, Husers. split; [now rewrite Hres | exact Husers].
Defined.

(* ===================================================================== *)
(** ** bookEvent *)
(* ===================================================================== *)

Lemma find_none_filter {A} (f : A -> bool) (l : list A) :
  find f l = None -> filter f l = [].
Proof.
  induction l as [| x rest IH]; simpl; [reflexivity |].
  destruct (f x); [discriminate | exact IH].
Qed.

(** The three ways [bookEvent] ends once the body and the requester are
    readable: no such event, a booking of the pair already stored, or a
    booking created (when the schema accepts it). *)
Lemma bookEvent_outcomes (e : Store.Env) (w : Store.World) (req : request)
      (eventId user : jsval) :
  JS.get (req_body req) "eventId" = inr eventId ->
  JS.get (req_user req) "id" = inr user ->
  let r := run (Store.mem e) (bookingController.bookEvent req) w in
  match find (Store.has_id eventId) (Store.events w) with
  | None =>
      result r = inr (Res 404 [("success", OVal (JBool false));
                               ("message", OVal (JStr "Event not found"))])
      /\ final r = w
  | Some _ =>
      match find (Store.matches [("user", user); ("event", eventId)])
                 (Store.bookings w) with
      | Some _ =>
          result r
          = inr (Res 400 [("success", OVal (JBool false));
                          ("message",
                           OVal (JStr "You already booked this event"))])
          /\ final r = w
      | None =>
          let b := Store.new_doc e Booking (Store.minted w)
                                 [("user", user); ("event", eventId)] in
          match Store.validate e Booking (Store.bookings w) b with
          | None =>
              result r = inr (Res 201 [("success", OVal (JBool true));
                                       ("data", OVal (JObj b))])
              /\ Store.bookings (final r) = Store.bookings w ++ [b]
              /\ Store.events (final r) = Store.events w
              /\ Store.users (final r) = Store.users w
          | Some err =>
              result r = inr (Res 500 [("success", OVal (JBool false));
                                       ("message", OVal (message err))])
              /\ final r = w
          end
      end
  end.
Proof.
  intros Hbody Huser r. subst r. unfold bookingController.bookEvent.
  cbn. rewrite Hbody. cbn.
  destruct (find (Store.has_id eventId) (Store.events w)); cbn;
    [| now split].
  rewrite Huser. cbn.
  destruct (find _ (Store.bookings w)); cbn; [now split |].
  destruct (Store.validate e Booking (Store.bookings w) _); cbn;
    repeat split; reflexivity.
Qed.

Lemma id_eqb_str a b : Store.id_eqb a b = true -> exists s, b = JStr s.
Proof.
  destruct a, b; simpl; try discriminate. intros _. now eexists.
Qed.







(* ===================================================================== *)
(** ** Which routes can delete or write a booking *)
(* ===================================================================== *)

Ltac unfold_route :=
  unfold route, bookingController.bookEvent, bookingController.getMyBookings,
    bookingController.adminUpdateBooking,
    bookingController.adminDeleteBooking, eventController.createEvent,
    adminController.deleteEvent, adminController.deleteUser,
    adminController.updateUserRole, paymentController.createOrder,
    paymentController.verifyPayment, paymentController.getPaymentByOrderId,
    paymentController.handleWebhook, paymentController.initiateRefund.

Lemma only_adminDeleteBooking_deletes penv ep req :
  ep <> DELETE_bookings_admin -> avoids deletes_booking (route penv ep req).
Proof.
  intros Hep. destruct ep; try congruence; unfold_route; avoids_all.
Qed.

(* ===================================================================== *)
(** ** adminDeleteBooking *)
(* ===================================================================== *)

(** C8 (as amended). Bookings are hard-deleted by adminDeleteBooking and
    by nothing else: it removes the booking found under the given id and
    answers HTTP 200 (404, the store untouched, when none is found);
    after any other route every stored booking still has a booking of
    its id in the store. *)
Theorem bookings_deleted_only_by_adminDeleteBooking
        (penv : process_env) (e : Store.Env) (w : Store.World)
        (ep : endpoint) (req : request) :
  let r := run (Store.mem e) (route penv ep req) w in
  match ep with
  | DELETE_bookings_admin =>
      match find (Store.has_id (req_param req)) (Store.bookings w) with
      | Some b =>
          result r
          = inr (Res 200 [("success", OVal (JBool true));
                          ("message",
                           OVal (JStr "Booking deleted successfully"))])
          /\ Store.bookings (final r)
             = Store.remove_first (field b "_id") (Store.bookings w)
      | None =>
          result r = inr (Res 404 [("success", OVal (JBool false));
                                   ("message", OVal (JStr "Booking not found"))])
          /\ final r = w
      end
  | _ => Store.same_ids (Store.bookings w) (Store.bookings (final r))
  end.
Proof.
  intros r. subst r.
  destruct ep;
    try (apply run_same_ids, only_adminDeleteBooking_deletes; discriminate).
  unfold route, bookingController.adminDeleteBooking. cbn.
  destruct (find (Store.has_id (req_param req)) (Store.bookings w));
    cbn; split; reflexivity.
Qed.

(** C8, as worded, fails: adminDeleteBooking removes a cancelled booking
    for good. *)
Lemma adminDeleteBooking_hard_deletes :
  let w := Demo.world [] [] [Demo.cancelled_b1] in
  let r := run (Store.mem (Demo.env 0))
               (bookingController.adminDeleteBooking Demo.delete_b1) w in
  status_of (result r) = Some 200
  /\ Store.bookings (final r) = []
  /\ ~ Stated.never_deleted Demo.penv (Demo.env 0) w
                            DELETE_bookings_admin Demo.delete_b1.
Proof.
  split; [vm_compute; reflexivity |].
  split; [vm_compute; reflexivity |].
  intros H.
  destruct (H Demo.cancelled_b1) as [b' [Hin _]].
  - now left.
  - exists "cancelled". split; [reflexivity | simpl; tauto].
  - vm_compute in Hin. exact Hin.
Qed.

(* ===================================================================== *)
(** ** adminUpdateBooking and the states of a booking *)
(* ===================================================================== *)

Lemma remove_first_incl id l : incl (Store.remove_first id l) l.
Proof.
  induction l as [| x rest IH]; simpl; [apply incl_refl |].
  destruct (Store.has_id id x).
  - apply incl_tl, incl_refl.
  - intros b [Hb | Hb]; [now left | right; now apply IH].
Qed.

Lemma replace_first_in id d l l' b' :
  Store.replace_first id d l = Some l' -> In b' l' -> b' = d \/ In b' l.
Proof.
  revert l'. induction l as [| x rest IH]; intros l' H Hin; simpl in H.
  - discriminate.
  - destruct (Store.has_id id x).
    + inversion H; subst. destruct Hin as [Hin | Hin]; [now left |].
      right. now right.
    + destruct (Store.replace_first id d rest) as [rest' |]; [| discriminate].
      inversion H; subst. destruct Hin as [Hin | Hin].
      * right. now left.
      * destruct (IH rest' eq_refl Hin) as [Hd | Hr]; [now left |].
        right. now right.
Qed.

Lemma replace_first_found id d l b :
  find (Store.has_id id) l = Some b ->
  exists l', Store.replace_first id d l = Some l' /\ In d l'.
Proof.
  induction l as [| x rest IH]; simpl; [discriminate |].
  destruct (Store.has_id id x).
  - intros _. eexists. split; [reflexivity | now left].
  - intros H. destruct (IH H) as [l' [Hl' Hin]]. rewrite Hl'.
    eexists. split; [reflexivity | now right].
Qed.

Lemma field_set_other {k k' : string} v (d : doc) :
  String.eqb k' k = false -> field (JS.set k v d) k' = field d k'.
Proof.
  intros Hk. unfold field. induction d as [| [k0 v0] rest IH]; simpl.
  - now rewrite Hk.
  - destruct (String.eqb k k0) eqn:Hk0; simpl.
    + apply String.eqb_eq in Hk0. subst k0. now rewrite Hk.
    + destruct (String.eqb k' k0); [reflexivity | exact IH].
Qed.

Lemma includes_str xs v :
  JS.includes xs v = true -> exists s, v = JStr s /\ In s xs.
Proof.
  unfold JS.includes. intros H. apply existsb_exists in H.
  destruct H as [s [Hin Heq]]. destruct v; simpl in Heq; try discriminate.
  apply String.eqb_eq in Heq. subst. now eexists.
Qed.

(** A call that neither saves nor creates a booking adds none. *)
Lemma mem_no_new_booking (e : Store.Env) X (o : op X) w :
  ~ writes_booking (Call o) -> ~ creates_booking (Call o) ->
  incl (Store.bookings (snd (Store.mem e X o w))) (Store.bookings w).
Proof.
  intros Hw Hc. destruct o; simpl; try apply incl_refl.
  - destruct m; simpl in *; try tauto;
      destruct (Store.validate e _ _ _); simpl; apply incl_refl.
  - destruct m; simpl in *; try tauto;
      destruct (Store.replace_first _ d _); simpl; apply incl_refl.
  - destruct m; simpl; try apply incl_refl. apply remove_first_incl.
  - destruct (Store.gateway_order e (Store.orders w) o); simpl;
      apply incl_refl.
  - destruct (Store.gateway_refund e (Store.refunds w) paymentId o); simpl;
      apply incl_refl.
Qed.

Lemma run_no_new_booking (e : Store.Env) {A} (p : prog A) :
  avoids (fun ev => writes_booking ev \/ creates_booking ev) p ->
  forall w,
    incl (Store.bookings (final (run (Store.mem e) p w))) (Store.bookings w).
Proof.
  induction 1 as [a | err | X o k Hbad Hk IH]; intros w; simpl;
    try apply incl_refl.
  assert (Hstep : incl (Store.bookings (snd (Store.mem e X o w)))
                       (Store.bookings w))
    by (apply mem_no_new_booking; tauto).
  destruct (Store.mem e X o w) as [x w']. simpl in *.
  eapply incl_tran; [apply IH | exact Hstep].
Qed.

Lemma other_routes_write_no_booking penv ep req :
  ep <> PUT_bookings_admin -> ep <> POST_bookings ->
  avoids (fun ev => writes_booking ev \/ creates_booking ev)
         (route penv ep req).
Proof.
  intros H1 H2. destruct ep; try congruence; unfold_route; avoids_all.
Qed.

(** The bookings [bookEvent] leaves: those stored, and at most the one
    it created. *)
Lemma bookEvent_bookings (e : Store.Env) w req b' :
  In b' (Store.bookings
           (final (run (Store.mem e) (bookingController.bookEvent req) w))) ->
  In b' (Store.bookings w)
  \/ exists fields, b' = Store.new_doc e Booking (Store.minted w) fields.
Proof.
  unfold bookingController.bookEvent. cbn.
  destruct (JS.get (req_body req) "eventId") as [err | eventId]; cbn;
    [now left |].
  destruct (find (Store.has_id eventId) (Store.events w)); cbn; [| now left].
  destruct (JS.get (req_user req) "id") as [err | user]; cbn; [now left |].
  destruct (find _ (Store.bookings w)); cbn; [now left |].
  destruct (Store.validate e Booking (Store.bookings w) _); cbn;
    [now left |].
  intros Hin. apply in_app_or in Hin. destruct Hin as [Hin | [Hin | []]].
  - now left.
  - right. eexists. symmetry. exact Hin.
Qed.

(** The bookings [adminUpdateBooking] leaves: those stored, and at most
    one of them with its status set to a valid status. *)
Lemma adminUpdateBooking_bookings (e : Store.Env) w req b' :
  In b' (Store.bookings
           (final (run (Store.mem e)
                       (bookingController.adminUpdateBooking req) w))) ->
  In b' (Store.bookings w)
  \/ exists b s,
       In b (Store.bookings w)
       /\ In s bookingController.validStatuses
       /\ b' = JS.set "status" (JStr s) b.
Proof.
  unfold bookingController.adminUpdateBooking. cbn.
  destruct (JS.get (req_body req) "status") as [err | status]; cbn;
    [now left |].
  destruct (JS.truthy status) eqn:Htruthy; cbn.
  - destruct (JS.includes bookingController.validStatuses status) eqn:Hinc;
      cbn; [| now left].
    destruct (includes_str _ _ Hinc) as [s [-> Hs]].
    destruct (find (Store.has_id (req_param req)) (Store.bookings w))
      as [b |] eqn:Hfind; cbn; [| now left].
    destruct (Store.replace_first _ _ (Store.bookings w)) as [l |] eqn:Hrep;
      cbn; [| now left].
    intros Hin. destruct (replace_first_in _ _ _ _ _ Hrep Hin) as [-> | Hold].
    + right. exists b, s. apply find_some in Hfind. tauto.
    + now left.
  - destruct (find (Store.has_id (req_param req)) (Store.bookings w))
      as [b |] eqn:Hfind; cbn; [| now left].
    destruct (Store.replace_first _ _ (Store.bookings w)) as [l |] eqn:Hrep;
      cbn; [| now left].
    intros Hin. destruct (replace_first_in _ _ _ _ _ Hrep Hin) as [-> | Hold].
    + left. apply find_some in Hfind. tauto.
    + now left.
Qed.

Lemma includes_in xs s : In s xs -> JS.includes xs (JStr s) = true.
Proof.
  intros H. unfold JS.includes. apply existsb_exists. exists s.
  split; [assumption | apply String.eqb_refl].
Qed.

Lemma valid_status_truthy s :
  In s bookingController.validStatuses -> JS.truthy (JStr s) = true.
Proof.
  intros [<- | [<- | [<- | [<- | []]]]]; reflexivity.
Qed.

(** Whatever the status of the booking found, a valid requested status
    is written over it. *)
Lemma adminUpdateBooking_sets_status (e : Store.Env) w req b s :
  find (Store.has_id (req_param req)) (Store.bookings w) = Some b ->
  JS.get (req_body req) "status" = inr (JStr s) ->
  In s bookingController.validStatuses ->
  In (JS.set "status" (JStr s) b)
     (Store.bookings
        (final (run (Store.mem e)
                    (bookingController.adminUpdateBooking req) w))).
Proof.
  intros Hfind Hstatus Hs.
  unfold bookingController.adminUpdateBooking. cbn.
  rewrite Hstatus. cbn.
  rewrite (valid_status_truthy s Hs), (includes_in _ s Hs). cbn.
  rewrite Hfind. cbn.
  rewrite (field_set_other (k := "status") (k' := "_id")) by reflexivity.
  destruct (find_has_id _ _ _ Hfind) as [_ Hid]. rewrite Hid.
  destruct (replace_first_found (req_param req)
              (JS.set "status" (JStr s) b) _ b Hfind) as [l' [Hrep Hin]].
  rewrite Hrep. cbn. exact Hin.
Qed.

Lemma field_set_same k v (d : doc) : field (JS.set k v d) k = v.
Proof.
  unfold field. induction d as [| [k0 v0] rest IH]; simpl.
  - now rewrite String.eqb_refl.
  - destruct (String.eqb k k0) eqn:Hk; simpl.
    + now rewrite String.eqb_refl.
    + rewrite Hk. exact IH.
Qed.

(** The booking [bookEvent] creates carries the requester, the event
    and nothing else of the request: its status is the schema's. *)
Lemma bookEvent_creates (e : Store.Env) w req b' :
  In b' (Store.bookings
           (final (run (Store.mem e) (bookingController.bookEvent req) w))) ->
  In b' (Store.bookings w)
  \/ exists user eventId,
       JS.get (req_user req) "id" = inr user
       /\ JS.get (req_body req) "eventId" = inr eventId
       /\ b' = Store.new_doc e Booking (Store.minted w)
                             [("user", user); ("event", eventId)].
Proof.
  unfold bookingController.bookEvent. cbn.
  destruct (JS.get (req_body req) "eventId") as [err | eventId]; cbn;
    [now left |].
  destruct (find (Store.has_id eventId) (Store.events w)); cbn; [| now left].
  destruct (JS.get (req_user req) "id") as [err | user]; cbn; [now left |].
  destruct (find _ (Store.bookings w)); cbn; [now left |].
  destruct (Store.validate e Booking (Store.bookings w) _); cbn;
    [now left |].
  intros Hin. apply in_app_or in Hin. destruct Hin as [Hin | [Hin | []]].
  - now left.
  - right. exists user, eventId. repeat split. symmetry. exact Hin.
Qed.

(** Two documents of a collection with distinct ids that carry the same
    id are the same document. *)
Lemma same_id_same_doc (l : list doc) b b0 :
  NoDup (map (fun d => field d "_id") l) ->
  In b l -> In b0 l -> field b "_id" = field b0 "_id" -> b = b0.
Proof.
  induction l as [| d l IH]; simpl; [contradiction |].
  intros Hnodup Hb Hb0 Hid. inversion Hnodup as [| x xs Hnotin Hrest]; subst.
  destruct Hb as [-> | Hb], Hb0 as [-> | Hb0].
  - reflexivity.
  - exfalso. apply Hnotin. rewrite Hid.
    apply (in_map (fun d => field d "_id")). exact Hb0.
  - exfalso. apply Hnotin. rewrite <- Hid.
    apply (in_map (fun d => field d "_id")). exact Hb.
  - now apply IH.
Qed.

Lemma new_doc_id (e : Store.Env) m n fields :
  field (Store.new_doc e m n fields) "_id" = JStr (Store.new_id e n).
Proof. reflexivity. Qed.

(** C2 (as amended). The state of a stored booking is changed by
    adminUpdateBooking alone, and only to one of booked, cancelled,
    confirmed, attended.  After any route a stored booking is one that
    was stored before, or the one booking bookEvent has just created
    (the requester, the event, and for the rest, the status included,
    what the schema defaults to), or a stored one whose status
    adminUpdateBooking set to one of the four.  So, the ids of the
    stored bookings being distinct and the id minted for a new document
    being a new one, a booking found under the id of a booking stored
    before is that booking, unchanged, or that booking with its status
    set by adminUpdateBooking to one of the four: it is pending, or
    refunded, only if it was so before.  adminUpdateBooking writes the
    requested valid status whatever the current one, so the writes do
    not follow the graph of §4.3. *)
Theorem booking_states_written
        (penv : process_env) (e : Store.Env) (w : Store.World)
        (ep : endpoint) (req : request) :
  let r := run (Store.mem e) (route penv ep req) w in
  (forall b', In b' (Store.bookings (final r)) ->
     In b' (Store.bookings w)
     \/ (ep = POST_bookings
         /\ exists user eventId,
             JS.get (req_user req) "id" = inr user
             /\ JS.get (req_body req) "eventId" = inr eventId
             /\ b' = Store.new_doc e Booking (Store.minted w)
                                   [("user", user); ("event", eventId)])
     \/ (ep = PUT_bookings_admin
         /\ exists b s,
             In b (Store.bookings w)
             /\ In s bookingController.validStatuses
             /\ b' = JS.set "status" (JStr s) b))
  /\ (forall b s,
        ep = PUT_bookings_admin ->
        find (Store.has_id (req_param req)) (Store.bookings w) = Some b ->
        JS.get (req_body req) "status" = inr (JStr s) ->
        In s bookingController.validStatuses ->
        In (JS.set "status" (JStr s) b) (Store.bookings (final r)))
  /\ (NoDup (map (fun d => field d "_id") (Store.bookings w)) ->
      (forall b, In b (Store.bookings w) ->
                 field b "_id" <> JStr (Store.new_id e (Store.minted w))) ->
      forall b b',
        In b (Store.bookings w) -> In b' (Store.bookings (final r)) ->
        field b' "_id" = field b "_id" ->
        (b' = b
         \/ (ep = PUT_bookings_admin
             /\ exists s, In s bookingController.validStatuses
                          /\ b' = JS.set "status" (JStr s) b))
        /\ (field b' "status" = JStr "pending" ->
            field b "status" = JStr "pending")
        /\ (field b' "status" = JStr "refunded" ->
            field b "status" = JStr "refunded")).
Proof.
  intros r. subst r.
  assert (Hfrom : forall b',
             In b' (Store.bookings
                      (final (run (Store.mem e) (route penv ep req) w))) ->
             In b' (Store.bookings w)
             \/ (ep = POST_bookings
                 /\ exists user eventId,
                     JS.get (req_user req) "id" = inr user
                     /\ JS.get (req_body req) "eventId" = inr eventId
                     /\ b' = Store.new_doc e Booking (Store.minted w)
                                           [("user", user);
                                            ("event", eventId)])
             \/ (ep = PUT_bookings_admin
                 /\ exists b s,
                     In b (Store.bookings w)
                     /\ In s bookingController.validStatuses
                     /\ b' = JS.set "status" (JStr s) b)).
  { intros b' Hin.
    destruct ep;
      try (left; revert Hin; apply run_no_new_booking,
             other_routes_write_no_booking; discriminate).
    + apply bookEvent_creates in Hin. destruct Hin as [Hin | Hin];
        [now left | right; left; now split].
    + apply adminUpdateBooking_bookings in Hin. destruct Hin as [Hin | Hin];
        [now left | right; right; now split]. }
  split; [exact Hfrom |]. split.
  - intros b s -> Hfind Hstatus Hs.
    now apply adminUpdateBooking_sets_status.
  - intros Hnodup Hfresh b b' Hb Hb' Hid.
    assert (Hcases : b' = b
                     \/ (ep = PUT_bookings_admin
                         /\ exists s, In s bookingController.validStatuses
                                      /\ b' = JS.set "status" (JStr s) b)).
    { destruct (Hfrom b' Hb') as [Hold | [[_ Hnew] | [Hep Hset]]].
      - left. now apply (same_id_same_doc (Store.bookings w)).
      - destruct Hnew as [user [eventId [_ [_ ->]]]].
        rewrite new_doc_id in Hid. exfalso.
        apply (Hfresh b Hb). now rewrite Hid.
      - destruct Hset as [b0 [s [Hb0 [Hs ->]]]].
        rewrite (field_set_other (k := "status") (k' := "_id")) in Hid
          by reflexivity.
        right. split; [exact Hep |]. exists s. split; [exact Hs |].
        now rewrite (same_id_same_doc (Store.bookings w) b0 b Hnodup Hb0 Hb
                       Hid). }
    split; [exact Hcases |].
    destruct Hcases as [-> | [_ [s [Hs ->]]]].
    + split; intros H; exact H.
    + rewrite field_set_same.
      split; intros H; injection H as ->; exfalso;
        simpl in Hs; repeat (destruct Hs as [Hs | Hs]; [discriminate Hs |]);
        exact Hs.
Qed.

Lemma booking_states_written_witness :
  let w := Demo.world [] [] [Demo.cancelled_b1] in
  let r := run (Store.mem (Demo.env 0))
               (route Demo.penv PUT_bookings_admin Demo.confirm_b1) w in
  NoDup (map (fun d => field d "_id") (Store.bookings w))
  /\ field Demo.cancelled_b1 "_id"
     <> JStr (Store.new_id (Demo.env 0) (Store.minted w))
  /\ In (JS.set "status" (JStr "confirmed") Demo.cancelled_b1)
        (Store.bookings (final r))
  /\ forall b',
       In b' (Store.bookings (final r)) ->
       field b' "_id" = JStr "b1" ->
       b' = Demo.cancelled_b1
       \/ exists s, In s bookingController.validStatuses
                    /\ b' = JS.set "status" (JStr s) Demo.cancelled_b1.
Proof.
  cbv zeta.
  assert (Hnodup : NoDup (map (fun d => field d "_id")
                              (Store.bookings
                                 (Demo.world [] [] [Demo.cancelled_b1]))))
    by (repeat constructor; simpl; tauto).
  assert (Hfresh : field Demo.cancelled_b1 "_id"
                   <> JStr (Store.new_id (Demo.env 0)
                              (Store.minted
                                 (Demo.world [] [] [Demo.cancelled_b1]))))
    by (vm_compute; discriminate).
  destruct (booking_states_written Demo.penv (Demo.env 0)
              (Demo.world [] [] [Demo.cancelled_b1])
              PUT_bookings_admin Demo.confirm_b1) as [_ [Hset Hkept]].
  split; [exact Hnodup |]. split; [exact Hfresh |]. split.
  - apply Hset; [reflexivity | reflexivity | reflexivity | simpl; tauto].
  - intros b' Hin Hid.
    destruct (Hkept Hnodup) with (b := Demo.cancelled_b1) (b' := b')
      as [[Hsame | [_ Hwritten]] _].
    + intros b [<- | []]. exact Hfresh.
    + now left.
    + exact Hin.
    + exact Hid.
    + now left.
    + now right.
Defined.

(** C2, as worded, fails: adminUpdateBooking moves a cancelled booking to
    confirmed, which is no transition of the graph. *)
Lemma adminUpdateBooking_leaves_the_graph :
  let w := Demo.world [] [] [Demo.cancelled_b1] in
  let r := run (Store.mem (Demo.env 0))
               (bookingController.adminUpdateBooking Demo.confirm_b1) w in
  status_of (result r) = Some 200
  /\ Store.bookings (final r)
     = [[("_id", JStr "b1"); ("user", JStr "u1"); ("event", JStr "b0");
         ("status", JStr "confirmed")]]
  /\ ~ Stated.follows_graph Demo.penv (Demo.env 0) w
                            PUT_bookings_admin Demo.confirm_b1.
Proof.
  split; [vm_compute; reflexivity |].
  split; [vm_compute; reflexivity |].
  intros H.
  destruct (H Demo.cancelled_b1
              [("_id", JStr "b1"); ("user", JStr "u1"); ("event", JStr "b0");
               ("status", JStr "confirmed")]) as [Hsame | Hedge].
  - now left.
  - vm_compute. now left.
  - reflexivity.
  - vm_compute in Hsame. discriminate Hsame.
  - destruct Hedge as [s [t [Hs [Ht Hin]]]].
    vm_compute in Hs, Ht. inversion Hs; inversion Ht; subst s t.
    simpl in Hin.
    repeat (destruct Hin as [Hin | Hin]; [discriminate Hin |]).
    exact Hin.
Qed.

(* ===================================================================== *)
(** ** verifyPayment *)
(* ===================================================================== *)

(** With the three payment fields present and the ids convertible, the
    answer is decided by the comparison of the signature with the HMAC
    of the ids, in every environment and without a single call. *)
Lemma verifyPayment_decides {W} (h : handler W) (w : W) penv req
      order payment signature bookingId order_s payment_s :
  presents req order payment signature bookingId ->
  JS.truthy order = true -> JS.truthy payment = true ->
  JS.truthy signature = true ->
  JS.toString order = inr order_s -> JS.toString payment = inr payment_s ->
  run h (paymentController.verifyPayment penv req) w
  = Outcome
      (inr (if JS.str_eq
                 (hmac_sha256_hex (key_secret penv)
                                  (order_s +++ "|" +++ payment_s))
                 signature
            then verified_response bookingId payment
            else invalid_signature_response))
      w [].
Proof.
  intros [Ho [Hp [Hs Hb]]] To Tp Ts So Sp.
  unfold paymentController.verifyPayment,
    paymentController.expectedSignature, key_secret. cbn.
  rewrite Ho. cbn. rewrite Hp. cbn. rewrite Hs. cbn. rewrite Hb. cbn.
  rewrite To, Tp, Ts. cbn. rewrite So. cbn. rewrite Sp. cbn.
  destruct (JS.str_eq _ signature); reflexivity.
Qed.

(** A falsy field is answered before anything is computed. *)
Lemma verifyPayment_missing {W} (h : handler W) (w : W) penv req
      order payment signature bookingId :
  presents req order payment signature bookingId ->
  JS.truthy order && JS.truthy payment && JS.truthy signature = false ->
  run h (paymentController.verifyPayment penv req) w
  = Outcome (inr missing_data_response) w [].
Proof.
  intros [Ho [Hp [Hs Hb]]] Hmissing.
  unfold paymentController.verifyPayment. cbn.
  rewrite Ho. cbn. rewrite Hp. cbn. rewrite Hs. cbn. rewrite Hb. cbn.
  destruct (JS.truthy order), (JS.truthy payment), (JS.truthy signature);
    try discriminate Hmissing; reflexivity.
Qed.

(** An id that cannot be made a string: the concatenation throws, the
    error is printed and the answer is 500. *)
Lemma verifyPayment_unconvertible (e : Store.Env) (w : Store.World) penv req
      order payment signature bookingId err :
  presents req order payment signature bookingId ->
  JS.truthy order = true -> JS.truthy payment = true ->
  JS.truthy signature = true ->
  match JS.toString order, JS.toString payment with
  | inl err', _ => err' = err
  | inr _, inl err' => err' = err
  | inr _, inr _ => False
  end ->
  run (Store.mem e) (paymentController.verifyPayment penv req) w
  = Outcome (inr (verification_error_response err))
            (Store.printed [Store.LogError "Error verifying payment:" err] w)
            [Call (Console_error "Error verifying payment:" err)].
Proof.
  intros [Ho [Hp [Hs Hb]]] To Tp Ts Herr.
  unfold paymentController.verifyPayment. cbn.
  rewrite Ho. cbn. rewrite Hp. cbn. rewrite Hs. cbn. rewrite Hb. cbn.
  rewrite To, Tp, Ts. cbn.
  destruct (JS.toString order) as [e1 | order_s]; cbn.
  - subst e1. reflexivity.
  - destruct (JS.toString payment) as [e2 | payment_s]; cbn.
    + subst e2. reflexivity.
    + destruct Herr.
Qed.

(** A body that cannot be read ([undefined] or [null]). *)
Lemma verifyPayment_unreadable (e : Store.Env) (w : Store.World) penv req err :
  JS.get (req_body req) "razorpay_order_id" = inl err ->
  run (Store.mem e) (paymentController.verifyPayment penv req) w
  = Outcome (inr (verification_error_response err))
            (Store.printed [Store.LogError "Error verifying payment:" err] w)
            [Call (Console_error "Error verifying payment:" err)].
Proof.
  intros Ho. unfold paymentController.verifyPayment. cbn.
  rewrite Ho. reflexivity.
Qed.

(** Reading a property fails on the value, not on the key. *)
Lemma get_readable o k k' v :
  JS.get o k = inr v -> exists v', JS.get o k' = inr v'.
Proof.
  unfold JS.get. destruct o; try discriminate; intros _; eexists; reflexivity.
Qed.

Lemma digest_hex_nonempty msg :
  exists c s, Bytes.to_hex (SHA256.digest msg) = String c s.
Proof.
  unfold SHA256.digest. cbv zeta.
  destruct (fold_left SHA256.compress _ SHA256.init)
    as [[[[[[[a b] c] d] e0] f] g] h].
  cbn [flat_map Bytes.be_bytes app Bytes.to_hex fold_right Bytes.hex_byte
       String.append].
  eexists. eexists. reflexivity.
Qed.

Lemma hmac_is_digest key msg :
  exists m, SHA256.hmac key msg = SHA256.digest m.
Proof. unfold SHA256.hmac. cbv zeta. eexists. reflexivity. Qed.

(** A hex digest is a truthy string. *)
Lemma hmac_truthy key msg : JS.truthy (JStr (hmac_sha256_hex key msg)) = true.
Proof.
  unfold hmac_sha256_hex.
  destruct (hmac_is_digest (Bytes.of_string key) (Bytes.of_string msg))
    as [m ->].
  destruct (digest_hex_nonempty m) as [c [s ->]]. reflexivity.
Qed.

Lemma str_eq_refl s : JS.str_eq s (JStr s) = true.
Proof. unfold JS.str_eq. apply String.eqb_refl. Qed.

Lemma str_eq_true s v : JS.str_eq s v = true -> v = JStr s.
Proof.
  destruct v; try discriminate. unfold JS.str_eq. intros H.
  apply String.eqb_eq in H. now subst.
Qed.

(** With a valid signature, the answer is the 200 one. *)
Lemma verifyPayment_valid {W} (h : handler W) (w : W) penv req
      order payment signature bookingId :
  presents req order payment signature bookingId ->
  JS.truthy order = true -> JS.truthy payment = true ->
  valid_signature penv order payment signature ->
  run h (paymentController.verifyPayment penv req) w
  = Outcome (inr (verified_response bookingId payment)) w [].
Proof.
  intros Hreq To Tp [order_s [payment_s [So [Sp ->]]]].
  rewrite (verifyPayment_decides h w penv req order payment _ bookingId
             order_s payment_s Hreq To Tp); try assumption.
  - now rewrite str_eq_refl.
  - apply hmac_truthy.
Qed.

(** What the answer is, case by case, on the in-memory store. *)
Lemma verifyPayment_table (penv : process_env) (e : Store.Env)
      (w : Store.World) (req : request) :
  let r := run (Store.mem e) (paymentController.verifyPayment penv req) w in
  (exists order payment signature bookingId,
      presents req order payment signature bookingId
      /\ JS.truthy order = true /\ JS.truthy payment = true
      /\ valid_signature penv order payment signature
      /\ r = Outcome (inr (verified_response bookingId payment)) w [])
  \/ (ok (result r) 200 = false
      /\ ((result r = inr missing_data_response /\ final r = w)
          \/ (result r = inr invalid_signature_response /\ final r = w)
          \/ (exists err,
                 result r = inr (verification_error_response err)
                 /\ final r
                    = Store.printed
                        [Store.LogError "Error verifying payment:" err] w))).
Proof.
  intros r.
  destruct (JS.get (req_body req) "razorpay_order_id") as [err | order] eqn:Ho.
  { right. subst r. rewrite (verifyPayment_unreadable e w penv req err Ho).
    split; [reflexivity |]. right. right. exists err. now split. }
  destruct (get_readable _ _ "razorpay_payment_id" _ Ho) as [payment Hp].
  destruct (get_readable _ _ "razorpay_signature" _ Ho) as [signature Hs].
  destruct (get_readable _ _ "bookingId" _ Ho) as [bookingId Hb].
  assert (Hreq : presents req order payment signature bookingId)
    by (repeat split; assumption).
  destruct (JS.truthy order && JS.truthy payment && JS.truthy signature)
    eqn:Hpresent.
  2: { right. subst r.
       rewrite (verifyPayment_missing _ w penv req _ _ _ _ Hreq Hpresent).
       split; [reflexivity |]. left. now split. }
  apply andb_true_iff in Hpresent. destruct Hpresent as [Hpresent Ts].
  apply andb_true_iff in Hpresent. destruct Hpresent as [To Tp].
  destruct (JS.toString order) as [e1 | order_s] eqn:So.
  { right. subst r.
    rewrite (verifyPayment_unconvertible e w penv req _ _ _ _ e1 Hreq To Tp Ts)
      by (rewrite So; reflexivity).
    split; [reflexivity |]. right. right. exists e1. now split. }
  destruct (JS.toString payment) as [e2 | payment_s] eqn:Sp.
  { right. subst r.
    rewrite (verifyPayment_unconvertible e w penv req _ _ _ _ e2 Hreq To Tp Ts)
      by (rewrite So, Sp; reflexivity).
    split; [reflexivity |]. right. right. exists e2. now split. }
  subst r.
  rewrite (verifyPayment_decides _ w penv req _ _ _ _ _ _ Hreq To Tp Ts So Sp).
  destruct (JS.str_eq _ signature) eqn:Heq.
  - left. exists order, payment, signature, bookingId.
    split; [exact Hreq |]. split; [exact To |]. split; [exact Tp |].
    split; [| reflexivity].
    exists order_s, payment_s.
    split; [exact So |]. split; [exact Sp | now apply str_eq_true].
  - right. split; [reflexivity |]. right. left. now split.
Qed.

Lemma printed_bookings l w :
  Store.bookings (Store.printed l w) = Store.bookings w.
Proof. reflexivity. Qed.

(** C5 (as amended). verifyPayment never answers 200 to a signature
    that is not the HMAC of the presented ids, and never touches a
    booking; but the rejection is one of three, depending on what is
    wrong: HTTP 400 "Missing payment verification data" when the order
    id, the payment id or the signature is falsy; HTTP 400 "Payment
    verification failed - Invalid signature" when the three are present
    and the signature is another value; HTTP 500 with the error's
    message when the body cannot be read or an id cannot be made a
    string, the concatenation having thrown. *)
Theorem verifyPayment_rejects_invalid_signature
        (penv : process_env) (e : Store.Env) (w : Store.World)
        (req : request) :
  let r := run (Store.mem e) (paymentController.verifyPayment penv req) w in
  Store.bookings (final r) = Store.bookings w
  /\ (ok (result r) 200 = true ->
      exists order payment signature bookingId,
        presents req order payment signature bookingId
        /\ JS.truthy order = true /\ JS.truthy payment = true
        /\ valid_signature penv order payment signature)
  /\ (forall order payment signature bookingId,
        presents req order payment signature bookingId ->
        (JS.truthy order && JS.truthy payment && JS.truthy signature = false ->
         r = Outcome (inr missing_data_response) w [])
        /\ (JS.truthy order && JS.truthy payment && JS.truthy signature = true ->
            match JS.toString order, JS.toString payment with
            | inr order_s, inr payment_s =>
                signature
                <> JStr (hmac_sha256_hex (key_secret penv)
                                         (order_s +++ "|" +++ payment_s)) ->
                r = Outcome (inr invalid_signature_response) w []
            | inl err, _ | inr _, inl err =>
                result r = inr (verification_error_response err)
                /\ calls r = [Call (Console_error "Error verifying payment:"
                                                  err)]
            end))
  /\ (forall err,
        JS.get (req_body req) "razorpay_order_id" = inl err ->
        result r = inr (verification_error_response err)).
Proof.
  intros r. split; [| split; [| split]].
  - destruct (verifyPayment_table penv e w req)
      as [[o [p [s [b [_ [_ [_ [_ Hr]]]]]]]]
         | [_ [[_ Hf] | [[_ Hf] | [err [_ Hf]]]]]];
      fold r in Hr || fold r in Hf.
    + now rewrite Hr.
    + now rewrite Hf.
    + now rewrite Hf.
    + rewrite Hf. apply printed_bookings.
  - intros Hok.
    destruct (verifyPayment_table penv e w req)
      as [[o [p [s [b [Hreq [To [Tp [Hv _]]]]]]]] | [Hno _]].
    + exists o, p, s, b.
      split; [exact Hreq |]. split; [exact To |]. split; [exact Tp | exact Hv].
    + fold r in Hno. rewrite Hok in Hno. discriminate Hno.
  - intros order payment signature bookingId Hreq. split.
    + intros Hmissing. subst r.
      exact (verifyPayment_missing _ w penv req _ _ _ _ Hreq Hmissing).
    + intros Hpresent.
      apply andb_true_iff in Hpresent. destruct Hpresent as [Hpresent Ts].
      apply andb_true_iff in Hpresent. destruct Hpresent as [To Tp].
      destruct (JS.toString order) as [e1 | order_s] eqn:So.
      { subst r.
        rewrite (verifyPayment_unconvertible e w penv req _ _ _ _ e1
                   Hreq To Tp Ts) by (rewrite So; reflexivity).
        now split. }
      destruct (JS.toString payment) as [e2 | payment_s] eqn:Sp.
      { subst r.
        rewrite (verifyPayment_unconvertible e w penv req _ _ _ _ e2
                   Hreq To Tp Ts) by (rewrite So, Sp; reflexivity).
        now split. }
      intros Hbad. subst r.
      rewrite (verifyPayment_decides _ w penv req _ _ _ _ _ _
                 Hreq To Tp Ts So Sp).
      destruct (JS.str_eq _ signature) eqn:Heq; [| reflexivity].
      exfalso. apply Hbad. now apply str_eq_true.
  - intros err Ho. subst r.
    now rewrite (verifyPayment_unreadable e w penv req err Ho).
Qed.

Lemma verifyPayment_rejects_invalid_signature_witness :
  let w := Demo.world [] [] [Demo.pending_B1] in
  let r := run (Store.mem (Demo.env 0))
               (paymentController.verifyPayment Demo.penv Demo.forged_B1) w in
  presents Demo.forged_B1 (JStr "order_O1") (JStr "pay_P1")
           (JStr "sig_demo_1700000000000") (JStr "B1")
  /\ r = Outcome (inr invalid_signature_response) w []
  /\ Store.bookings (final r) = [Demo.pending_B1].
Proof.
  cbv zeta.
  assert (Hreq : presents Demo.forged_B1 (JStr "order_O1") (JStr "pay_P1")
                          (JStr "sig_demo_1700000000000") (JStr "B1"))
    by (repeat split).
  destruct (verifyPayment_rejects_invalid_signature
              Demo.penv (Demo.env 0) (Demo.world [] [] [Demo.pending_B1])
              Demo.forged_B1) as [Hstore [_ [Hrej _]]].
  destruct (Hrej _ _ _ _ Hreq) as [_ Hbad].
  split; [exact Hreq |]. split; [| exact Hstore].
  apply (Hbad eq_refl). intros Hs. vm_compute in Hs. discriminate Hs.
Defined.

(** C5, as worded, fails: the rejection tells what was wrong.  A
    tampered signature, an empty one and an order id that cannot be
    made a string get three different answers, the last one after the
    concatenation has thrown. *)
Lemma verifyPayment_rejections_differ :
  let w := Demo.world [] [] [Demo.pending_B1] in
  let answer req :=
    result (run (Store.mem (Demo.env 0))
                (paymentController.verifyPayment Demo.penv req) w) in
  answer Demo.forged_B1 = inr invalid_signature_response
  /\ answer Demo.unsigned_B1 = inr missing_data_response
  /\ answer Demo.odd_B1
     = inr (verification_error_response
              (TypeError "Cannot convert object to primitive value"))
  /\ ~ Stated.rejected_alike Demo.penv (Demo.env 0) w.
Proof.
  cbv zeta.
  assert (H1 : result (run (Store.mem (Demo.env 0))
                           (paymentController.verifyPayment Demo.penv
                                                            Demo.forged_B1)
                           (Demo.world [] [] [Demo.pending_B1]))
               = inr invalid_signature_response)
    by (vm_compute; reflexivity).
  assert (H2 : result (run (Store.mem (Demo.env 0))
                           (paymentController.verifyPayment Demo.penv
                                                            Demo.unsigned_B1)
                           (Demo.world [] [] [Demo.pending_B1]))
               = inr missing_data_response)
    by (vm_compute; reflexivity).
  split; [exact H1 |]. split; [exact H2 |].
  split; [vm_compute; reflexivity |].
  intros [rejection [_ Halike]].
  assert (Ha : inr invalid_signature_response
               = (inr rejection : error + response)).
  { rewrite <- H1. apply Halike.
    intros [o [p [s [b [[Ho [Hp [Hsig _]]] [os [ps [So [Sp Hs]]]]]]]]].
    vm_compute in Ho, Hp, Hsig.
    injection Ho as <-. injection Hp as <-. injection Hsig as <-.
    vm_compute in So, Sp. injection So as <-. injection Sp as <-.
    vm_compute in Hs. discriminate Hs. }
  assert (Hb : inr missing_data_response
               = (inr rejection : error + response)).
  { rewrite <- H2. apply Halike.
    intros [o [p [s [b [[Ho [Hp [Hsig _]]] [os [ps [So [Sp Hs]]]]]]]]].
    vm_compute in Ho, Hp, Hsig.
    injection Ho as <-. injection Hp as <-. injection Hsig as <-.
    vm_compute in So, Sp. injection So as <-. injection Sp as <-.
    vm_compute in Hs. discriminate Hs. }
  rewrite <- Hb in Ha. discriminate Ha.
Qed.

Lemma verifyPayment_reads_nothing penv req :
  avoids (fun ev => reads_clock ev \/ touches_store ev)
         (paymentController.verifyPayment penv req).
Proof. unfold paymentController.verifyPayment. avoids_all. Qed.

(** C6 (as amended). Given truthy order and payment ids and, as
    signature, the hex HMAC-SHA256 under the key secret
    (RAZORPAY_KEY_SECRET, or YOUR_KEY_SECRET when it is not set) of the
    order id as the concatenation prints it, a vertical bar and the
    payment id, verifyPayment answers HTTP 200 with success=true and
    echoes bookingId and paymentId, in every environment, without a call
    and without a change to the world.  Being confirmed is not tied to a
    payment id: adminUpdateBooking confirms a booking that carries
    none. *)
Theorem verifyPayment_accepts_valid_signature
        (penv : process_env) (req : request)
        (order payment signature bookingId : jsval)
        (order_s payment_s : string) :
  presents req order payment signature bookingId ->
  JS.truthy order = true -> JS.truthy payment = true ->
  JS.toString order = inr order_s -> JS.toString payment = inr payment_s ->
  signature
  = JStr (hmac_sha256_hex
            (match RAZORPAY_KEY_SECRET penv with
             | Some secret => if String.eqb secret "" then "YOUR_KEY_SECRET"
                              else secret
             | None => "YOUR_KEY_SECRET"
             end)
            (order_s +++ "|" +++ payment_s)) ->
  (forall W (h : handler W) (w : W),
      run h (paymentController.verifyPayment penv req) w
      = Outcome
          (inr (Res 200 [("success", OVal (JBool true));
                         ("message",
                          OVal (JStr "Payment verified successfully"));
                         ("bookingId", OVal bookingId);
                         ("paymentId", OVal payment)]))
          w [])
  /\ (forall (e : Store.Env) (w : Store.World) (req' : request) (b : doc),
        find (Store.has_id (req_param req')) (Store.bookings w) = Some b ->
        JS.get (req_body req') "status" = inr (JStr "confirmed") ->
        field b "gatewayPaymentId" = JUndefined ->
        exists b',
          In b' (Store.bookings
                   (final (run (Store.mem e)
                               (bookingController.adminUpdateBooking req') w)))
          /\ field b' "status" = JStr "confirmed"
          /\ field b' "gatewayPaymentId" = JUndefined).
Proof.
  intros Hreq To Tp So Sp Hsig. split.
  - intros W h w.
    apply (verifyPayment_valid h w penv req order payment signature
             bookingId Hreq To Tp).
    exists order_s, payment_s.
    split; [exact So |]. split; [exact Sp | exact Hsig].
  - intros e w req' b Hfind Hstatus Hnone.
    exists (JS.set "status" (JStr "confirmed") b). split; [| split].
    + apply adminUpdateBooking_sets_status; try assumption.
      simpl. tauto.
    + apply field_set_same.
    + rewrite (field_set_other (k := "status") (k' := "gatewayPaymentId"))
        by reflexivity.
      exact Hnone.
Qed.

(** The order id is the number 1e21, which the concatenation prints as
    [1e+21]; the signature is the HMAC of [1e+21|pay_P1] under
    [YOUR_KEY_SECRET]. *)
Lemma verifyPayment_accepts_valid_signature_witness :
  presents Demo.verify_1e21 (JNum 1e21) (JStr "pay_P1")
    (JStr "a801e6a127e2fd5d019beddd5ad6b4c46c77d18e2abfa76e6e388c161aff188e")
    (JStr "B1")
  /\ JS.toString (JNum 1e21) = inr "1e+21"
  /\ run (Store.mem (Demo.env 0))
         (paymentController.verifyPayment Demo.penv Demo.verify_1e21)
         (Demo.world [] [] [Demo.pending_B1])
     = Outcome (inr (verified_response (JStr "B1") (JStr "pay_P1")))
               (Demo.world [] [] [Demo.pending_B1]) [].
Proof.
  assert (Hreq : presents Demo.verify_1e21 (JNum 1e21) (JStr "pay_P1")
                   (JStr "a801e6a127e2fd5d019beddd5ad6b4c46c77d18e2abfa76e6e388c161aff188e")
                   (JStr "B1"))
    by (repeat split).
  assert (Hs : JS.toString (JNum 1e21) = inr "1e+21")
    by (vm_compute; reflexivity).
  split; [exact Hreq |]. split; [exact Hs |].
  destruct (verifyPayment_accepts_valid_signature Demo.penv Demo.verify_1e21
              (JNum 1e21) (JStr "pay_P1") _ (JStr "B1") "1e+21" "pay_P1"
              Hreq eq_refl eq_refl Hs eq_refl) as [Hres _].
  - vm_compute. reflexivity.
  - apply Hres.
Defined.

(** C6, as worded, fails: after a verification that succeeds the pending
    booking is still pending and carries no payment id; and a booking an
    admin confirms is confirmed without one. *)
Lemma verifyPayment_confirms_nothing :
  let w := Demo.world [] [] [Demo.pending_B1] in
  let r := run (Store.mem (Demo.env 0))
               (paymentController.verifyPayment Demo.penv Demo.verify_B1) w in
  let r' := run (Store.mem (Demo.env 0))
                (bookingController.adminUpdateBooking Demo.confirm_B1) w in
  status_of (result r) = Some 200
  /\ Store.bookings (final r) = [Demo.pending_B1]
  /\ ~ Stated.verify_confirms Demo.penv (Demo.env 0) w Demo.verify_B1
  /\ ~ Stated.payment_id_iff_paid (Store.bookings (final r')).
Proof.
  split; [vm_compute; reflexivity |].
  split; [vm_compute; reflexivity |].
  split.
  - intros H.
    destruct (H (JStr "order_O1") (JStr "pay_P1")
                (JStr "4ef4dbe755775fa9bec6258c5c78c57af15a5174dff474de313d9138c839834d")
                (JStr "B1") Demo.pending_B1)
      as [b' [Hin [_ [Hst _]]]].
    + repeat split.
    + exists "order_O1", "pay_P1".
      split; [reflexivity |]. split; [reflexivity |].
      vm_compute. reflexivity.
    + now left.
    + reflexivity.
    + reflexivity.
    + reflexivity.
    + vm_compute in Hin. destruct Hin as [<- | []].
      vm_compute in Hst. discriminate Hst.
  - intros H.
    destruct (H (JS.set "status" (JStr "confirmed") Demo.pending_B1))
      as [_ Hpaid].
    + vm_compute. now left.
    + assert (Hno : field (JS.set "status" (JStr "confirmed") Demo.pending_B1)
                          "gatewayPaymentId" <> JUndefined)
        by (apply Hpaid; left; reflexivity).
      apply Hno. reflexivity.
Qed.

(** The answer of verifyPayment is decided by the request body and the
    key secret: neither the store, nor the clock, nor the rest of the
    request enters it. *)
Lemma verifyPayment_by_body (penv : process_env) (e e' : Store.Env)
      (w w' : Store.World) (req req' : request) :
  req_body req' = req_body req ->
  result (run (Store.mem e') (paymentController.verifyPayment penv req') w')
  = result (run (Store.mem e) (paymentController.verifyPayment penv req) w).
Proof.
  intros Hbody.
  unfold paymentController.verifyPayment. rewrite Hbody. cbn.
  destruct (JS.get (req_body req) "razorpay_order_id") as [err | order]; cbn;
    [reflexivity |].
  destruct (JS.get (req_body req) "razorpay_payment_id") as [err | payment];
    cbn; [reflexivity |].
  destruct (JS.get (req_body req) "razorpay_signature") as [err | signature];
    cbn; [reflexivity |].
  destruct (JS.get (req_body req) "bookingId") as [err | bookingId];
    cbn; [reflexivity |].
  destruct (negb (JS.truthy order) || negb (JS.truthy payment)
            || negb (JS.truthy signature)); cbn; [reflexivity |].
  destruct (JS.toString order) as [err | order_s]; cbn; [reflexivity |].
  destruct (JS.toString payment) as [err | payment_s]; cbn; [reflexivity |].
  destruct (JS.str_eq _ signature); reflexivity.
Qed.

(** C3 (as amended). verifyPayment evaluates no expiry guard: it never
    reads the clock or the store, its answer is decided by the request
    body and the key secret alone, and a valid signature (the HMAC of
    the presented ids) presented for a booking whose holdExpiresAt is
    past is accepted with HTTP 200, the world being left as it was (so
    the booking is not moved to confirmed either). *)
Theorem verifyPayment_ignores_hold_expiry
        (penv : process_env) (e : Store.Env) (w : Store.World)
        (req : request) (order payment signature bookingId : jsval)
        (order_s payment_s : string) (b : doc) (expiry : float) :
  presents req order payment signature bookingId ->
  JS.truthy order = true -> JS.truthy payment = true ->
  JS.toString order = inr order_s -> JS.toString payment = inr payment_s ->
  signature
  = JStr (hmac_sha256_hex
            (match RAZORPAY_KEY_SECRET penv with
             | Some secret => if String.eqb secret "" then "YOUR_KEY_SECRET"
                              else secret
             | None => "YOUR_KEY_SECRET"
             end)
            (order_s +++ "|" +++ payment_s)) ->
  In b (Store.bookings w) -> field b "_id" = bookingId ->
  field b "holdExpiresAt" = JNum expiry ->
  PrimFloat.ltb expiry (Double.of_Z (Store.clock e (Store.ticks w))) = true ->
  let r := run (Store.mem e) (paymentController.verifyPayment penv req) w in
  r = Outcome (inr (verified_response bookingId payment)) w []
  /\ In b (Store.bookings (final r))
  /\ avoids (fun ev => reads_clock ev \/ touches_store ev)
            (paymentController.verifyPayment penv req)
  /\ (forall (e' : Store.Env) (w' : Store.World) (req' : request),
        req_body req' = req_body req ->
        result (run (Store.mem e')
                    (paymentController.verifyPayment penv req') w')
        = result r).
Proof.
  intros Hreq To Tp So Sp Hsig Hin _ _ _ r.
  assert (Hr : r = Outcome (inr (verified_response bookingId payment)) w []).
  { subst r.
    apply (verifyPayment_valid (Store.mem e) w penv req order payment
             signature bookingId Hreq To Tp).
    exists order_s, payment_s.
    split; [exact So |]. split; [exact Sp | exact Hsig]. }
  split; [exact Hr |]. split; [now rewrite Hr |].
  split; [apply verifyPayment_reads_nothing |].
  intros e' w' req' Hbody. subst r. now apply verifyPayment_by_body.
Qed.

Lemma verifyPayment_ignores_hold_expiry_witness :
  let w := Demo.world [] [] [Demo.pending_B1] in
  let r := run (Store.mem (Demo.env 2000))
               (paymentController.verifyPayment Demo.penv Demo.verify_B1) w in
  field Demo.pending_B1 "holdExpiresAt" = JNum 1000
  /\ PrimFloat.ltb 1000 (Double.of_Z (Store.clock (Demo.env 2000)
                                                  (Store.ticks w))) = true
  /\ r = Outcome (inr (verified_response (JStr "B1") (JStr "pay_P1"))) w [].
Proof.
  cbv zeta.
  split; [reflexivity |]. split; [vm_compute; reflexivity |].
  destruct (verifyPayment_ignores_hold_expiry Demo.penv (Demo.env 2000)
              (Demo.world [] [] [Demo.pending_B1])
              Demo.verify_B1 (JStr "order_O1") (JStr "pay_P1")
              (JStr "4ef4dbe755775fa9bec6258c5c78c57af15a5174dff474de313d9138c839834d")
              (JStr "B1") "order_O1" "pay_P1" Demo.pending_B1 1000%float
              (conj eq_refl (conj eq_refl (conj eq_refl eq_refl)))
              eq_refl eq_refl eq_refl eq_refl) as [Hr _].
  - vm_compute. reflexivity.
  - now left.
  - reflexivity.
  - reflexivity.
  - vm_compute. reflexivity.
  - exact Hr.
Defined.

(** C3, as worded, fails: the hold expired at 1000, the clock reads
    2000, and the verification is answered 200. *)
Lemma verifyPayment_accepts_after_expiry :
  let w := Demo.world [] [] [Demo.pending_B1] in
  let r := run (Store.mem (Demo.env 2000))
               (paymentController.verifyPayment Demo.penv Demo.verify_B1) w in
  status_of (result r) = Some 200
  /\ ~ Stated.expired_hold_rejected Demo.penv (Demo.env 2000) w
                                    Demo.verify_B1.
Proof.
  split; [vm_compute; reflexivity |].
  intros H.
  destruct (H (JStr "order_O1") (JStr "pay_P1")
              (JStr "4ef4dbe755775fa9bec6258c5c78c57af15a5174dff474de313d9138c839834d")
              (JStr "B1") Demo.pending_B1 1000) as [Hrej _].
  - repeat split.
  - exists "order_O1", "pay_P1".
    split; [reflexivity |]. split; [reflexivity |].
    vm_compute. reflexivity.
  - now left.
  - reflexivity.
  - vm_compute. reflexivity.
  - reflexivity.
  - discriminate.
  - vm_compute in Hrej. discriminate Hrej.
Qed.

(* ===================================================================== *)
(** ** createOrder *)
(* ===================================================================== *)

Lemma createOrder_touches_no_store req :
  avoids touches_store (paymentController.createOrder req).
Proof. unfold paymentController.createOrder. avoids_all. Qed.

(** One call of [createOrder]: either it is not answered 200 and the
    gateway's ledger is as before, or it is and the ledger has one more
    order; the booking id answered comes from the second clock reading
    and the draw of that call. *)
Lemma createOrder_effect (e : Store.Env) (w : Store.World) (req : request) :
  let r := run (Store.mem e) (paymentController.createOrder req) w in
  (ok (result r) 200 = false /\ Store.orders (final r) = Store.orders w)
  \/ (exists opts order res,
        result r = inr res
        /\ status res = 200
        /\ Store.orders (final r) = Store.orders w ++ [(opts, order)]
        /\ JS.own "bookingId" (body res)
           = Some (OVal (JStr (fabricated_bookingId
                                 (Store.clock e (S (Store.ticks w)))
                                 (Store.rng e (Store.draws w)))))).
Proof.
  unfold paymentController.createOrder. cbn.
  destruct (JS.get (req_body req) "eventId") as [err | eventId]; cbn;
    [left; now split |].
  destruct (JS.get (req_body req) "ticketCount") as [err | ticketCount]; cbn;
    [left; now split |].
  destruct (JS.get (req_body req) "amount") as [err | amount]; cbn;
    [left; now split |].
  destruct (JS.get (req_body req) "currency") as [err | currency]; cbn;
    [left; now split |].
  destruct (negb (JS.truthy eventId) || negb (JS.truthy ticketCount)
            || negb (JS.truthy amount)); cbn; [left; now split |].
  destruct (JS.times amount 100) as [err | paise]; cbn; [left; now split |].
  destruct (JS.toString eventId) as [err | eventId_s]; cbn;
    [left; now split |].
  destruct (method_toString eventId) as [err | notes_eventId]; cbn;
    [left; now split |].
  destruct (method_toString ticketCount) as [err | notes_ticketCount]; cbn;
    [left; now split |].
  destruct (Store.gateway_order e (Store.orders w) _) as [err | order]; cbn;
    [left; now split |].
  right. eexists. eexists. eexists. repeat split.
Qed.

Lemma serve_cons {W} (h : handler W) p ps w :
  serve h (p :: ps) w
  = (result (run h p w) :: fst (serve h ps (final (run h p w))),
     snd (serve h ps (final (run h p w)))).
Proof. simpl. now destruct (serve h ps (final (run h p w))). Qed.

(** Over any sequence of calls the ledger grows by the number of calls
    answered 200. *)
Lemma createOrder_ledger (e : Store.Env) (reqs : list request) :
  forall w,
    let served := serve (Store.mem e)
                        (map paymentController.createOrder reqs) w in
    length (Store.orders (snd served))
    = (length (Store.orders w)
       + length (filter (fun r => ok r 200) (fst served)))%nat.
Proof.
  induction reqs as [| req rest IH]; intros w served; subst served.
  - simpl. lia.
  - cbn [map]. rewrite serve_cons. cbn [fst snd filter].
    specialize (IH (final (run (Store.mem e)
                               (paymentController.createOrder req) w))).
    cbv zeta in IH. rewrite IH.
    destruct (createOrder_effect e w req)
      as [[Hno Hsame] | [opts [order [res [Hres [Hst [Hmore _]]]]]]].
    + rewrite Hno, Hsame. lia.
    + rewrite Hmore, Hres. unfold ok. rewrite Hst. simpl.
      rewrite length_app. simpl. lia.
Qed.

(** C1 (as amended). createOrder takes no idempotency key and is not
    idempotent: over any sequence of calls the gateway's ledger gains
    one order for every call answered HTTP 200, a repeated call
    included; no call consults the store; and the bookingId of each
    answer is fabricated from that call's clock reading and random
    draw. *)
Theorem createOrder_one_order_per_accepted_call (e : Store.Env) :
  (forall (reqs : list request) (w : Store.World),
      let served := serve (Store.mem e)
                          (map paymentController.createOrder reqs) w in
      length (Store.orders (snd served))
      = (length (Store.orders w)
         + length (filter (fun r => ok r 200) (fst served)))%nat)
  /\ (forall req, avoids touches_store (paymentController.createOrder req))
  /\ (forall (req : request) (w : Store.World) (res : response),
        result (run (Store.mem e) (paymentController.createOrder req) w)
        = inr res ->
        status res = 200 ->
        JS.own "bookingId" (body res)
        = Some (OVal (JStr (fabricated_bookingId
                              (Store.clock e (S (Store.ticks w)))
                              (Store.rng e (Store.draws w)))))).
Proof.
  split; [exact (createOrder_ledger e) |].
  split; [exact createOrder_touches_no_store |].
  intros req w res Hres Hst.
  destruct (createOrder_effect e w req)
    as [[Hno _] | [opts [order [res' [Hres' [_ [_ Hid]]]]]]].
  - rewrite Hres in Hno. unfold ok in Hno. rewrite Hst in Hno. discriminate.
  - rewrite Hres in Hres'. inversion Hres'; subst res'. exact Hid.
Qed.

Lemma createOrder_one_order_per_accepted_call_witness :
  let w := Demo.world [] [] [] in
  let r := run (Store.mem (Demo.env 1700000000000))
               (paymentController.createOrder Demo.hold_K1) w in
  status_of (result r) = Some 200
  /\ match result r with
     | inr res =>
         JS.own "bookingId" (body res)
         = Some (OVal (JStr "booking_1700000000001_4fzyo82mv"))
     | inl _ => False
     end.
Proof.
  intros w r.
  destruct (createOrder_one_order_per_accepted_call (Demo.env 1700000000000))
    as [_ [_ Hid]].
  destruct (result r) as [err | res] eqn:Hres.
  - vm_compute in Hres. discriminate Hres.
  - assert (Hst : status res = 200)
      by (vm_compute in Hres; inversion Hres; reflexivity).
    split; [simpl; now rewrite Hst |].
    rewrite (Hid Demo.hold_K1 w res Hres Hst). reflexivity.
Defined.

(** C1, as worded, fails: the duplicate call under key K1 creates a
    second gateway order, answers another bookingId, and no booking is
    stored at all. *)
Lemma createOrder_duplicate_call_creates_second_order :
  let e := Demo.env 1700000000000 in
  let served := deliver (Store.mem e) 2
                        (paymentController.createOrder Demo.hold_K1)
                        (Demo.world [] [] []) in
  map status_of (fst served) = [Some 200; Some 200]
  /\ map (fun r => match r with
                   | inr res => JS.own "bookingId" (body res)
                   | inl _ => None
                   end) (fst served)
     = [Some (OVal (JStr "booking_1700000000001_4fzyo82mv"));
        Some (OVal (JStr "booking_1700000000003_4fzyo82mv"))]
  /\ length (Store.orders (snd served)) = 2%nat
  /\ Store.bookings (snd served) = []
  /\ ~ Stated.idempotent_hold e (Demo.world [] [] []) Demo.hold_K1.
Proof.
  split; [vm_compute; reflexivity |].
  split; [vm_compute; reflexivity |].
  split; [vm_compute; reflexivity |].
  split; [vm_compute; reflexivity |].
  intros H. vm_compute in H. destruct H as [H _]. discriminate H.
Qed.

Lemma method_toString_truthy v :
  JS.truthy v = true -> method_toString v = JS.toString v.
Proof. destruct v; unfold JS.truthy; try discriminate; reflexivity. Qed.

(** C7 (as amended). createOrder checks presence only.  It answers
    HTTP 400 (missing required fields), without making any call, exactly
    when eventId, ticketCount or amount is falsy; it never consults the
    Event or User collection, so an unknown event is not reported.  With
    the three present, whatever their sign: when the amount converts to
    a number and the two ids to strings, it asks the gateway for an
    order of Math.round(amount * 100), the product and the rounding
    being those of doubles, and answers 200 with the order added to the
    gateway's ledger when the gateway accepts, 500 when the gateway
    throws; when a conversion throws, it answers 500 and the gateway is
    not called. *)
Theorem createOrder_checks_presence_only
        (e : Store.Env) (w : Store.World) (req : request)
        (eventId ticketCount amount currency : jsval) :
  JS.get (req_body req) "eventId" = inr eventId ->
  JS.get (req_body req) "ticketCount" = inr ticketCount ->
  JS.get (req_body req) "amount" = inr amount ->
  JS.get (req_body req) "currency" = inr currency ->
  let r := run (Store.mem e) (paymentController.createOrder req) w in
  let present :=
    JS.truthy eventId && JS.truthy ticketCount && JS.truthy amount in
  avoids touches_store (paymentController.createOrder req)
  /\ (present = false ->
      r = Outcome
            (inr (Res 400
                    [("success", OVal (JBool false));
                     ("message",
                      OVal (JStr
                        "Missing required fields: eventId, ticketCount, amount"))]))
            w [])
  /\ (present = true ->
      match JS.ToNumber amount, JS.toString eventId, JS.toString ticketCount
      with
      | Some x, inr eventId_s, inr ticketCount_s =>
          let options :=
            {| opt_amount := Double.round (PrimFloat.mul x 100);
               opt_currency :=
                 match currency with
                 | JUndefined => JStr "INR"
                 | _ => currency
                 end;
               opt_receipt :=
                 "booking_" +++ eventId_s +++ "_"
                 +++ JS.Number_toString (Store.clock e (Store.ticks w));
               opt_notes := [("eventId", eventId_s);
                             ("ticketCount", ticketCount_s)] |} in
          match Store.gateway_order e (Store.orders w) options with
          | inr order =>
              ok (result r) 200 = true
              /\ Store.orders (final r) = Store.orders w ++ [(options, order)]
          | inl _ =>
              ok (result r) 500 = true
              /\ Store.orders (final r) = Store.orders w
          end
      | _, _, _ =>
          ok (result r) 500 = true
          /\ Store.orders (final r) = Store.orders w
          /\ Forall (fun ev => match ev with
                               | Call (Orders_create _) => False
                               | _ => True
                               end) (calls r)
      end).
Proof.
  intros He Ht Ha Hc r present.
  split; [apply createOrder_touches_no_store |].
  subst r present. unfold paymentController.createOrder. cbn.
  rewrite He. cbn. rewrite Ht. cbn. rewrite Ha. cbn. rewrite Hc. cbn.
  split.
  - intros Hmissing.
    destruct (JS.truthy eventId), (JS.truthy ticketCount),
      (JS.truthy amount); try discriminate Hmissing; reflexivity.
  - intros Hpresent.
    apply andb_true_iff in Hpresent. destruct Hpresent as [Hpresent Tamount].
    apply andb_true_iff in Hpresent. destruct Hpresent as [Tevent Ttickets].
    rewrite (method_toString_truthy _ Tevent),
      (method_toString_truthy _ Ttickets).
    rewrite Tevent, Ttickets, Tamount. cbn.
    unfold JS.times.
    destruct (JS.ToNumber amount) as [x |]; cbn.
    2: { repeat split. repeat constructor. }
    destruct (JS.toString eventId) as [err | eventId_s]; cbn.
    { repeat split. repeat constructor. }
    destruct (JS.toString ticketCount) as [err | ticketCount_s]; cbn.
    { repeat split. repeat constructor. }
    destruct (Store.gateway_order e (Store.orders w) _); cbn;
      split; reflexivity.
Qed.

(** A hold for two tickets at 19.99: the product 19.99 * 100 is the
    double 1998.9999999999998, and the gateway is asked for 1999. *)
Lemma createOrder_checks_presence_only_witness :
  let w := Demo.world [] [] [] in
  let r := run (Store.mem (Demo.env 0))
               (paymentController.createOrder Demo.hold_1999) w in
  JS.get (req_body Demo.hold_1999) "amount" = inr (JNum 19.99)
  /\ PrimFloat.mul 19.99 100 = 1998.9999999999998%float
  /\ ok (result r) 200 = true
  /\ map (fun entry => opt_amount (fst entry)) (Store.orders (final r))
     = [1999%float].
Proof.
  cbv zeta.
  split; [reflexivity |]. split; [reflexivity |].
  destruct (createOrder_checks_presence_only (Demo.env 0)
              (Demo.world [] [] [])
              Demo.hold_1999 (JStr "E1") (JNum 2) (JNum 19.99)
              JUndefined eq_refl eq_refl eq_refl eq_refl) as [_ [_ Hasks]].
  specialize (Hasks eq_refl).
  destruct Hasks as [Hok Hledger].
  split; [exact Hok |]. rewrite Hledger. vm_compute. reflexivity.
Defined.

(** C7, as worded, fails: event E404 is not stored and the ticket count
    is -1, yet the call is answered 200 and a gateway order is created. *)
Lemma createOrder_accepts_unknown_event_and_negative_count :
  let w := Demo.world [] [] [] in
  let r := run (Store.mem (Demo.env 0))
               (paymentController.createOrder Demo.hold_minus_one) w in
  status_of (result r) = Some 200
  /\ length (Store.orders (final r)) = 1%nat
  /\ ~ Stated.hold_guards (Demo.env 0) w Demo.hold_minus_one.
Proof.
  split; [vm_compute; reflexivity |].
  split; [vm_compute; reflexivity |].
  intros H.
  destruct (H (JStr "E404") (JNum (-1)) (JNum 200) eq_refl eq_refl eq_refl)
    as [Hnotfound _].
  specialize (Hnotfound eq_refl). vm_compute in Hnotfound.
  discriminate Hnotfound.
Qed.

(* ===================================================================== *)
(** ** handleWebhook *)
(* ===================================================================== *)

Lemma printed_nil w : Store.printed [] w = w.
Proof. destruct w. unfold Store.printed. simpl. now rewrite app_nil_r. Qed.

Lemma printed_printed ls ls' w :
  Store.printed ls' (Store.printed ls w) = Store.printed (ls ++ ls') w.
Proof. unfold Store.printed. simpl. now rewrite app_assoc. Qed.

(** One delivery whose signature header is the HMAC of the re-serialised
    body and whose payload can be read: acknowledged, one line printed. *)
Lemma handleWebhook_ack (penv : process_env) (e : Store.Env)
      (w : Store.World) (req : request) body_s event payload label v :
  JS.stringify (req_body req) = Some body_s ->
  field (req_headers req) "x-razorpay-signature"
  = JStr (hmac_sha256_hex
            (env_or (RAZORPAY_WEBHOOK_SECRET penv) "webhook_secret") body_s) ->
  JS.get (req_body req) "event" = inr event ->
  JS.get (req_body req) "payload" = inr payload ->
  webhook_line event payload = inr (label, v) ->
  run (Store.mem e) (paymentController.handleWebhook penv req) w
  = Outcome (inr acknowledgement) (Store.printed [Store.Log label v] w)
            [Call (Console_log label v)].
Proof.
  intros Hbody Hsig Hevent Hpayload Hline.
  unfold paymentController.handleWebhook. cbn.
  rewrite Hbody, Hsig. cbn. rewrite str_eq_refl. cbn.
  rewrite Hevent. cbn. rewrite Hpayload. cbn.
  unfold webhook_line in Hline.
  destruct (JS.str_eq "payment.captured" event);
    [| destruct (JS.str_eq "payment.failed" event);
       [| destruct (JS.str_eq "refund.created" event)]].
  4: { inversion Hline; subst. reflexivity. }
  all: match type of Hline with
       | context [JS.get ?p ?k] =>
           destruct (JS.get p k) as [err | x]; [discriminate Hline |];
           cbn;
           destruct (JS.get x "entity") as [err | ent];
             [discriminate Hline |];
           cbn;
           destruct (JS.get ent "id") as [err | id]; [discriminate Hline |];
           cbn; inversion Hline; subst; reflexivity
       end.
Qed.

(** C4 (as amended). Every delivery whose signature is valid and whose
    payload can be read is acknowledged with HTTP 200 and handled anew:
    the same event delivered N times gives N acknowledgements and N
    printed lines.  Deliveries are not deduplicated and no record of a
    delivered event is kept: the store is the same but for the console. *)
Theorem handleWebhook_acknowledges_every_delivery
        (penv : process_env) (e : Store.Env) (req : request)
        (body_s : string) (event payload : jsval)
        (label : string) (v : jsval) :
  JS.stringify (req_body req) = Some body_s ->
  field (req_headers req) "x-razorpay-signature"
  = JStr (hmac_sha256_hex
            (env_or (RAZORPAY_WEBHOOK_SECRET penv) "webhook_secret") body_s) ->
  JS.get (req_body req) "event" = inr event ->
  JS.get (req_body req) "payload" = inr payload ->
  webhook_line event payload = inr (label, v) ->
  forall (n : nat) (w : Store.World),
    deliver (Store.mem e) n (paymentController.handleWebhook penv req) w
    = (repeat (inr acknowledgement) n,
       Store.printed (repeat (Store.Log label v) n) w).
Proof.
  intros Hbody Hsig Hevent Hpayload Hline.
  induction n as [| n IH]; intros w; unfold deliver in *.
  - simpl. now rewrite printed_nil.
  - cbn [repeat]. rewrite serve_cons.
    rewrite (handleWebhook_ack penv e w req body_s event payload label v
               Hbody Hsig Hevent Hpayload Hline).
    cbn [result final]. rewrite IH. cbn [fst snd].
    rewrite printed_printed. reflexivity.
Qed.

Lemma handleWebhook_acknowledges_every_delivery_witness :
  let w := Demo.world [] [] [Demo.pending_B1] in
  let served := deliver (Store.mem (Demo.env 0)) 3
                        (paymentController.handleWebhook Demo.penv
                                                         Demo.captured_P1)
                        w in
  webhook_line (JStr "payment.captured") Demo.payload_P1
  = inr ("Payment captured:", JStr "pay_P1")
  /\ fst served = repeat (inr acknowledgement) 3
  /\ Store.console (snd served)
     = repeat (Store.Log "Payment captured:" (JStr "pay_P1")) 3
  /\ Store.bookings (snd served) = [Demo.pending_B1].
Proof.
  intros w served.
  split; [reflexivity |].
  let s := eval vm_compute in (JS.stringify (req_body Demo.captured_P1)) in
  match s with
  | Some ?body_s =>
      assert (H := handleWebhook_acknowledges_every_delivery
                     Demo.penv (Demo.env 0) Demo.captured_P1 body_s
                     (JStr "payment.captured") Demo.payload_P1
                     "Payment captured:" (JStr "pay_P1"))
  end.
  specialize (H ltac:(vm_compute; reflexivity) ltac:(vm_compute; reflexivity)
                eq_refl eq_refl eq_refl 3%nat w).
  fold served in H. rewrite H. repeat split.
Defined.

(** C4, as worded, fails: one delivery of the captured payment is
    acknowledged and the pending booking has not changed state. *)
Lemma handleWebhook_makes_no_transition :
  let w := Demo.world [] [] [Demo.pending_B1] in
  let served := deliver (Store.mem (Demo.env 0)) 1
                        (paymentController.handleWebhook Demo.penv
                                                         Demo.captured_P1)
                        w in
  map status_of (fst served) = [Some 200]
  /\ Store.bookings (snd served) = [Demo.pending_B1]
  /\ ~ Stated.delivered_once Demo.penv (Demo.env 0) w 1 Demo.captured_P1.
Proof.
  split; [vm_compute; reflexivity |].
  split; [vm_compute; reflexivity |].
  intros [_ [_ [b [b' [Hb [Hb' [_ Hdiff]]]]]]].
  vm_compute in Hb'. destruct Hb as [<- | []]. destruct Hb' as [<- | []].
  now apply Hdiff.
Qed.

(* ===================================================================== *)
(** ** Every handler answers *)
(* ===================================================================== *)

Lemma run_bind_result {W A B} (h : handler W) (p : prog A) (f : A -> prog B) :
  forall w,
    result (run h (bind p f) w)
    = match result (run h p w) with
      | inl err => inl err
      | inr a => result (run h (f a) (final (run h p w)))
      end.
Proof.
  induction p as [a | err | X o k IH]; intros w; simpl; try reflexivity.
  destruct (h X o w) as [x w']. simpl. apply IH.
Qed.

Lemma run_try_catch_result {W A} (h : handler W) (p : prog A)
      (hd : error -> prog A) :
  forall w,
    result (run h (try_catch p hd) w)
    = match result (run h p w) with
      | inl err => result (run h (hd err) (final (run h p w)))
      | inr a => inr a
      end.
Proof.
  induction p as [a | err | X o k IH]; intros w; simpl; try reflexivity.
  destruct (h X o w) as [x w']. simpl. apply IH.
Qed.

Section Answers.

Variable e : Store.Env.
Variable P : response -> Prop.

Lemma may_bind {A B} (Q : B -> Prop) (p : prog A) (f : A -> prog B) :
  (forall a, may_answer e Q (f a)) -> may_answer e Q (bind p f).
Proof.
  intros Hf w. rewrite run_bind_result.
  destruct (result (run (Store.mem e) p w)); [exact I | apply Hf].
Qed.

Lemma may_json code fields :
  P (Res code fields) -> may_answer e P (json code fields).
Proof. intros H w. exact H. Qed.

Lemma answers_json code fields :
  P (Res code fields) -> answers e P (json code fields).
Proof. intros H w. eexists. split; [reflexivity | exact H]. Qed.

Lemma answers_logged label err q :
  answers e P q ->
  answers e P (bind (call (Console_error label err)) (fun _ => q)).
Proof. intros H w. cbn. apply H. Qed.

Lemma answers_try_catch p hd :
  may_answer e P p -> (forall err, answers e P (hd err)) ->
  answers e P (try_catch p hd).
Proof.
  intros Hp Hh w. rewrite run_try_catch_result. specialize (Hp w).
  destruct (result (run (Store.mem e) p w)) as [err | res].
  - apply Hh.
  - eexists. split; [reflexivity | exact Hp].
Qed.

End Answers.

Ltac may_step :=
  match goal with
  | |- may_answer _ _ (bind _ _) => apply may_bind; intros ?
  | |- may_answer _ _ (json _ _) => apply may_json; reflexivity
  | |- may_answer _ _ (let _ := _ in _) => cbv zeta
  | |- may_answer _ _ (match ?x with _ => _ end) => destruct x
  | |- may_answer _ _ (if ?b then _ else _) => destruct b
  end.

Ltac answers_handler :=
  apply answers_try_catch;
  [ repeat may_step
  | intros ?;
    first [ apply answers_json; reflexivity
          | apply answers_logged, answers_json; reflexivity ] ].

(** X1. Whatever the request, the store, the schemas and the gateway do,
    every handler answers: nothing thrown escapes it, the status is one
    of 200, 201, 400, 404, 500, and the success flag of the body is true
    exactly when the status is below 400. *)
Theorem every_handler_answers
        (penv : process_env) (e : Store.Env)
        (h : request -> prog response) (req : request) (w : Store.World) :
  In h (handlers penv) ->
  exists res,
    result (run (Store.mem e) (h req) w) = inr res
    /\ well_formed res = true.
Proof.
  intros Hin. revert w.
  change (answers e (fun res => well_formed res = true) (h req)).
  unfold handlers in Hin. cbn [map app In] in Hin.
  repeat (destruct Hin as [<- | Hin]; [unfold_route; unfold
    eventListings.getEvents, eventListings.getMyEvents; answers_handler |]);
  destruct Hin.
Qed.

Lemma every_handler_answers_witness :
  exists res,
    result (run (Store.mem (Demo.env 0))
                (bookingController.bookEvent Demo.book_b0)
                (Demo.world [] [] []))
    = inr res
    /\ well_formed res = true.
Proof.
  apply (every_handler_answers Demo.penv (Demo.env 0)
           bookingController.bookEvent Demo.book_b0 (Demo.world [] [] [])).
  simpl. tauto.
Defined.

(* ===================================================================== *)
(** ** Replacing and removing the document found *)
(* ===================================================================== *)

Lemma find_split {A} (f : A -> bool) (l : list A) (b : A) :
  find f l = Some b ->
  exists pre post,
    l = pre ++ b :: post /\ forallb (fun x => negb (f x)) pre = true
    /\ f b = true.
Proof.
  induction l as [| x rest IH]; simpl; [discriminate |].
  destruct (f x) eqn:Hx.
  - intros H. inversion H; subst. exists [], rest. now repeat split.
  - intros H. destruct (IH H) as [pre [post [-> [Hpre Hb]]]].
    exists (x :: pre), post. simpl. rewrite Hx. now repeat split.
Qed.

Lemma replace_first_split id d pre b post :
  forallb (fun x => negb (Store.has_id id x)) pre = true ->
  Store.has_id id b = true ->
  Store.replace_first id d (pre ++ b :: post) = Some (pre ++ d :: post).
Proof.
  intros Hpre Hb. induction pre as [| x pre IH]; simpl.
  - now rewrite Hb.
  - simpl in Hpre. apply andb_true_iff in Hpre. destruct Hpre as [Hx Hpre].
    apply negb_true_iff in Hx. rewrite Hx, (IH Hpre). reflexivity.
Qed.

Lemma remove_first_split id pre b post :
  forallb (fun x => negb (Store.has_id id x)) pre = true ->
  Store.has_id id b = true ->
  Store.remove_first id (pre ++ b :: post) = pre ++ post.
Proof.
  intros Hpre Hb. induction pre as [| x pre IH]; simpl.
  - now rewrite Hb.
  - simpl in Hpre. apply andb_true_iff in Hpre. destruct Hpre as [Hx Hpre].
    apply negb_true_iff in Hx. rewrite Hx, (IH Hpre). reflexivity.
Qed.

Lemma remove_first_keeps id (d : doc) l :
  Store.has_id id d = false -> In d l -> In d (Store.remove_first id l).
Proof.
  intros Hd. induction l as [| x rest IH]; simpl; [tauto |].
  intros [-> | Hin].
  - rewrite Hd. now left.
  - destruct (Store.has_id id x); [assumption | right; now apply IH].
Qed.

Lemma set_coll_same m w : Store.set_coll m (Store.coll m w) w = w.
Proof. destruct w, m; reflexivity. Qed.

Lemma populate1_other w d p k :
  String.eqb k (path p) = false ->
  field (Store.populate1 w d p) k = field d k.
Proof.
  intros Hk. unfold Store.populate1.
  destruct (field d (path p)); try reflexivity;
    destruct (find _ _); now apply field_set_other.
Qed.

(* ===================================================================== *)
(** ** adminUpdateBooking, further *)
(* ===================================================================== *)

(** X2. adminUpdateBooking validates before it looks anything up: a
    truthy status outside booked, cancelled, confirmed, attended is
    answered HTTP 400 with the list of valid statuses, in every
    environment and without a single call, whether or not the booking
    exists. *)
Theorem adminUpdateBooking_rejects_invalid_status
        (req : request) (status : jsval) :
  JS.get (req_body req) "status" = inr status ->
  JS.truthy status = true ->
  JS.includes bookingController.validStatuses status = false ->
  forall (W : Type) (h : handler W) (w : W),
    run h (bookingController.adminUpdateBooking req) w
    = Outcome
        (inr (Res 400
                [("success", OVal (JBool false));
                 ("message",
                  OVal (JStr "Invalid status. Valid statuses are: booked, cancelled, confirmed, attended"))]))
        w [].
Proof.
  intros Hs Ht Hi W h w. unfold bookingController.adminUpdateBooking. cbn.
  rewrite Hs. cbn. rewrite Ht, Hi. reflexivity.
Qed.

Lemma adminUpdateBooking_rejects_invalid_status_witness :
  result (run (Store.mem (Demo.env 0))
              (bookingController.adminUpdateBooking
                 (Req (JObj [("status", JStr "pending")]) (JStr "b1")
                      Demo.admin []))
              (Demo.world [] [] [Demo.cancelled_b1]))
  = inr (Res 400
           [("success", OVal (JBool false));
            ("message",
             OVal (JStr "Invalid status. Valid statuses are: booked, cancelled, confirmed, attended"))]).
Proof.
  now rewrite (adminUpdateBooking_rejects_invalid_status
                 (Req (JObj [("status", JStr "pending")]) (JStr "b1")
                      Demo.admin [])
                 (JStr "pending") eq_refl eq_refl eq_refl).
Defined.

(** What the handler does once the status passes and the booking is
    found. *)
Lemma adminUpdateBooking_found (e : Store.Env) (w : Store.World)
      (req : request) (status : jsval) (b : doc) :
  JS.get (req_body req) "status" = inr status ->
  JS.truthy status && negb (JS.includes bookingController.validStatuses status)
  = false ->
  find (Store.has_id (req_param req)) (Store.bookings w) = Some b ->
  let b' := if JS.truthy status then JS.set "status" status b else b in
  exists pre post,
    Store.bookings w = pre ++ b :: post
    /\ final (run (Store.mem e) (bookingController.adminUpdateBooking req) w)
       = Store.set_coll Booking (pre ++ b' :: post) w
    /\ result (run (Store.mem e) (bookingController.adminUpdateBooking req) w)
       = inr (Res 200
                [("success", OVal (JBool true));
                 ("message", OVal (JStr "Booking updated successfully"));
                 ("data",
                  OVal (JObj (Store.populated
                                (Store.set_coll Booking (pre ++ b' :: post) w)
                                [Populate "user" User (Some ["name"; "email"]);
                                 Populate "event" Event
                                   (Some ["title"; "date"; "location"])]
                                b')))]).
Proof.
  intros Hs Hvalid Hfind b'.
  destruct (find_split _ _ _ Hfind) as [pre [post [Hl [Hpre Hb]]]].
  exists pre, post. split; [exact Hl |].
  assert (Hid : field b' "_id" = req_param req).
  { subst b'. destruct (JS.truthy status).
    - rewrite (field_set_other (k := "status") (k' := "_id")) by reflexivity.
      now apply id_eqb_eq.
    - now apply id_eqb_eq. }
  assert (Hb' : Store.has_id (req_param req) b' = true).
  { unfold Store.has_id. rewrite Hid.
    destruct (id_eqb_str _ _ Hb) as [s ->]. simpl. apply String.eqb_refl. }
  assert (Hfind' : find (Store.has_id (req_param req)) (pre ++ b' :: post)
                   = Some b').
  { clear - Hpre Hb'. induction pre as [| x pre IH]; simpl.
    - now rewrite Hb'.
    - simpl in Hpre. apply andb_true_iff in Hpre. destruct Hpre as [Hx Hpre].
      apply negb_true_iff in Hx. rewrite Hx. now apply IH. }
  unfold bookingController.adminUpdateBooking. cbn.
  rewrite Hs. cbn. rewrite Hvalid. cbn. rewrite Hfind. cbn.
  fold b'. clearbody b'. rewrite Hid, Hl.
  rewrite (replace_first_split _ b' pre b post Hpre Hb). cbn.
  split; [reflexivity |].
  match goal with
  | |- context [option_map ?f ?q] =>
      change q with (find (Store.has_id (req_param req)) (pre ++ b' :: post))
  end.
  rewrite Hfind'. reflexivity.
Qed.

(** X3. adminUpdateBooking with a valid status changes the status field
    of the booking found, in place, and nothing else: the other
    bookings keep their content and position, the booking keeps its
    other fields, events and users are untouched, and the answer is
    HTTP 200 carrying the booking with its new status. *)
Theorem adminUpdateBooking_changes_only_the_status
        (e : Store.Env) (w : Store.World) (req : request)
        (s : string) (b : doc) :
  JS.get (req_body req) "status" = inr (JStr s) ->
  In s bookingController.validStatuses ->
  find (Store.has_id (req_param req)) (Store.bookings w) = Some b ->
  let r := run (Store.mem e) (bookingController.adminUpdateBooking req) w in
  let b' := JS.set "status" (JStr s) b in
  exists pre post data,
    Store.bookings w = pre ++ b :: post
    /\ Store.bookings (final r) = pre ++ b' :: post
    /\ Store.events (final r) = Store.events w
    /\ Store.users (final r) = Store.users w
    /\ (forall k, k <> "status" -> field b' k = field b k)
    /\ result r
       = inr (Res 200
                [("success", OVal (JBool true));
                 ("message", OVal (JStr "Booking updated successfully"));
                 ("data", OVal (JObj data))])
    /\ field data "status" = JStr s.
Proof.
  intros Hs Hin Hfind r b'.
  destruct (adminUpdateBooking_found e w req (JStr s) b Hs) as
    [pre [post [Hl [Hfin Hres]]]]; [| exact Hfind |].
  { now rewrite (includes_in _ s Hin), andb_false_r. }
  rewrite (valid_status_truthy s Hin) in Hfin, Hres. fold b' in Hfin, Hres.
  exists pre, post. eexists. subst r. rewrite Hfin, Hres.
  repeat split; try assumption.
  - intros k Hk. apply field_set_other. now apply String.eqb_neq.
  - unfold Store.populated. simpl.
    rewrite !populate1_other by reflexivity. apply field_set_same.
Qed.

Lemma adminUpdateBooking_changes_only_the_status_witness :
  let w := Demo.world [] [] [Demo.cancelled_b1] in
  let r := run (Store.mem (Demo.env 0))
               (bookingController.adminUpdateBooking Demo.confirm_b1) w in
  exists pre post data,
    Store.bookings w = pre ++ Demo.cancelled_b1 :: post
    /\ Store.bookings (final r)
       = pre ++ JS.set "status" (JStr "confirmed") Demo.cancelled_b1 :: post
    /\ field data "status" = JStr "confirmed".
Proof.
  intros w r.
  destruct (adminUpdateBooking_changes_only_the_status (Demo.env 0) w
              Demo.confirm_b1 "confirmed" Demo.cancelled_b1 eq_refl
              (or_intror (or_intror (or_introl eq_refl))) eq_refl)
    as [pre [post [data [H1 [H2 [_ [_ [_ [_ H3]]]]]]]]].
  exists pre, post, data. repeat split; assumption.
Defined.

(** X4. adminUpdateBooking without a status (absent, null, empty, 0 or
    false) writes the booking back unchanged and still answers HTTP 200
    "Booking updated successfully": the store is exactly as it was. *)
Theorem adminUpdateBooking_without_status_changes_nothing
        (e : Store.Env) (w : Store.World) (req : request)
        (status : jsval) (b : doc) :
  JS.get (req_body req) "status" = inr status ->
  JS.truthy status = false ->
  find (Store.has_id (req_param req)) (Store.bookings w) = Some b ->
  let r := run (Store.mem e) (bookingController.adminUpdateBooking req) w in
  final r = w
  /\ exists data,
       result r
       = inr (Res 200
                [("success", OVal (JBool true));
                 ("message", OVal (JStr "Booking updated successfully"));
                 ("data", OVal data)]).
Proof.
  intros Hs Ht Hfind r.
  destruct (adminUpdateBooking_found e w req status b Hs) as
    [pre [post [Hl [Hfin Hres]]]]; [| exact Hfind |].
  { now rewrite Ht. }
  rewrite Ht in Hfin, Hres. subst r. rewrite Hfin, Hres.
  split; [| eexists; reflexivity].
  pose proof (set_coll_same Booking w) as Hsame. cbn [Store.coll] in Hsame.
  rewrite Hl in Hsame. exact Hsame.
Qed.

Lemma adminUpdateBooking_without_status_changes_nothing_witness :
  let w := Demo.world [] [] [Demo.cancelled_b1] in
  final (run (Store.mem (Demo.env 0))
             (bookingController.adminUpdateBooking Demo.delete_b1) w)
  = w.
Proof.
  intros w.
  apply (adminUpdateBooking_without_status_changes_nothing (Demo.env 0) w
           Demo.delete_b1 JUndefined Demo.cancelled_b1 eq_refl eq_refl
           eq_refl).
Defined.

(* ===================================================================== *)
(** ** Deleting *)
(* ===================================================================== *)

Lemma find_app_none {A} (f : A -> bool) (pre post : list A) :
  forallb (fun x => negb (f x)) pre = true ->
  find f (pre ++ post) = find f post.
Proof.
  induction pre as [| x pre IH]; simpl; [reflexivity |].
  intros H. apply andb_true_iff in H. destruct H as [Hx Hpre].
  apply negb_true_iff in Hx. rewrite Hx. now apply IH.
Qed.

Lemma filter_single_rest {A} (f : A -> bool) (pre post : list A) (b : A) :
  forallb (fun x => negb (f x)) pre = true -> f b = true ->
  length (filter f (pre ++ b :: post)) = 1%nat ->
  find f post = None.
Proof.
  intros Hpre Hb Hone. rewrite filter_app in Hone. simpl in Hone.
  rewrite Hb, length_app in Hone. simpl in Hone.
  destruct (find f post) as [x |] eqn:Hx; [| reflexivity].
  apply find_some in Hx. destruct Hx as [Hin Hfx].
  assert (Hin' : In x (filter f post)) by (apply filter_In; now split).
  destruct (filter f post); [destruct Hin' | simpl in Hone; lia].
Qed.

Lemma adminDeleteBooking_found (e : Store.Env) (w : Store.World)
      (req : request) (b : doc) :
  find (Store.has_id (req_param req)) (Store.bookings w) = Some b ->
  exists pre post,
    Store.bookings w = pre ++ b :: post
    /\ forallb (fun x => negb (Store.has_id (req_param req) x)) pre = true
    /\ Store.has_id (req_param req) b = true
    /\ run (Store.mem e) (bookingController.adminDeleteBooking req) w
       = Outcome
           (inr (Res 200 [("success", OVal (JBool true));
                          ("message",
                           OVal (JStr "Booking deleted successfully"))]))
           (Store.set_coll Booking (pre ++ post) w)
           [Call (FindById Booking (req_param req));
            Call (DeleteOne Booking b)].
Proof.
  intros Hfind.
  destruct (find_split _ _ _ Hfind) as [pre [post [Hl [Hpre Hb]]]].
  exists pre, post. repeat split; try assumption.
  unfold bookingController.adminDeleteBooking. cbn. rewrite Hfind. cbn.
  pose proof Hb as Hid. apply id_eqb_eq in Hid. rewrite Hid, Hl.
  now rewrite (remove_first_split _ pre b post Hpre Hb).
Qed.

(** X5. Once adminDeleteBooking has removed the only booking stored
    under an id, that id is gone for the admin routes: deleting it again
    and updating it are both answered HTTP 404 "Booking not found" and
    leave the store as the first deletion left it. *)
Theorem adminDeleteBooking_then_not_found
        (e : Store.Env) (w : Store.World) (req req' : request)
        (status : jsval) :
  length (filter (Store.has_id (req_param req)) (Store.bookings w)) = 1%nat ->
  req_param req' = req_param req ->
  JS.get (req_body req') "status" = inr status ->
  JS.truthy status && negb (JS.includes bookingController.validStatuses status)
  = false ->
  let deleted := run (Store.mem e) (bookingController.adminDeleteBooking req)
                     w in
  let again := run (Store.mem e) (bookingController.adminDeleteBooking req)
                   (final deleted) in
  let update := run (Store.mem e) (bookingController.adminUpdateBooking req')
                    (final deleted) in
  ok (result deleted) 200 = true
  /\ length (Store.bookings (final deleted))
     = pred (length (Store.bookings w))
  /\ result again
     = inr (Res 404 [("success", OVal (JBool false));
                     ("message", OVal (JStr "Booking not found"))])
  /\ final again = final deleted
  /\ result update
     = inr (Res 404 [("success", OVal (JBool false));
                     ("message", OVal (JStr "Booking not found"))])
  /\ final update = final deleted.
Proof.
  intros Hone Hparam Hs Hvalid. cbv zeta.
  destruct (find (Store.has_id (req_param req)) (Store.bookings w))
    as [b |] eqn:Hfind.
  2: { rewrite (find_none_filter _ _ Hfind) in Hone. discriminate Hone. }
  destruct (adminDeleteBooking_found e w req b Hfind)
    as [pre [post [Hl [Hpre [Hb Hrun]]]]].
  rewrite Hrun. cbn [result final].
  set (w1 := Store.set_coll Booking (pre ++ post) w).
  assert (Hgone : find (Store.has_id (req_param req)) (Store.bookings w1)
                  = None).
  { subst w1. cbn. rewrite (find_app_none _ pre post Hpre).
    apply (filter_single_rest _ pre post b Hpre Hb). now rewrite <- Hl. }
  assert (Hlen : length (Store.bookings w1) = pred (length (Store.bookings w))).
  { subst w1. cbn. rewrite Hl, !length_app. simpl. lia. }
  clearbody w1.
  unfold bookingController.adminDeleteBooking,
    bookingController.adminUpdateBooking.
  cbn. rewrite Hgone. cbn. rewrite Hs. cbn. rewrite Hvalid. cbn.
  rewrite Hparam, Hgone. cbn. repeat split. exact Hlen.
Qed.

Lemma adminDeleteBooking_then_not_found_witness :
  let w := Demo.world [] [] [Demo.cancelled_b1] in
  let deleted := run (Store.mem (Demo.env 0))
                     (bookingController.adminDeleteBooking Demo.delete_b1) w in
  ok (result deleted) 200 = true
  /\ ok (result (run (Store.mem (Demo.env 0))
                     (bookingController.adminUpdateBooking Demo.confirm_b1)
                     (final deleted))) 404 = true.
Proof.
  intros w deleted.
  destruct (adminDeleteBooking_then_not_found (Demo.env 0) w Demo.delete_b1
              Demo.confirm_b1 (JStr "confirmed") eq_refl eq_refl eq_refl
              eq_refl) as [Hok [_ [_ [_ [Hupd _]]]]].
  fold deleted in Hupd. split; [exact Hok | now rewrite Hupd].
Defined.

(* ===================================================================== *)
(** ** deleteUser and deleteEvent, further *)
(* ===================================================================== *)

(** X6. deleteUser on another account: when the user found is not the
    requester, exactly that record is removed, the answer is HTTP 200
    "User deleted successfully", and nothing is cascaded: events and
    bookings, those of the deleted user included, are untouched. *)
Theorem deleteUser_removes_only_that_user
        (e : Store.Env) (w : Store.World) (req : request)
        (user : doc) (id : string) (me : jsval) :
  find (Store.has_id (req_param req)) (Store.users w) = Some user ->
  method_toString (field user "_id") = inr id ->
  JS.get (req_user req) "id" = inr me ->
  JS.str_eq id me = false ->
  let r := run (Store.mem e) (adminController.deleteUser req) w in
  exists pre post,
    Store.users w = pre ++ user :: post
    /\ Store.users (final r) = pre ++ post
    /\ Store.bookings (final r) = Store.bookings w
    /\ Store.events (final r) = Store.events w
    /\ result r
       = inr (Res 200 [("success", OVal (JBool true));
                       ("message", OVal (JStr "User deleted successfully"))]).
Proof.
  intros Hfind Hid Hme Hneq r. subst r.
  destruct (find_split _ _ _ Hfind) as [pre [post [Hl [Hpre Hb]]]].
  exists pre, post. split; [exact Hl |].
  unfold adminController.deleteUser. cbn. rewrite Hfind. cbn.
  rewrite Hid. cbn. rewrite Hme. cbn. rewrite Hneq. cbn.
  pose proof Hb as Hfield. apply id_eqb_eq in Hfield. rewrite Hfield, Hl.
  rewrite (remove_first_split _ pre user post Hpre Hb). repeat split.
Qed.

Lemma deleteUser_removes_only_that_user_witness :
  let w := Demo.world [] [[("_id", JStr "a1"); ("role", JStr "admin")];
                          [("_id", JStr "u1"); ("role", JStr "user")]] [] in
  let r := run (Store.mem (Demo.env 0))
               (adminController.deleteUser
                  (Req JUndefined (JStr "u1") Demo.admin [])) w in
  exists pre post,
    Store.users w = pre ++ [("_id", JStr "u1"); ("role", JStr "user")] :: post
    /\ Store.users (final r) = pre ++ post.
Proof.
  intros w r.
  destruct (deleteUser_removes_only_that_user (Demo.env 0) w
              (Req JUndefined (JStr "u1") Demo.admin [])
              [("_id", JStr "u1"); ("role", JStr "user")] "u1" (JStr "a1")
              eq_refl eq_refl eq_refl eq_refl)
    as [pre [post [H1 [H2 _]]]].
  exists pre, post. split; assumption.
Defined.

(** X7. deleteUser never removes the requester: whatever the request,
    every user record carrying the requesting admin's id is still stored
    afterwards. *)
Theorem deleteUser_never_removes_the_requester
        (e : Store.Env) (w : Store.World) (req : request)
        (id : string) (d : doc) :
  JS.get (req_user req) "id" = inr (JStr id) ->
  In d (Store.users w) ->
  field d "_id" = JStr id ->
  In d (Store.users (final (run (Store.mem e)
                                (adminController.deleteUser req) w))).
Proof.
  intros Hme Hin Hd. unfold adminController.deleteUser. cbn.
  destruct (find (Store.has_id (req_param req)) (Store.users w))
    as [user |] eqn:Hfind; cbn; [| exact Hin].
  destruct (find_has_id _ _ _ Hfind) as [_ Hfield].
  apply find_some in Hfind. destruct Hfind as [_ Hparam].
  destruct (id_eqb_str _ _ Hparam) as [s Hs].
  assert (Ht : method_toString (JStr s) = inr s) by reflexivity.
  rewrite Hfield, Hs, Ht. cbn. rewrite Hme. cbn.
  unfold JS.str_eq. destruct (String.eqb s id) eqn:Hsid; cbn; [exact Hin |].
  apply remove_first_keeps; [| exact Hin].
  unfold Store.has_id. rewrite Hd, Hfield, Hs. simpl.
  now rewrite String.eqb_sym.
Qed.

Lemma deleteUser_never_removes_the_requester_witness :
  let w := Demo.world [] [[("_id", JStr "a1"); ("role", JStr "admin")];
                          [("_id", JStr "u1"); ("role", JStr "user")]] [] in
  In [("_id", JStr "a1"); ("role", JStr "admin")]
     (Store.users (final (run (Store.mem (Demo.env 0))
                              (adminController.deleteUser
                                 (Req JUndefined (JStr "u1") Demo.admin []))
                              w))).
Proof.
  intros w.
  apply (deleteUser_never_removes_the_requester (Demo.env 0) w
           (Req JUndefined (JStr "u1") Demo.admin []) "a1");
    [reflexivity | now left | reflexivity].
Defined.

(** X8. deleteEvent removes the event found and cascades nothing: the
    bookings, those made for the deleted event included, and the users
    are untouched; the answer is HTTP 200 (404, and an untouched store,
    when no event is found). *)
Theorem deleteEvent_does_not_cascade
        (e : Store.Env) (w : Store.World) (req : request) :
  let r := run (Store.mem e) (adminController.deleteEvent req) w in
  Store.bookings (final r) = Store.bookings w
  /\ Store.users (final r) = Store.users w
  /\ match find (Store.has_id (req_param req)) (Store.events w) with
     | Some ev =>
         exists pre post,
           Store.events w = pre ++ ev :: post
           /\ Store.events (final r) = pre ++ post
           /\ result r
              = inr (Res 200 [("success", OVal (JBool true));
                              ("message",
                               OVal (JStr "Event deleted successfully"))])
     | None =>
         final r = w
         /\ result r
            = inr (Res 404 [("success", OVal (JBool false));
                            ("message", OVal (JStr "Event not found"))])
     end.
Proof.
  intros r. subst r. unfold adminController.deleteEvent. cbn.
  destruct (find (Store.has_id (req_param req)) (Store.events w))
    as [ev |] eqn:Hfind; cbn; [| repeat split].
  split; [reflexivity |]. split; [reflexivity |].
  destruct (find_split _ _ _ Hfind) as [pre [post [Hl [Hpre Hb]]]].
  exists pre, post. split; [exact Hl |].
  pose proof Hb as Hfield. apply id_eqb_eq in Hfield. rewrite Hfield, Hl.
  rewrite (remove_first_split _ pre ev post Hpre Hb). split; reflexivity.
Qed.

(* ===================================================================== *)
(** ** Booking twice, and listing one's bookings *)
(* ===================================================================== *)

Lemma find_snoc {A} (f : A -> bool) (l : list A) (b : A) :
  find f l = None -> f b = true -> find f (l ++ [b]) = Some b.
Proof.
  intros Hnone Hb. induction l as [| x rest IH]; simpl in *.
  - now rewrite Hb.
  - destruct (f x); [discriminate | now apply IH].
Qed.

(** X9. Booking the same event twice: when the event exists, the user
    has no booking for it and the schema accepts the document, the first
    bookEvent answers HTTP 201 and stores the booking, and the same
    request repeated is answered HTTP 400 "You already booked this
    event" and stores nothing more. *)
Theorem bookEvent_twice
        (e : Store.Env) (w : Store.World) (req : request)
        (ev u : string) (event : doc) :
  JS.get (req_body req) "eventId" = inr (JStr ev) ->
  JS.get (req_user req) "id" = inr (JStr u) ->
  find (Store.has_id (JStr ev)) (Store.events w) = Some event ->
  let pair := [("user", JStr u); ("event", JStr ev)] in
  let b := Store.new_doc e Booking (Store.minted w) pair in
  find (Store.matches pair) (Store.bookings w) = None ->
  Store.validate e Booking (Store.bookings w) b = None ->
  let first := run (Store.mem e) (bookingController.bookEvent req) w in
  let second := run (Store.mem e) (bookingController.bookEvent req)
                    (final first) in
  result first = inr (Res 201 [("success", OVal (JBool true));
                               ("data", OVal (JObj b))])
  /\ result second
     = inr (Res 400 [("success", OVal (JBool false));
                     ("message", OVal (JStr "You already booked this event"))])
  /\ final second = final first
  /\ Store.bookings (final second) = Store.bookings w ++ [b].
Proof.
  intros Hbody Huser Hevent pair b Hnone Hvalid first second.
  pose proof (bookEvent_outcomes e w req (JStr ev) (JStr u) Hbody Huser) as H1.
  cbv zeta in H1. fold pair b first in H1.
  rewrite Hevent, Hnone, Hvalid in H1.
  destruct H1 as [Hres1 [Hbs [Hevs _]]].
  pose proof (bookEvent_outcomes e (final first) req (JStr ev) (JStr u)
                Hbody Huser) as H2.
  cbv zeta in H2. fold pair second in H2.
  rewrite Hevs, Hevent, Hbs in H2.
  assert (Hb : Store.matches pair b = true).
  { subst b pair. unfold Store.matches, Store.new_doc. simpl.
    now rewrite !String.eqb_refl. }
  rewrite (find_snoc _ _ b Hnone Hb) in H2.
  destruct H2 as [Hres2 Hfin2].
  repeat split; try assumption. now rewrite Hfin2.
Qed.

Lemma bookEvent_twice_witness :
  let w := Demo.world [[("_id", JStr "b0"); ("title", JStr "Launch")]] [] [] in
  let first := run (Store.mem (Demo.env 0))
                   (bookingController.bookEvent Demo.book_b0) w in
  let second := run (Store.mem (Demo.env 0))
                    (bookingController.bookEvent Demo.book_b0)
                    (final first) in
  ok (result first) 201 = true
  /\ ok (result second) 400 = true
  /\ length (Store.bookings (final second)) = 1%nat.
Proof.
  intros w first second.
  destruct (bookEvent_twice (Demo.env 0) w Demo.book_b0 "b0" "u1"
              [("_id", JStr "b0"); ("title", JStr "Launch")]
              eq_refl eq_refl eq_refl eq_refl eq_refl)
    as [H1 [H2 [_ H3]]].
  fold first in H1. fold first second in H2, H3.
  rewrite H1, H2, H3. repeat split.
Defined.

(** X10. getMyBookings lists the requester's bookings and no others:
    the answer is HTTP 200 with one entry for each stored booking whose
    user is the requester, every entry is such a booking with at most
    its event field replaced by the populated event, and the store is
    left as it was. *)
Theorem getMyBookings_lists_own_bookings
        (e : Store.Env) (w : Store.World) (req : request) (id : string) :
  JS.get (req_user req) "id" = inr (JStr id) ->
  let r := run (Store.mem e) (bookingController.getMyBookings req) w in
  exists data,
    result r = inr (Res 200 [("success", OVal (JBool true));
                             ("data", OVal (JArr (map JObj data)))])
    /\ final r = w
    /\ length data
       = length (filter (Store.matches [("user", JStr id)]) (Store.bookings w))
    /\ Forall (fun d =>
                 field d "user" = JStr id
                 /\ exists b,
                      In b (Store.bookings w)
                      /\ forall k, k <> "event" -> field d k = field b k)
              data.
Proof.
  intros Hme r. subst r. unfold bookingController.getMyBookings. cbn.
  rewrite Hme. cbn. eexists. split; [reflexivity |].
  split; [reflexivity |]. split; [apply length_map |].
  apply Forall_forall. intros d Hd. apply in_map_iff in Hd.
  destruct Hd as [b [<- Hb]]. apply filter_In in Hb. destruct Hb as [Hin Hm].
  unfold Store.populated. simpl. split.
  - rewrite populate1_other by reflexivity.
    unfold Store.matches in Hm. simpl in Hm. rewrite andb_true_r in Hm.
    now apply id_eqb_eq.
  - exists b. split; [exact Hin |]. intros k Hk.
    apply populate1_other. simpl. now apply String.eqb_neq.
Qed.

Lemma getMyBookings_lists_own_bookings_witness :
  let w := Demo.world [] []
             [Demo.cancelled_b1;
              [("_id", JStr "b2"); ("user", JStr "u2"); ("event", JStr "b0")]]
  in
  exists data,
    result (run (Store.mem (Demo.env 0))
                (bookingController.getMyBookings
                   (Req JUndefined JUndefined Demo.alice [])) w)
    = inr (Res 200 [("success", OVal (JBool true));
                    ("data", OVal (JArr (map JObj data)))])
    /\ length data = 1%nat.
Proof.
  intros w.
  destruct (getMyBookings_lists_own_bookings (Demo.env 0) w
              (Req JUndefined JUndefined Demo.alice []) "u1" eq_refl)
    as [data [Hres [_ [Hlen _]]]].
  exists data. split; [exact Hres | exact Hlen].
Defined.

(* ===================================================================== *)
(** ** Creating and listing events *)
(* ===================================================================== *)

Lemma own_filter_defined (k : string) (v : jsval) (fs : doc) :
  JS.own k fs = Some v -> v <> JUndefined ->
  JS.own k (filter (fun kv => match snd kv with
                              | JUndefined => false
                              | _ => true
                              end) fs)
  = Some v.
Proof.
  intros Hown Hv. induction fs as [| [k0 v0] rest IH]; simpl in *.
  - discriminate.
  - destruct (String.eqb k k0) eqn:Hk.
    + inversion Hown; subst v0.
      destruct v; try (simpl; now rewrite Hk). now destruct Hv.
    + destruct v0; simpl; rewrite ?Hk; now apply IH.
Qed.

Lemma own_app_found {A} (k : string) (v : A) (l l' : list (string * A)) :
  JS.own k l = Some v -> JS.own k (l ++ l') = Some v.
Proof.
  induction l as [| [k0 v0] rest IH]; simpl; [discriminate |].
  destruct (String.eqb k k0); [trivial | exact IH].
Qed.

(** A field given to [create] with a defined value is a field of the
    document stored. *)
Lemma new_doc_field (e : Store.Env) m n (fields : doc) k v :
  String.eqb k "_id" = false ->
  JS.own k fields = Some v -> v <> JUndefined ->
  field (Store.new_doc e m n fields) k = v.
Proof.
  intros Hk Hown Hv. unfold field, Store.new_doc. simpl. rewrite Hk.
  now rewrite (own_app_found _ _ _ _ (own_filter_defined k v fields Hown Hv)).
Qed.

(** X11. An event a user creates is among the events getMyEvents lists
    for that user: createEvent answers HTTP 201 with the stored event,
    whose createdBy is the requester, and a getMyEvents by the same user
    afterwards answers HTTP 200 with a list that contains it, all of
    whose entries were created by that user. *)
Theorem created_event_is_listed
        (e : Store.Env) (w : Store.World) (req req' : request)
        (title description date location : jsval) (id : string) :
  JS.get (req_body req) "title" = inr title ->
  JS.get (req_body req) "description" = inr description ->
  JS.get (req_body req) "date" = inr date ->
  JS.get (req_body req) "location" = inr location ->
  JS.get (req_user req) "id" = inr (JStr id) ->
  JS.get (req_user req') "id" = inr (JStr id) ->
  let ev := Store.new_doc e Event (Store.minted w)
              [("title", title); ("description", description);
               ("date", date); ("location", location);
               ("createdBy", JStr id)] in
  Store.validate e Event (Store.events w) ev = None ->
  let created := run (Store.mem e) (eventController.createEvent req) w in
  let listed := run (Store.mem e) (eventListings.getMyEvents req')
                    (final created) in
  result created = inr (Res 201 [("success", OVal (JBool true));
                                 ("data", OVal (JObj ev))])
  /\ field ev "createdBy" = JStr id
  /\ exists data,
       result listed = inr (Res 200 [("success", OVal (JBool true));
                                     ("data", OVal (JArr (map JObj data)))])
       /\ In ev data
       /\ Forall (fun d => field d "createdBy" = JStr id) data.
Proof.
  intros Ht Hd Hda Hl Hme Hme' ev Hvalid created listed.
  assert (Hby : field ev "createdBy" = JStr id).
  { subst ev. apply new_doc_field; [reflexivity | | discriminate].
    reflexivity. }
  assert (Hcreated : result created
                     = inr (Res 201 [("success", OVal (JBool true));
                                     ("data", OVal (JObj ev))])
                     /\ Store.events (final created) = Store.events w ++ [ev]).
  { subst created. unfold eventController.createEvent. cbn.
    rewrite Ht. cbn. rewrite Hd. cbn. rewrite Hda. cbn. rewrite Hl. cbn.
    rewrite Hme. cbn. fold ev. rewrite Hvalid. cbn. now split. }
  destruct Hcreated as [Hres Hevents].
  split; [exact Hres |]. split; [exact Hby |].
  subst listed. unfold eventListings.getMyEvents. cbn. rewrite Hme'. cbn.
  eexists. split; [reflexivity |]. rewrite map_id. split.
  - apply filter_In. split.
    + change (In ev (Store.events (final created))). rewrite Hevents.
      apply in_or_app. right. now left.
    + unfold Store.matches. simpl. rewrite Hby. simpl.
      now rewrite String.eqb_refl.
  - apply Forall_forall. intros d Hin. apply filter_In in Hin.
    destruct Hin as [_ Hm]. unfold Store.matches in Hm. simpl in Hm.
    rewrite andb_true_r in Hm. now apply id_eqb_eq.
Qed.

Lemma created_event_is_listed_witness :
  let created := run (Store.mem (Demo.env 0))
                     (eventController.createEvent Demo.create_b0)
                     (Demo.world [] [] []) in
  exists data,
    result (run (Store.mem (Demo.env 0))
                (eventListings.getMyEvents
                   (Req JUndefined JUndefined Demo.alice []))
                (final created))
    = inr (Res 200 [("success", OVal (JBool true));
                    ("data", OVal (JArr (map JObj data)))])
    /\ length data = 1%nat.
Proof.
  intros created.
  destruct (created_event_is_listed (Demo.env 0) (Demo.world [] [] [])
              Demo.create_b0 (Req JUndefined JUndefined Demo.alice [])
              (JStr "Launch") JUndefined (JStr "2026-01-01") JUndefined "u1"
              eq_refl eq_refl eq_refl eq_refl eq_refl eq_refl eq_refl)
    as [_ [_ [data [Hres _]]]].
  fold created in Hres. exists data. split; [exact Hres |].
  vm_compute in Hres. inversion Hres as [Hdata].
  destruct data as [| d [| d' rest]]; try discriminate Hdata. reflexivity.
Defined.

(* ===================================================================== *)
(** ** updateUserRole *)
(* ===================================================================== *)

(** X12. updateUserRole validates before it looks anything up: a role
    that is absent, or is not one of user, organizer, admin, is answered
    HTTP 400 in every environment and without a single call. *)
Theorem updateUserRole_rejects_invalid_role (req : request) (role : jsval) :
  JS.get (req_body req) "role" = inr role ->
  JS.includes ["user"; "organizer"; "admin"] role = false ->
  forall (W : Type) (h : handler W) (w : W),
    run h (adminController.updateUserRole req) w
    = Outcome
        (inr (Res 400
                [("success", OVal (JBool false));
                 ("message",
                  OVal (JStr
                    "Please provide a valid role (user, organizer, admin)"))]))
        w [].
Proof.
  intros Hr Hi W h w. unfold adminController.updateUserRole. cbn.
  rewrite Hr. cbn. rewrite Hi, orb_true_r. reflexivity.
Qed.

Lemma updateUserRole_rejects_invalid_role_witness :
  result (run (Store.mem (Demo.env 0))
              (adminController.updateUserRole
                 (Req (JObj [("role", JStr "vendor")]) (JStr "u1")
                      Demo.admin []))
              (Demo.world [] [] []))
  = inr (Res 400
           [("success", OVal (JBool false));
            ("message",
             OVal (JStr
               "Please provide a valid role (user, organizer, admin)"))]).
Proof.
  now rewrite (updateUserRole_rejects_invalid_role
                 (Req (JObj [("role", JStr "vendor")]) (JStr "u1")
                      Demo.admin [])
                 (JStr "vendor") eq_refl eq_refl).
Defined.

(** X13. updateUserRole with a valid role sets the role of the user
    found, in place, and nothing else: the other users keep content and
    position, the user keeps the other fields, and the answer is
    HTTP 200 with the id, name, email and new role of the user.  No
    check involves the requester, so the same holds when an admin
    changes their own role. *)
Theorem updateUserRole_sets_only_the_role
        (e : Store.Env) (w : Store.World) (req : request)
        (role : string) (user : doc) :
  JS.get (req_body req) "role" = inr (JStr role) ->
  In role ["user"; "organizer"; "admin"] ->
  find (Store.has_id (req_param req)) (Store.users w) = Some user ->
  let r := run (Store.mem e) (adminController.updateUserRole req) w in
  let user' := JS.set "role" (JStr role) user in
  exists pre post,
    Store.users w = pre ++ user :: post
    /\ Store.users (final r) = pre ++ user' :: post
    /\ Store.bookings (final r) = Store.bookings w
    /\ Store.events (final r) = Store.events w
    /\ (forall k, k <> "role" -> field user' k = field user k)
    /\ result r
       = inr (Res 200
                [("success", OVal (JBool true));
                 ("message", OVal (JStr ("User role updated to " +++ role)));
                 ("data",
                  OObj [("id", OVal (field user "_id"));
                        ("name", OVal (field user "name"));
                        ("email", OVal (field user "email"));
                        ("role", OVal (JStr role))])]).
Proof.
  intros Hr Hin Hfind r user'. subst r.
  destruct (find_split _ _ _ Hfind) as [pre [post [Hl [Hpre Hb]]]].
  exists pre, post. split; [exact Hl |].
  assert (Htruthy : JS.truthy (JStr role) = true)
    by (destruct Hin as [<- | [<- | [<- | []]]]; reflexivity).
  assert (Hid : field user' "_id" = req_param req).
  { subst user'.
    rewrite (field_set_other (k := "role") (k' := "_id")) by reflexivity.
    now apply id_eqb_eq. }
  assert (Hts : JS.toString (JStr role) = inr role) by reflexivity.
  unfold adminController.updateUserRole. cbn.
  rewrite Hr. cbn. rewrite Htruthy, (includes_in _ role Hin). cbn.
  rewrite Hfind. cbn. fold user'. rewrite Hid, Hl.
  rewrite (replace_first_split _ user' pre user post Hpre Hb). cbn.
  rewrite Hts. cbn. subst user'.
  rewrite !field_set_same.
  rewrite !(field_set_other (k := "role")) by reflexivity.
  assert (Hu : field user "_id" = req_param req) by now apply id_eqb_eq.
  rewrite Hu. repeat split.
  intros k Hk. apply field_set_other. now apply String.eqb_neq.
Qed.

Lemma updateUserRole_sets_only_the_role_witness :
  let w := Demo.world [] [[("_id", JStr "a1"); ("role", JStr "admin")];
                          [("_id", JStr "u1"); ("role", JStr "user")]] [] in
  let r := run (Store.mem (Demo.env 0))
               (adminController.updateUserRole
                  (Req (JObj [("role", JStr "user")]) (JStr "a1")
                       Demo.admin [])) w in
  Store.users (final r)
  = [[("_id", JStr "a1"); ("role", JStr "user")];
     [("_id", JStr "u1"); ("role", JStr "user")]].
Proof.
  intros w r.
  destruct (updateUserRole_sets_only_the_role (Demo.env 0) w
              (Req (JObj [("role", JStr "user")]) (JStr "a1") Demo.admin [])
              "user" [("_id", JStr "a1"); ("role", JStr "admin")]
              eq_refl (or_introl eq_refl) eq_refl)
    as [pre [post [H1 [H2 _]]]].
  fold r in H2. rewrite H2.
  destruct pre as [| x pre]; simpl in H1.
  - inversion H1; subst. reflexivity.
  - inversion H1; subst. destruct pre; discriminate.
Defined.

(* ===================================================================== *)
(** ** initiateRefund and getPaymentByOrderId *)
(* ===================================================================== *)

(** X14. initiateRefund requires a payment id: when paymentId is absent
    or falsy the answer is HTTP 400 "Payment ID is required", in every
    environment and without the gateway being called. *)
Theorem initiateRefund_requires_payment_id
        (req : request) (paymentId amount reason : jsval) :
  JS.get (req_body req) "paymentId" = inr paymentId ->
  JS.get (req_body req) "amount" = inr amount ->
  JS.get (req_body req) "reason" = inr reason ->
  JS.truthy paymentId = false ->
  forall (W : Type) (h : handler W) (w : W),
    run h (paymentController.initiateRefund req) w
    = Outcome
        (inr (Res 400 [("success", OVal (JBool false));
                       ("message", OVal (JStr "Payment ID is required"))]))
        w [].
Proof.
  intros Hp Ha Hr Ht W h w. unfold paymentController.initiateRefund. cbn.
  rewrite Hp. cbn. rewrite Ha. cbn. rewrite Hr. cbn. now rewrite Ht.
Qed.

Lemma initiateRefund_requires_payment_id_witness :
  ok (result (run (Store.mem (Demo.env 0))
                  (paymentController.initiateRefund
                     (Req (JObj [("amount", JNum 5)]) JUndefined
                          Demo.admin []))
                  (Demo.world [] [] []))) 400
  = true.
Proof.
  now rewrite (initiateRefund_requires_payment_id
                 (Req (JObj [("amount", JNum 5)]) JUndefined Demo.admin [])
                 JUndefined (JNum 5) JUndefined eq_refl eq_refl eq_refl
                 eq_refl).
Defined.

(** X15. initiateRefund asks for a full refund unless an amount is
    given: with a payment id, the gateway is asked once, at normal
    speed, with the reason given (or "Customer requested refund"), and
    with an amount only when the amount is truthy, so an amount of 0
    asks for a full refund; the amount asked is Math.round(amount * 100),
    product and rounding being those of doubles.  When the gateway
    accepts, the answer is HTTP 200 with the refund's id, its amount
    divided by 100 and its status; when it throws, the answer is
    HTTP 500 with its message and nothing is recorded; when a truthy
    amount cannot be converted to a number, the answer is HTTP 500 and
    the gateway is not called. *)
Theorem initiateRefund_full_or_partial
        (e : Store.Env) (w : Store.World) (req : request)
        (paymentId amount reason : jsval) :
  JS.get (req_body req) "paymentId" = inr paymentId ->
  JS.get (req_body req) "amount" = inr amount ->
  JS.get (req_body req) "reason" = inr reason ->
  JS.truthy paymentId = true ->
  let r := run (Store.mem e) (paymentController.initiateRefund req) w in
  let asked (partial : option float) :=
    {| refund_speed := "normal";
       refund_notes :=
         [("reason", if JS.truthy reason then reason
                     else JStr "Customer requested refund")];
       refund_opt_amount := partial |} in
  let answered (options : RefundOptions) :=
    match Store.gateway_refund e (Store.refunds w) paymentId options with
    | inr refund =>
        result r
        = inr (Res 200
                 [("success", OVal (JBool true));
                  ("refund",
                   OObj [("id", OVal (JStr (refund_id refund)));
                         ("amount",
                          ONum (PrimFloat.div (refund_amount refund) 100));
                         ("status", OVal (JStr (refund_status refund)))])])
        /\ Store.refunds (final r)
           = Store.refunds w ++ [(paymentId, options, refund)]
    | inl err =>
        result r
        = inr (Res 500 [("success", OVal (JBool false));
                        ("message", OVal (JStr "Failed to initiate refund"));
                        ("error", OVal (message err))])
        /\ Store.refunds (final r) = Store.refunds w
    end in
  if JS.truthy amount
  then match JS.ToNumber amount with
       | Some x => answered (asked (Some (Double.round (PrimFloat.mul x 100))))
       | None =>
           ok (result r) 500 = true
           /\ Store.refunds (final r) = Store.refunds w
           /\ Forall (fun ev => match ev with
                                | Call (Payments_refund _ _) => False
                                | _ => True
                                end) (calls r)
       end
  else answered (asked None).
Proof.
  intros Hp Ha Hr Ht r asked answered. subst r asked answered.
  unfold paymentController.initiateRefund. cbn.
  rewrite Hp. cbn. rewrite Ha. cbn. rewrite Hr. cbn. rewrite Ht. cbn.
  unfold JS.or, JS.times.
  destruct (JS.truthy amount); cbn.
  - destruct (JS.ToNumber amount) as [x |]; cbn.
    + destruct (Store.gateway_refund e (Store.refunds w) paymentId _); cbn;
        split; reflexivity.
    + repeat split. repeat constructor.
  - destruct (Store.gateway_refund e (Store.refunds w) paymentId _); cbn;
      split; reflexivity.
Qed.

(** A refund of "19.99": the gateway is asked for 1999. *)
Lemma initiateRefund_full_or_partial_witness :
  let r := run (Store.mem (Demo.env 0))
               (paymentController.initiateRefund Demo.refund_1999)
               (Demo.world [] [] []) in
  JS.ToNumber (JStr "19.99") = Some 19.99%float
  /\ map (fun x => refund_opt_amount (snd (fst x))) (Store.refunds (final r))
     = [Some 1999%float].
Proof.
  cbv zeta.
  assert (Hn : JS.ToNumber (JStr "19.99") = Some 19.99%float)
    by (vm_compute; reflexivity).
  split; [exact Hn |].
  pose proof (initiateRefund_full_or_partial (Demo.env 0)
                (Demo.world [] [] []) Demo.refund_1999
                (JStr "pay_P1") (JStr "19.99") JUndefined
                eq_refl eq_refl eq_refl eq_refl) as H.
  cbv zeta in H.
  change (JS.truthy (JStr "19.99")) with true in H. cbv iota in H.
  rewrite Hn in H.
  cbn [Store.gateway_refund Demo.env] in H. destruct H as [_ H].
  rewrite H. vm_compute. reflexivity.
Defined.

(** X16. getPaymentByOrderId passes the gateway's listing through: the
    items of what the gateway answers are returned with HTTP 200, and a
    gateway that throws, or answers null or undefined, gives HTTP 500
    "Failed to fetch payment details" with the error's message. In every
    case the store is unchanged but for the console line of the error. *)
Theorem getPaymentByOrderId_outcomes
        (e : Store.Env) (w : Store.World) (req : request) :
  let r := run (Store.mem e) (paymentController.getPaymentByOrderId req) w in
  let failed err :=
    result r
    = inr (Res 500 [("success", OVal (JBool false));
                    ("message", OVal (JStr "Failed to fetch payment details"));
                    ("error", OVal (message err))])
    /\ final r
       = Store.printed [Store.LogError "Error fetching payment:" err] w in
  match Store.gateway_payments e (Store.orders w) (req_param req) with
  | inr payments =>
      match JS.get payments "items" with
      | inr items =>
          result r = inr (Res 200 [("success", OVal (JBool true));
                                   ("payments", OVal items)])
          /\ final r = w
      | inl err => failed err
      end
  | inl err => failed err
  end.
Proof.
  intros r failed. subst r failed.
  unfold paymentController.getPaymentByOrderId. cbn.
  destruct (Store.gateway_payments e (Store.orders w) (req_param req))
    as [err | payments]; cbn; [now split |].
  destruct (JS.get payments "items") as [err | items]; cbn; now split.
Qed.

(* ===================================================================== *)
(** ** The shape of the expected signature *)
(* ===================================================================== *)

Lemma hex_digit_lower n :
  0 <= n < 16 -> is_lower_hex (Bytes.hex_digit n) = true.
Proof.
  intros H.
  assert (Hall : forallb (fun k => is_lower_hex (Bytes.hex_digit (Z.of_nat k)))
                         (seq 0 16) = true) by reflexivity.
  rewrite forallb_forall in Hall. specialize (Hall (Z.to_nat n)).
  rewrite Z2Nat.id in Hall by lia. apply Hall. apply in_seq. lia.
Qed.

Lemma to_hex_cons b bs :
  Bytes.to_hex (b :: bs)
  = String (Bytes.hex_digit (Z.shiftr b 4))
           (String (Bytes.hex_digit (Z.land b 15)) (Bytes.to_hex bs)).
Proof. reflexivity. Qed.

Lemma to_hex_shape bs :
  Forall (fun b => 0 <= b < 256) bs ->
  all_lower_hex (Bytes.to_hex bs) = true
  /\ String.length (Bytes.to_hex bs) = (2 * length bs)%nat.
Proof.
  induction 1 as [| b bs Hb _ [IHa IHl]]; [split; reflexivity |].
  rewrite to_hex_cons.
  cbn [all_lower_hex String.length length].
  rewrite IHa, IHl.
  rewrite !hex_digit_lower; [split; [reflexivity | lia] | |].
  - rewrite Z.land_ones with (n := 4) by lia.
    change (2 ^ 4) with 16. apply Z.mod_pos_bound. lia.
  - rewrite Z.shiftr_div_pow2 by lia. change (2 ^ 4) with 16.
    split; [apply Z.div_pos; lia | apply Z.div_lt_upper_bound; lia].
Qed.

Lemma be_bytes_range n x : Forall (fun b => 0 <= b < 256) (Bytes.be_bytes n x).
Proof.
  induction n as [| n IH]; [constructor |].
  cbn [Bytes.be_bytes]. constructor; [| exact IH].
  change 255 with (Z.ones 8). rewrite Z.land_ones by lia.
  change (2 ^ 8) with 256. apply Z.mod_pos_bound. lia.
Qed.

Lemma be_bytes_length n x : length (Bytes.be_bytes n x) = n.
Proof. induction n as [| n IH]; [reflexivity |]. cbn. now rewrite IH. Qed.

Lemma digest_bytes msg :
  Forall (fun b => 0 <= b < 256) (SHA256.digest msg)
  /\ length (SHA256.digest msg) = 32%nat.
Proof.
  unfold SHA256.digest. cbv zeta.
  destruct (fold_left SHA256.compress _ SHA256.init)
    as [[[[[[[a b] c] d] e0] f] g] h].
  cbn [flat_map]. split.
  - repeat (apply Forall_app; split; [apply be_bytes_range |]). constructor.
  - rewrite !length_app, !be_bytes_length. reflexivity.
Qed.

(** The hex HMAC is sixty-four lowercase hex digits, whatever the key
    and the message. *)
Lemma hmac_digest_shaped key msg :
  digest_shaped (hmac_sha256_hex key msg) = true.
Proof.
  unfold hmac_sha256_hex, digest_shaped.
  destruct (hmac_is_digest (Bytes.of_string key) (Bytes.of_string msg))
    as [m ->].
  destruct (digest_bytes m) as [Hr Hl].
  destruct (to_hex_shape _ Hr) as [Ha Hn].
  rewrite Ha, Hn, Hl. reflexivity.
Qed.

(* ===================================================================== *)
(** ** verifyPayment: the remaining answers *)
(* ===================================================================== *)

(** X17. With the body readable, [verifyPayment] answers 400 "Missing
    payment verification data" as soon as the order id, the payment id
    or the signature is falsy; nothing is computed, called or stored. *)
Theorem verifyPayment_requires_three_fields {W} (h : handler W) (w : W)
        (penv : process_env) (req : request)
        (order payment signature bookingId : jsval) :
  presents req order payment signature bookingId ->
  JS.truthy order && JS.truthy payment && JS.truthy signature = false ->
  run h (paymentController.verifyPayment penv req) w
  = Outcome
      (inr (Res 400 [("success", OVal (JBool false));
                     ("message",
                      OVal (JStr "Missing payment verification data"))]))
      w [].
Proof.
  intros [Ho [Hp [Hs Hb]]] Hmissing.
  unfold paymentController.verifyPayment. cbn.
  rewrite Ho. cbn. rewrite Hp. cbn. rewrite Hs. cbn. rewrite Hb. cbn.
  destruct (JS.truthy order), (JS.truthy payment), (JS.truthy signature);
    try discriminate Hmissing; reflexivity.
Qed.

Lemma verifyPayment_requires_three_fields_witness :
  let req := Req (JObj [("razorpay_order_id", JStr "order_O1");
                        ("razorpay_payment_id", JStr "pay_P1");
                        ("razorpay_signature", JStr "")])
                 JUndefined JUndefined [] in
  presents req (JStr "order_O1") (JStr "pay_P1") (JStr "") JUndefined
  /\ run (Store.mem (Demo.env 0))
         (paymentController.verifyPayment Demo.penv req)
         (Demo.world [] [] [Demo.pending_B1])
     = Outcome
         (inr (Res 400 [("success", OVal (JBool false));
                        ("message",
                         OVal (JStr "Missing payment verification data"))]))
         (Demo.world [] [] [Demo.pending_B1]) [].
Proof.
  intros req.
  assert (Hp : presents req (JStr "order_O1") (JStr "pay_P1") (JStr "")
                        JUndefined) by (repeat split).
  split; [exact Hp |].
  apply (verifyPayment_requires_three_fields
           (Store.mem (Demo.env 0)) (Demo.world [] [] [Demo.pending_B1])
           Demo.penv req _ _ _ _ Hp).
  reflexivity.
Defined.

(** Whatever the environment answers, a 200 of [verifyPayment] means
    that the signature of the body is the expected one. *)
Lemma verifyPayment_200_signature {W} (h : handler W) (w : W)
      (penv : process_env) (req : request) :
  ok (result (run h (paymentController.verifyPayment penv req) w)) 200 = true ->
  exists order_s payment_s,
    JS.get (req_body req) "razorpay_signature"
    = inr (JStr (paymentController.expectedSignature penv order_s payment_s)).
Proof.
  unfold paymentController.verifyPayment. cbn.
  assert (Hcatch : forall err fields,
             ok (result
                   (run h (Vis (Console_error "Error verifying payment:" err)
                               (fun x : error + unit =>
                                  bind (match x with
                                        | inl e0 => Throw e0
                                        | inr a => Ret a
                                        end)
                                       (fun _ => json 500 fields))) w)) 200
             = true -> False).
  { intros err fields. cbn.
    destruct (h unit (Console_error "Error verifying payment:" err) w)
      as [[e0 | []] w']; cbn; discriminate. }
  destruct (JS.get (req_body req) "razorpay_order_id") as [err | order]; cbn;
    [intros H; destruct (Hcatch _ _ H) |].
  destruct (JS.get (req_body req) "razorpay_payment_id") as [err | payment];
    cbn; [intros H; destruct (Hcatch _ _ H) |].
  destruct (JS.get (req_body req) "razorpay_signature") as [err | signature];
    cbn; [intros H; destruct (Hcatch _ _ H) |].
  destruct (JS.get (req_body req) "bookingId") as [err | bookingId];
    cbn; [intros H; destruct (Hcatch _ _ H) |].
  destruct (negb (JS.truthy order) || negb (JS.truthy payment)
            || negb (JS.truthy signature)); cbn; [discriminate |].
  destruct (JS.toString order) as [err | order_s]; cbn;
    [intros H; destruct (Hcatch _ _ H) |].
  destruct (JS.toString payment) as [err | payment_s]; cbn;
    [intros H; destruct (Hcatch _ _ H) |].
  destruct (JS.str_eq _ signature) eqn:Heq; cbn; [| discriminate].
  intros _. exists order_s, payment_s.
  destruct signature; try discriminate Heq.
  unfold JS.str_eq in Heq. apply String.eqb_eq in Heq. now subst.
Qed.

(** X18. [verifyPayment] answers 200 only to a signature that is a
    string of sixty-four lowercase hex digits: a number, an array, a
    string of another length or with an uppercase digit is never
    accepted, in any environment. *)
Theorem verifyPayment_accepts_only_hex_digests {W} (h : handler W) (w : W)
        (penv : process_env) (req : request) :
  ok (result (run h (paymentController.verifyPayment penv req) w)) 200 = true ->
  exists s,
    JS.get (req_body req) "razorpay_signature" = inr (JStr s)
    /\ digest_shaped s = true.
Proof.
  intros H. destruct (verifyPayment_200_signature h w penv req H)
    as [order_s [payment_s Hs]].
  eexists. split; [exact Hs |].
  unfold paymentController.expectedSignature. apply hmac_digest_shaped.
Qed.

Lemma verifyPayment_accepts_only_hex_digests_witness :
  exists s,
    JS.get (req_body Demo.verify_B1) "razorpay_signature" = inr (JStr s)
    /\ digest_shaped s = true.
Proof.
  apply (verifyPayment_accepts_only_hex_digests
           (Store.mem (Demo.env 0)) (Demo.world [] [] [Demo.pending_B1])
           Demo.penv Demo.verify_B1).
  vm_compute. reflexivity.
Defined.

(** X19. The payment data the demo branch of the client's
    [initiatePayment] hands to [onSuccess] never passes the server's
    [verifyPayment]: whatever the order id, the two clock readings, the
    booking id added to the data and the configured secret, the body the
    client's [verifyPayment] posts is not answered 200. *)
Theorem demo_payment_never_verifies {W} (h : handler W) (w : W)
        (penv : process_env) (req : request)
        (orderId paymentData : jsval) (now now' : Z) :
  JS.get paymentData "razorpay_signature"
  = JS.get (paymentService.demo_success orderId now now')
           "razorpay_signature" ->
  paymentService.verifyPayment_body paymentData = inr (req_body req) ->
  ok (result (run h (paymentController.verifyPayment penv req) w)) 200 = false.
Proof.
  intros Hsig Hbody.
  destruct (ok _ 200) eqn:Hok; [| reflexivity].
  destruct (verifyPayment_200_signature h w penv req Hok)
    as [order_s [payment_s Hs]].
  unfold paymentService.verifyPayment_body in Hbody.
  rewrite Hsig in Hbody.
  destruct (JS.get paymentData "razorpay_order_id") as [? | o];
    [discriminate |].
  destruct (JS.get paymentData "razorpay_payment_id") as [? | p];
    [discriminate |].
  cbn in Hbody.
  destruct (JS.get paymentData "bookingId") as [? | b]; [discriminate |].
  injection Hbody as Hbody. rewrite <- Hbody in Hs. cbn in Hs.
  injection Hs as Hs.
  pose proof (hmac_digest_shaped
                (env_or (RAZORPAY_KEY_SECRET penv) "YOUR_KEY_SECRET")
                (order_s +++ "|" +++ payment_s)) as Hshape.
  unfold paymentController.expectedSignature in Hs.
  rewrite <- Hs in Hshape. discriminate Hshape.
Qed.

Lemma demo_payment_never_verifies_witness :
  let data := paymentService.demo_success (JStr "order_O1") 1700000000000
                                          1700000000001 in
  let req := Req (JObj [("razorpay_order_id", JStr "order_O1");
                        ("razorpay_payment_id", JStr "pay_demo_1700000000000");
                        ("razorpay_signature", JStr "sig_demo_1700000000001");
                        ("bookingId", JUndefined)])
                 JUndefined JUndefined [] in
  paymentService.verifyPayment_body data = inr (req_body req)
  /\ ok (result (run (Store.mem (Demo.env 0))
                     (paymentController.verifyPayment Demo.penv req)
                     (Demo.world [] [] [])))
        200
     = false.
Proof.
  intros data req.
  assert (Hb : paymentService.verifyPayment_body data = inr (req_body req))
    by (vm_compute; reflexivity).
  split; [exact Hb |].
  apply (demo_payment_never_verifies
           (Store.mem (Demo.env 0)) (Demo.world [] [] []) Demo.penv req
           (JStr "order_O1") data 1700000000000 1700000000001);
    [reflexivity | exact Hb].
Defined.

(* ===================================================================== *)
(** ** handleWebhook: the refusals *)
(* ===================================================================== *)

(** X20. A delivery whose signature header is absent, is not a string
    or differs from the HMAC of the re-serialised body is answered 400
    "Invalid signature"; nothing is printed, called or stored. *)
Theorem handleWebhook_rejects_bad_signature {W} (h : handler W) (w : W)
        (penv : process_env) (req : request) (body_s : string) :
  JS.stringify (req_body req) = Some body_s ->
  field (req_headers req) "x-razorpay-signature"
  <> JStr (hmac_sha256_hex
             (env_or (RAZORPAY_WEBHOOK_SECRET penv) "webhook_secret") body_s) ->
  run h (paymentController.handleWebhook penv req) w
  = Outcome (inr (Res 400 [("success", OVal (JBool false));
                           ("message", OVal (JStr "Invalid signature"))]))
            w [].
Proof.
  intros Hbody Hsig.
  unfold paymentController.handleWebhook. cbn.
  rewrite Hbody. cbn.
  destruct (JS.str_eq _ (field (req_headers req) "x-razorpay-signature"))
    eqn:Heq; [| reflexivity].
  exfalso. apply Hsig.
  destruct (field (req_headers req) "x-razorpay-signature");
    try discriminate Heq.
  unfold JS.str_eq in Heq. apply String.eqb_eq in Heq. now subst.
Qed.

Lemma handleWebhook_rejects_bad_signature_witness :
  let req := Req (req_body Demo.captured_P1) JUndefined JUndefined [] in
  run (Store.mem (Demo.env 0))
      (paymentController.handleWebhook Demo.penv req)
      (Demo.world [] [] [Demo.pending_B1])
  = Outcome (inr (Res 400 [("success", OVal (JBool false));
                           ("message", OVal (JStr "Invalid signature"))]))
            (Demo.world [] [] [Demo.pending_B1]) [].
Proof.
  intros req.
  let s := eval vm_compute in (JS.stringify (req_body Demo.captured_P1)) in
  match s with
  | Some ?body_s =>
      apply (handleWebhook_rejects_bad_signature
               (Store.mem (Demo.env 0)) (Demo.world [] [] [Demo.pending_B1])
               Demo.penv req body_s)
  end.
  - vm_compute. reflexivity.
  - discriminate.
Defined.

(** X21. A delivery with a valid signature whose event names a payment
    or a refund but whose payload has no such entity is not acknowledged:
    reading the entity's id throws, the error is printed and the answer
    is 500 "Webhook processing failed"; no collection is changed. *)
Theorem handleWebhook_unreadable_payload (penv : process_env) (e : Store.Env)
        (w : Store.World) (req : request) (body_s : string)
        (event payload : jsval) (err : error) :
  JS.stringify (req_body req) = Some body_s ->
  field (req_headers req) "x-razorpay-signature"
  = JStr (hmac_sha256_hex
            (env_or (RAZORPAY_WEBHOOK_SECRET penv) "webhook_secret") body_s) ->
  JS.get (req_body req) "event" = inr event ->
  JS.get (req_body req) "payload" = inr payload ->
  webhook_line event payload = inl err ->
  run (Store.mem e) (paymentController.handleWebhook penv req) w
  = Outcome (inr (Res 500 [("success", OVal (JBool false));
                           ("message",
                            OVal (JStr "Webhook processing failed"))]))
            (Store.printed [Store.LogError "Webhook error:" err] w)
            [Call (Console_error "Webhook error:" err)].
Proof.
  intros Hbody Hsig Hevent Hpayload Hline.
  unfold paymentController.handleWebhook. cbn.
  rewrite Hbody, Hsig. cbn. rewrite str_eq_refl. cbn.
  rewrite Hevent. cbn. rewrite Hpayload. cbn.
  unfold webhook_line in Hline.
  destruct (JS.str_eq "payment.captured" event);
    [| destruct (JS.str_eq "payment.failed" event);
       [| destruct (JS.str_eq "refund.created" event)]].
  4: discriminate Hline.
  all: match type of Hline with
       | context [JS.get ?p ?k] =>
           destruct (JS.get p k) as [err1 | x];
             [inversion Hline; subst; reflexivity |];
           cbn;
           destruct (JS.get x "entity") as [err2 | ent];
             [inversion Hline; subst; reflexivity |];
           cbn;
           destruct (JS.get ent "id") as [err3 | id];
             [inversion Hline; subst; reflexivity | discriminate Hline]
       end.
Qed.

Lemma handleWebhook_unreadable_payload_witness :
  let err := TypeError "Cannot read properties of undefined (reading 'payment')" in
  webhook_line (JStr "payment.captured") JUndefined = inl err
  /\ run (Store.mem (Demo.env 0))
         (paymentController.handleWebhook Demo.penv Demo.captured_nothing)
         (Demo.world [] [] [Demo.pending_B1])
     = Outcome (inr (Res 500 [("success", OVal (JBool false));
                              ("message",
                               OVal (JStr "Webhook processing failed"))]))
               (Store.printed [Store.LogError "Webhook error:" err]
                              (Demo.world [] [] [Demo.pending_B1]))
               [Call (Console_error "Webhook error:" err)].
Proof.
  intros err.
  split; [reflexivity |].
  let s := eval vm_compute in (JS.stringify (req_body Demo.captured_nothing)) in
  match s with
  | Some ?body_s =>
      apply (handleWebhook_unreadable_payload
               Demo.penv (Demo.env 0) (Demo.world [] [] [Demo.pending_B1])
               Demo.captured_nothing body_s
               (JStr "payment.captured") JUndefined err)
  end.
  - vm_compute. reflexivity.
  - vm_compute. reflexivity.
  - reflexivity.
  - reflexivity.
  - reflexivity.
Defined.

(* ===================================================================== *)
(** ** The card form *)
(* ===================================================================== *)

Section CardForm.
Import PaymentModal.

Lemma remove_all_digits s : all_digits (remove not_digit s) = true.
Proof.
  induction s as [| a s IH]; [reflexivity |].
  cbn [remove]. unfold not_digit at 1.
  destruct (is_digit a) eqn:Ha; cbn [negb]; [| exact IH].
  cbn [all_digits]. now rewrite Ha, IH.
Qed.

Lemma digit_not_space a : is_digit a = true -> is_space a = false.
Proof.
  unfold is_digit, is_space. cbv zeta. intros H.
  apply andb_true_iff in H. destruct H as [H1 H2].
  apply N.leb_le in H1. apply N.leb_le in H2.
  apply orb_false_iff. split; [apply orb_false_iff; split |].
  - apply andb_false_iff. right. apply N.leb_gt. lia.
  - apply N.eqb_neq. lia.
  - apply N.eqb_neq. lia.
Qed.

Lemma remove_keeps (c : ascii -> bool) s :
  (forall a, is_digit a = true -> c a = false) ->
  all_digits s = true -> remove c s = s.
Proof.
  intros Hc. induction s as [| a s IH]; [reflexivity |].
  cbn [all_digits remove]. intros H.
  apply andb_true_iff in H. destruct H as [Ha Hs].
  rewrite (Hc a Ha). now rewrite IH.
Qed.

Lemma remove_space_digits s : all_digits s = true -> remove is_space s = s.
Proof. apply remove_keeps. exact digit_not_space. Qed.

Lemma remove_not_digit_digits s :
  all_digits s = true -> remove not_digit s = s.
Proof.
  apply remove_keeps. intros a Ha. unfold not_digit. now rewrite Ha.
Qed.

(** Removing white space first changes nothing: it is no digit. *)
Lemma digits_remove s : digits s = remove not_digit s.
Proof.
  unfold digits. induction s as [| a s IH]; [reflexivity |].
  cbn [remove]. destruct (is_space a) eqn:Hsp.
  - unfold not_digit at 2.
    destruct (is_digit a) eqn:Ha;
      [rewrite (digit_not_space a Ha) in Hsp; discriminate |].
    exact IH.
  - cbn [remove]. now rewrite IH.
Qed.

Lemma digits_all_digits s : all_digits (digits s) = true.
Proof. rewrite digits_remove. apply remove_all_digits. Qed.

Lemma digits_of_digits s : all_digits s = true -> digits s = s.
Proof. intros H. rewrite digits_remove. now apply remove_not_digit_digits. Qed.

Lemma remove_app c s t : remove c (s +++ t) = remove c s +++ remove c t.
Proof.
  induction s as [| a s IH]; [reflexivity |].
  cbn [String.append remove]. destruct (c a); [exact IH |].
  cbn [String.append]. now rewrite IH.
Qed.

Lemma append_length s t :
  String.length (s +++ t) = (String.length s + String.length t)%nat.
Proof.
  induction s as [| a s IH]; [reflexivity |].
  cbn [String.append String.length]. now rewrite IH.
Qed.

Lemma substring_length n m s :
  String.length (substring n m s) = Nat.min m (String.length s - n).
Proof.
  revert n m. induction s as [| a s IH]; intros n m.
  - destruct n, m; cbn; lia.
  - destruct n as [| n].
    + destruct m as [| m]; [reflexivity |].
      cbn [substring String.length]. rewrite IH. lia.
    + cbn [substring String.length]. rewrite IH. lia.
Qed.

Lemma substring_none s : substring 0 0 s = EmptyString.
Proof. now destruct s. Qed.

Lemma substring_all n s :
  (String.length s <= n)%nat -> substring 0 n s = s.
Proof.
  revert n. induction s as [| a s IH]; intros n H.
  - now destruct n.
  - destruct n as [| n]; [cbn in H; lia |].
    cbn [substring]. rewrite IH; [reflexivity | cbn in H; lia].
Qed.

Lemma substring_all_digits n m s :
  all_digits s = true -> all_digits (substring n m s) = true.
Proof.
  revert n m. induction s as [| a s IH]; intros n m H.
  - now destruct n, m.
  - cbn [all_digits] in H. apply andb_true_iff in H. destruct H as [Ha Hs].
    destruct n as [| n].
    + destruct m as [| m]; [reflexivity |].
      cbn [substring all_digits]. now rewrite Ha, IH.
    + cbn [substring]. now apply IH.
Qed.

Lemma digit_prefix_digits n s :
  all_digits s = true -> digit_prefix n s = substring 0 n s.
Proof.
  revert n. induction s as [| a s IH]; intros n H.
  - now destruct n.
  - cbn [all_digits] in H. apply andb_true_iff in H. destruct H as [Ha Hs].
    destruct n as [| n]; [reflexivity |].
    cbn [digit_prefix substring]. now rewrite Ha, IH.
Qed.

(** On a string of digits the pattern matches at the start or nowhere. *)
Lemma first_run_digits v :
  all_digits v = true ->
  first_run v
  = if (4 <=? String.length v)%nat then Some (substring 0 16 v) else None.
Proof.
  induction v as [| a v IH]; intros H; [reflexivity |].
  cbn [first_run]. rewrite (digit_prefix_digits 16 _ H).
  rewrite substring_length.
  cbn [all_digits] in H. apply andb_true_iff in H. destruct H as [Ha Hv].
  destruct (4 <=? String.length (String a v))%nat eqn:Hlen.
  - apply Nat.leb_le in Hlen.
    replace (4 <=? Nat.min 16 (String.length (String a v) - 0))%nat with true;
      [reflexivity |].
    symmetry. apply Nat.leb_le. lia.
  - apply Nat.leb_gt in Hlen.
    replace (4 <=? Nat.min 16 (String.length (String a v) - 0))%nat with false
      by (symmetry; apply Nat.leb_gt; lia).
    rewrite (IH Hv).
    replace (4 <=? String.length v)%nat with false; [reflexivity |].
    symmetry. apply Nat.leb_gt. cbn [String.length] in Hlen. lia.
Qed.

Lemma parts_from_empty fuel i : parts_from fuel i EmptyString = [].
Proof. destruct fuel; [reflexivity |]. cbn. now destruct i. Qed.

Lemma parts_from_shift fuel i a s :
  parts_from fuel (S i) (String a s) = parts_from fuel i s.
Proof.
  revert i. induction fuel as [| fuel IH]; intros i; [reflexivity |].
  cbn [parts_from String.length substring].
  change (S i <? S (String.length s))%nat with (i <? String.length s)%nat.
  destruct (i <? String.length s)%nat; [| reflexivity].
  f_equal. exact (IH (i + 4)%nat).
Qed.

(** The groups, joined by spaces, are the digits they were cut from. *)
Lemma parts_join fuel m :
  all_digits m = true -> (String.length m <= fuel)%nat ->
  remove is_space (JS.join " " (parts_from fuel 0 m)) = m.
Proof.
  revert m. induction fuel as [| fuel IH]; intros m Hd Hlen.
  - destruct m; [reflexivity | cbn in Hlen; lia].
  - destruct m as [| a1 [| a2 [| a3 [| a4 rest]]]];
      try (cbn [parts_from String.length Nat.ltb Nat.leb substring Nat.add];
           rewrite ?parts_from_shift, ?parts_from_empty; cbn [JS.join];
           apply remove_space_digits; exact Hd).
    cbn [parts_from String.length Nat.ltb Nat.leb substring Nat.add].
    rewrite !parts_from_shift.
    assert (Hr : all_digits rest = true).
    { cbn [all_digits] in Hd.
      do 4 (apply andb_true_iff in Hd; destruct Hd as [_ Hd]). exact Hd. }
    assert (Hh : all_digits
                   (String a1 (String a2 (String a3 (String a4 EmptyString))))
                 = true).
    { cbn [all_digits] in Hd |- *.
      apply andb_true_iff in Hd. destruct Hd as [H1 Hd].
      apply andb_true_iff in Hd. destruct Hd as [H2 Hd].
      apply andb_true_iff in Hd. destruct Hd as [H3 Hd].
      apply andb_true_iff in Hd. destruct Hd as [H4 Hd].
      now rewrite H1, H2, H3, H4. }
    assert (Hl : (String.length rest <= fuel)%nat)
      by (cbn [String.length] in Hlen; lia).
    specialize (IH rest Hr Hl).
    rewrite substring_none.
    change (String a1 (String a2 (String a3 (String a4 rest))))
      with (String a1 (String a2 (String a3 (String a4 EmptyString)))
            +++ rest).
    revert Hh.
    generalize (String a1 (String a2 (String a3 (String a4 EmptyString)))).
    intros h Hh.
    destruct (parts_from fuel 0 rest) as [| x r] eqn:Hparts.
    + cbn [JS.join remove] in IH. subst rest.
      cbn [JS.join]. rewrite (remove_space_digits _ Hh).
      clear. induction h as [| a h IH]; [reflexivity |].
      cbn [String.append]. now rewrite <- IH.
    + change (JS.join " " (h :: x :: r))
        with (h +++ " " +++ JS.join " " (x :: r)).
      rewrite !remove_app, IH, (remove_space_digits _ Hh). reflexivity.
Qed.

Lemma parts_from_nonempty fuel m :
  m <> EmptyString -> (String.length m <= fuel)%nat ->
  parts_from fuel 0 m <> [].
Proof.
  intros Hm Hlen. destruct m as [| a m]; [congruence |].
  destruct fuel; [cbn in Hlen; lia |]. discriminate.
Qed.

(** [formatCardNumber] by the digits of its argument. *)
Lemma formatCardNumber_digits value :
  let v := digits value in
  formatCardNumber value
  = if (4 <=? String.length v)%nat
    then JS.join " " (parts_from (String.length (substring 0 16 v)) 0
                                 (substring 0 16 v))
    else v.
Proof.
  intros v. unfold formatCardNumber. fold v.
  rewrite (first_run_digits v (digits_all_digits value)).
  destruct (4 <=? String.length v)%nat eqn:Hlen; [| reflexivity].
  apply Nat.leb_le in Hlen.
  destruct (parts_from _ 0 (substring 0 16 v)) eqn:Hp; [| reflexivity].
  exfalso. revert Hp. apply parts_from_nonempty; [| apply Nat.le_refl].
  intros He. apply (f_equal String.length) in He.
  rewrite substring_length in He. cbn [String.length] in He. lia.
Qed.

Lemma formatCardNumber_kept value :
  remove is_space (formatCardNumber value) = substring 0 16 (digits value).
Proof.
  rewrite formatCardNumber_digits. cbv zeta.
  pose proof (digits_all_digits value) as Hd.
  destruct (4 <=? String.length (digits value))%nat eqn:Hlen.
  - apply parts_join; [now apply substring_all_digits | lia].
  - apply Nat.leb_gt in Hlen. rewrite (remove_space_digits _ Hd).
    symmetry. apply substring_all. lia.
Qed.

Lemma own_set_same {A} k (v : A) fs : JS.own k (JS.set k v fs) = Some v.
Proof.
  induction fs as [| [k' v'] fs IH]; cbn.
  - now rewrite String.eqb_refl.
  - destruct (String.eqb k k') eqn:E; cbn.
    + now rewrite String.eqb_refl.
    + now rewrite E.
Qed.

Lemma own_set_other {A} k k' (v : A) fs :
  String.eqb k k' = false -> JS.own k (JS.set k' v fs) = JS.own k fs.
Proof.
  intros Hk. induction fs as [| [k1 v1] fs IH]; cbn.
  - now rewrite Hk.
  - destruct (String.eqb k' k1) eqn:E; cbn.
    + apply String.eqb_eq in E. subst k1. now rewrite Hk.
    + now rewrite IH.
Qed.

Lemma replace_slash_digits s :
  remove not_digit (replace_slash s) = remove not_digit s.
Proof.
  induction s as [| a s IH]; [reflexivity |].
  cbn [replace_slash remove]. destruct (Ascii.eqb a "/") eqn:E.
  - apply Ascii.eqb_eq in E. subst a. reflexivity.
  - cbn [remove]. now rewrite IH.
Qed.

Lemma formatExpiry_length value :
  String.length (formatExpiry value)
  = let n := String.length (digits value) in
    if (2 <=? n)%nat then (3 + Nat.min 2 (n - 2))%nat else n.
Proof.
  unfold formatExpiry. cbv zeta.
  destruct (2 <=? String.length (digits value))%nat eqn:Hlen; [| reflexivity].
  apply Nat.leb_le in Hlen.
  rewrite !append_length, !substring_length. cbn [String.length]. lia.
Qed.

Lemma too_short_length s n :
  (0 < n)%nat ->
  too_short (Some s) (fun s => s) n = (String.length s <? n)%nat.
Proof.
  intros Hn. unfold too_short.
  destruct s as [| a s]; cbn [String.eqb orb String.length].
  - symmetry. apply Nat.ltb_lt. exact Hn.
  - reflexivity.
Qed.

Lemma parts_grouped fuel m :
  (String.length m <= fuel)%nat ->
  JS.join " " (parts_from fuel 0 m) = grouped m.
Proof.
  revert m. induction fuel as [| fuel IH]; intros m Hlen.
  - destruct m; [reflexivity | cbn in Hlen; lia].
  - destruct m as [| a1 [| a2 [| a3 [| a4 rest]]]];
      try (cbn [parts_from String.length Nat.ltb Nat.leb substring Nat.add];
           rewrite ?parts_from_shift, ?parts_from_empty; reflexivity).
    cbn [parts_from String.length Nat.ltb Nat.leb substring Nat.add].
    rewrite !parts_from_shift, substring_none.
    assert (Hl : (String.length rest <= fuel)%nat)
      by (cbn [String.length] in Hlen; lia).
    specialize (IH rest Hl).
    destruct rest as [| a5 rest].
    + rewrite parts_from_empty. reflexivity.
    + destruct (parts_from fuel 0 (String a5 rest)) as [| x r] eqn:Hparts.
      * exfalso. revert Hparts. now apply parts_from_nonempty.
      * change (JS.join " " (?h :: x :: r))
          with (h +++ " " +++ JS.join " " (x :: r)).
        rewrite IH. reflexivity.
Qed.

Lemma grouped_short s : (String.length s <= 4)%nat -> grouped s = s.
Proof.
  destruct s as [| a1 [| a2 [| a3 [| a4 [| a5 rest]]]]]; try reflexivity.
  cbn [String.length]. lia.
Qed.

Lemma formatCardNumber_is_grouped value :
  formatCardNumber value = grouped (substring 0 16 (digits value)).
Proof.
  rewrite formatCardNumber_digits. cbv zeta.
  destruct (4 <=? String.length (digits value))%nat eqn:Hlen.
  - apply parts_grouped. apply Nat.le_refl.
  - apply Nat.leb_gt in Hlen.
    rewrite substring_all by lia. symmetry. apply grouped_short. lia.
Qed.

Lemma digits_formatCardNumber value :
  digits (formatCardNumber value) = substring 0 16 (digits value).
Proof.
  unfold digits at 1. rewrite formatCardNumber_kept.
  apply remove_not_digit_digits, substring_all_digits, digits_all_digits.
Qed.

Lemma substring_substring n s :
  substring 0 n (substring 0 n s) = substring 0 n s.
Proof.
  apply substring_all. rewrite substring_length. lia.
Qed.

Lemma grouped_length_le n m :
  (String.length m <= n)%nat ->
  String.length (grouped m)
  = (String.length m + (String.length m - 1) / 4)%nat.
Proof.
  revert m. induction n as [| n IH]; intros m Hlen.
  - destruct m; [reflexivity | cbn in Hlen; lia].
  - destruct m as [| a1 [| a2 [| a3 [| a4 [| a5 rest]]]]]; try reflexivity.
    change (grouped (String a1 (String a2 (String a3 (String a4
                                                       (String a5 rest))))))
      with (String a1 (String a2 (String a3 (String a4
              (String " " (grouped (String a5 rest))))))).
    cbn [String.length] in Hlen. cbn [String.length].
    rewrite (IH (String a5 rest)) by (cbn [String.length]; lia).
    cbn [String.length].
    generalize (String.length rest). intros k.
    replace (S (S (S (S (S k)))) - 1)%nat with (k + 1 * 4)%nat by lia.
    replace (S k - 1)%nat with k by lia.
    rewrite Nat.div_add by lia. lia.
Qed.

Lemma digits_digit a s :
  is_digit a = true -> digits (String a s) = String a (digits s).
Proof.
  intros Ha. rewrite !digits_remove. cbn [remove]. unfold not_digit at 1.
  now rewrite Ha.
Qed.

Lemma formatExpiry_by_digits value :
  formatExpiry value = formatExpiry (digits value).
Proof.
  unfold formatExpiry.
  now rewrite (digits_of_digits _ (digits_all_digits value)).
Qed.

Lemma formatExpiry_again v :
  all_digits v = true -> formatExpiry (formatExpiry v) = formatExpiry v.
Proof.
  intros Hd. unfold formatExpiry at 2. rewrite (digits_of_digits v Hd).
  destruct v as [| a [| b rest]].
  - reflexivity.
  - cbn [String.length Nat.leb]. unfold formatExpiry.
    now rewrite (digits_of_digits _ Hd).
  - cbn [all_digits] in Hd.
    apply andb_true_iff in Hd. destruct Hd as [Ha Hd].
    apply andb_true_iff in Hd. destruct Hd as [Hb Hd].
    cbn [String.length Nat.leb substring String.append].
    rewrite substring_none. cbn [String.append].
    assert (Hs : digits (String "/" (substring 0 2 rest))
                 = substring 0 2 rest).
    { rewrite digits_remove. cbn [remove].
      change (not_digit "/") with true. cbv iota.
      apply remove_not_digit_digits. now apply substring_all_digits. }
    unfold formatExpiry.
    rewrite !(digits_digit a _ Ha), !(digits_digit b _ Hb), Hs.
    rewrite (digits_of_digits rest Hd).
    cbn [String.length Nat.leb substring String.append].
    rewrite !substring_none. cbn [String.append].
    now rewrite substring_substring.
Qed.

End CardForm.

(** X22. The card number shown is the first sixteen digits typed, in
    groups of four separated by single spaces: every other character is
    dropped, digits after the sixteenth too, and the result is at most
    nineteen characters long. *)
Theorem formatCardNumber_groups_sixteen_digits (value : string) :
  let typed := PaymentModal.digits value in
  PaymentModal.all_digits typed = true
  /\ PaymentModal.formatCardNumber value = grouped (substring 0 16 typed)
  /\ PaymentModal.remove PaymentModal.is_space
       (PaymentModal.formatCardNumber value)
     = substring 0 16 typed
  /\ (String.length (PaymentModal.formatCardNumber value) <= 19)%nat.
Proof.
  intros typed. split; [apply digits_all_digits |].
  split; [apply formatCardNumber_is_grouped |].
  split; [apply formatCardNumber_kept |].
  rewrite formatCardNumber_is_grouped.
  rewrite (grouped_length_le _ _ (Nat.le_refl _)).
  rewrite substring_length.
  assert (H : (Nat.min 16 (String.length (PaymentModal.digits value) - 0)
               <= 16)%nat) by lia.
  revert H. generalize (Nat.min 16 (String.length (PaymentModal.digits value)
                                    - 0)).
  intros n Hn.
  assert (((n - 1) / 4 < 4)%nat);
    [apply Nat.Div0.div_lt_upper_bound; lia | lia].
Qed.

(** X23. Formatting a card number that is already formatted changes
    nothing, so re-typing into the formatted field is stable. *)
Theorem formatCardNumber_idempotent (value : string) :
  PaymentModal.formatCardNumber (PaymentModal.formatCardNumber value)
  = PaymentModal.formatCardNumber value.
Proof.
  rewrite (formatCardNumber_is_grouped (PaymentModal.formatCardNumber value)).
  rewrite digits_formatCardNumber, substring_substring.
  symmetry. apply formatCardNumber_is_grouped.
Qed.

(** X24. The expiry shown depends on the digits typed alone: removing
    the first slash before formatting, as [handleCardChange] does, is
    redundant; formatting the result again changes nothing, and the
    result is at most five characters long. *)
Theorem formatExpiry_by_digits_alone (value : string) :
  PaymentModal.formatExpiry (PaymentModal.replace_slash value)
  = PaymentModal.formatExpiry value
  /\ PaymentModal.formatExpiry (PaymentModal.formatExpiry value)
     = PaymentModal.formatExpiry value
  /\ (String.length (PaymentModal.formatExpiry value) <= 5)%nat.
Proof.
  split; [| split].
  - unfold PaymentModal.formatExpiry.
    now rewrite !digits_remove, replace_slash_digits.
  - rewrite (formatExpiry_by_digits value).
    apply formatExpiry_again, digits_all_digits.
  - rewrite formatExpiry_length. cbv zeta.
    destruct (2 <=? String.length (PaymentModal.digits value))%nat eqn:E;
      [lia | apply Nat.leb_gt in E; lia].
Qed.

(** X25. What the card form accepts: after the four fields have been
    typed, [validateCard] passes exactly when the number has sixteen
    digits or more, the name three characters or more, the expiry four
    digits or more and the CVV three digits or more, whatever else was
    typed between the digits and whatever the form held before. *)
Theorem validateCard_accepts (prev : PaymentModal.cardData)
        (number name expiry cvv : string) :
  let data :=
    PaymentModal.handleCardChange "cvv" cvv
      (PaymentModal.handleCardChange "expiry" expiry
         (PaymentModal.handleCardChange "cardName" name
            (PaymentModal.handleCardChange "cardNumber" number prev))) in
  snd (PaymentModal.validateCard data)
  = ((16 <=? String.length (PaymentModal.digits number))
     && (3 <=? String.length name)
     && (4 <=? String.length (PaymentModal.digits expiry))
     && (3 <=? String.length (PaymentModal.digits cvv)))%nat.
Proof.
  intros data. subst data. unfold PaymentModal.handleCardChange.
  cbn [String.eqb Ascii.eqb Bool.eqb].
  unfold PaymentModal.validateCard.
  rewrite own_set_same.
  rewrite (own_set_other "expiry" "cvv") by reflexivity.
  rewrite own_set_same.
  rewrite (own_set_other "cardName" "cvv") by reflexivity.
  rewrite (own_set_other "cardName" "expiry") by reflexivity.
  rewrite own_set_same.
  rewrite (own_set_other "cardNumber" "cvv") by reflexivity.
  rewrite (own_set_other "cardNumber" "expiry") by reflexivity.
  rewrite (own_set_other "cardNumber" "cardName") by reflexivity.
  rewrite own_set_same.
  rewrite !too_short_length by lia.
  assert (Hn : PaymentModal.too_short
                 (Some (PaymentModal.formatCardNumber number))
                 (PaymentModal.remove PaymentModal.is_space) 16
               = negb (16 <=? String.length (PaymentModal.digits number))%nat).
  { unfold PaymentModal.too_short. rewrite formatCardNumber_kept.
    rewrite substring_length.
    destruct (16 <=? String.length (PaymentModal.digits number))%nat eqn:E.
    - apply Nat.leb_le in E. cbn [negb]. apply orb_false_iff. split.
      + destruct (PaymentModal.formatCardNumber number) eqn:F;
          [| reflexivity].
        pose proof (formatCardNumber_kept number) as K. rewrite F in K.
        apply (f_equal String.length) in K. rewrite substring_length in K.
        cbn [PaymentModal.remove String.length] in K. lia.
      + apply Nat.ltb_ge. lia.
    - apply Nat.leb_gt in E. cbn [negb]. apply orb_true_iff. right.
      apply Nat.ltb_lt. lia. }
  assert (He : PaymentModal.formatExpiry (PaymentModal.replace_slash expiry)
               = PaymentModal.formatExpiry expiry).
  { unfold PaymentModal.formatExpiry.
    now rewrite !digits_remove, replace_slash_digits. }
  rewrite Hn, He, formatExpiry_length.
  rewrite <- (digits_remove cvv), substring_length. cbv zeta.
  generalize (String.length (PaymentModal.digits number)),
    (String.length name), (String.length (PaymentModal.digits expiry)),
    (String.length (PaymentModal.digits cvv)).
  intros a n x c.
  assert (Hx : ((if 2 <=? x then 3 + Nat.min 2 (x - 2) else x) <? 5)%nat
               = negb (4 <=? x)%nat).
  { destruct (4 <=? x)%nat eqn:E4; cbn [negb].
    - apply Nat.leb_le in E4. apply Nat.ltb_ge.
      destruct (2 <=? x)%nat eqn:E2;
        [lia | apply Nat.leb_gt in E2; lia].
    - apply Nat.leb_gt in E4. apply Nat.ltb_lt.
      destruct (2 <=? x)%nat; lia. }
  assert (Hc : (Nat.min 4 (c - 0) <? 3)%nat = negb (3 <=? c)%nat).
  { destruct (3 <=? c)%nat eqn:E3; cbn [negb].
    - apply Nat.leb_le in E3. apply Nat.ltb_ge. lia.
    - apply Nat.leb_gt in E3. apply Nat.ltb_lt. lia. }
  rewrite Hx, Hc, (Nat.ltb_antisym 3 n).
  destruct (16 <=? a)%nat, (3 <=? n)%nat, (4 <=? x)%nat, (3 <=? c)%nat;
    reflexivity.
Qed.
